(** * Input constructors for acquisition functions

    A shallow embedding of [botorch/acquisition/input_constructors.py]:
    the registry of input constructors, the best-observed-value helpers,
    the constructors that depend on the block-design flag of the training
    data, the multi-fidelity base constructor, the hypervolume-improvement
    constructor and the translation of linear constraints performed by
    [optimize_objective].

    Conventions.
    - Python exceptions are values of [exn]; a call that may raise returns
      a [Result].
    - The module-level dictionary [ACQF_INPUT_CONSTRUCTOR_REGISTRY] is
      threaded explicitly through the functions that read or write it.
    - Tensor entries are finite floating-point numbers, embedded in [Q];
      the functions below only compare, negate and test them for zero. *)

From stdpp Require Import gmap strings list sorting.
From Stdlib Require Import QArith Qminmax Lqa.

Open Scope string_scope.
Open Scope list_scope.

(* ================================================================= *)
(** ** Exceptions and results *)

Inductive exn : Type :=
| RuntimeError (msg : string)
| ValueError (msg : string)
| NotImplementedError (msg : string)
| UnsupportedError (msg : string)
| IndexError (msg : string)
| TypeError (msg : string).

Inductive Result (A : Type) : Type :=
| Ok (a : A)
| Raise (e : exn).
Arguments Ok {A} a.
Arguments Raise {A} e.

#[export] Instance Result_ret : MRet Result := fun _ a => Ok a.
#[export] Instance Result_bind : MBind Result := fun _ _ f r =>
  match r with
  | Ok a => f a
  | Raise e => Raise e
  end.

#[export] Instance Result_fmap : FMap Result := fun _ _ f r =>
  match r with
  | Ok a => Ok (f a)
  | Raise e => Raise e
  end.

Definition raises {A} (r : Result A) : Prop := ∃ e, r = Raise e.
Definition returns {A} (r : Result A) : Prop := ∃ a, r = Ok a.

(* ================================================================= *)
(** ** The registry *)

(** An acquisition-function class is identified by its [__name__]; the
    classes imported by the module have pairwise distinct names. *)
Abbreviation AcqfCls := string (only parsing).

Section registry.
(** [F] is the type of input constructors (Python callables). *)
Context {F : Type}.

Definition not_registered_msg (acqf_cls : AcqfCls) : string :=
  "Input constructor for acquisition class `" +:+ acqf_cls +:+ "` not "
  +:+ "registered. Use the `@acqf_input_constructor` decorator to register "
  +:+ "a new method.".

Definition duplicate_msg (acqf_cls : AcqfCls) : string :=
  "Cannot register duplicate arg constructor for acquisition "
  +:+ "class `" +:+ acqf_cls +:+ "`".

Definition get_acqf_input_constructor
    (REGISTRY : gmap string F) (acqf_cls : AcqfCls) : Result F :=
  match REGISTRY !! acqf_cls with
  | None => Raise (RuntimeError (not_registered_msg acqf_cls))
  | Some input_constructor => Ok input_constructor
  end.

Definition _register_acqf_input_constructor
    (acqf_cls : AcqfCls) (input_constructor : F)
    (REGISTRY : gmap string F) : gmap string F :=
  <[acqf_cls := input_constructor]> REGISTRY.

(** The first loop of [acqf_input_constructor]: it only reads the
    registry. *)
Fixpoint check_not_registered
    (REGISTRY : gmap string F) (acqf_cls : list AcqfCls) : Result unit :=
  match acqf_cls with
  | [] => Ok tt
  | acqf_cls_ :: rest =>
      if decide (is_Some (REGISTRY !! acqf_cls_))
      then Raise (ValueError (duplicate_msg acqf_cls_))
      else check_not_registered REGISTRY rest
  end.

(** The inner function [decorator]: for each class it calls
    [_register_acqf_input_constructor] and then assigns the same entry
    once more; it returns [method]. *)
Definition decorator (acqf_cls : list AcqfCls) (method : F)
    (REGISTRY : gmap string F) : F * gmap string F :=
  (method,
   foldl (fun R acqf_cls_ =>
            <[acqf_cls_ := method]>
              (_register_acqf_input_constructor acqf_cls_ method R))
         REGISTRY acqf_cls).

(** [acqf_input_constructor] applied to the classes [acqf_cls]: it
    checks them, then returns the closure [decorator]. *)
Definition acqf_input_constructor
    (REGISTRY : gmap string F) (acqf_cls : list AcqfCls)
  : Result (F → gmap string F → F * gmap string F) :=
  _ ← check_not_registered REGISTRY acqf_cls;
  mret (decorator acqf_cls).

(** The statement
    [@acqf_input_constructor(classes) def method(...): ...]:
    the decorator expression is evaluated, then the function object is
    created, then the decorator is applied to it.  An exception leaves
    the registry as it was. *)
Definition decorated_def (acqf_cls : list AcqfCls) (method : F)
    (REGISTRY : gmap string F) : Result F * gmap string F :=
  match acqf_input_constructor REGISTRY acqf_cls with
  | Raise e => (Raise e, REGISTRY)
  | Ok dec => let '(f, R) := dec method REGISTRY in (Ok f, R)
  end.

(** A run of registration statements; the exception of a failing
    statement is caught by the caller and the run goes on. *)
Definition attempt_all (stmts : list (list AcqfCls * F))
    (REGISTRY : gmap string F) : gmap string F :=
  foldl (fun R s => (decorated_def s.1 s.2 R).2) REGISTRY stmts.

(** Loading a module: the statements run in order and the first
    exception aborts the load. *)
Fixpoint load_module (stmts : list (list AcqfCls * F))
    (REGISTRY : gmap string F) : Result (gmap string F) :=
  match stmts with
  | [] => Ok REGISTRY
  | s :: rest =>
      match decorated_def s.1 s.2 REGISTRY with
      | (Raise e, _) => Raise e
      | (Ok _, R) => load_module rest R
      end
  end.
End registry.

(** The registration statements of the module, in source order.  Each
    constructor is named by its [__name__]. *)
Definition module_statements : list (list AcqfCls * string) :=
  [ (["PosteriorMean"], "construct_inputs_analytic_base");
    (["ExpectedImprovement"; "ProbabilityOfImprovement"],
     "construct_inputs_best_f");
    (["UpperConfidenceBound"], "construct_inputs_ucb");
    (["ConstrainedExpectedImprovement"], "construct_inputs_constrained_ei");
    (["NoisyExpectedImprovement"], "construct_inputs_noisy_ei");
    (["qSimpleRegret"], "construct_inputs_mc_base");
    (["qExpectedImprovement"], "construct_inputs_qEI");
    (["qNoisyExpectedImprovement"], "construct_inputs_qNEI");
    (["qProbabilityOfImprovement"], "construct_inputs_qPI");
    (["qUpperConfidenceBound"], "construct_inputs_qUCB");
    (["ExpectedHypervolumeImprovement"], "construct_inputs_EHVI");
    (["qExpectedHypervolumeImprovement"], "construct_inputs_qEHVI");
    (["qNoisyExpectedHypervolumeImprovement"], "construct_inputs_qNEHVI");
    (["qMaxValueEntropy"], "construct_inputs_qMES");
    (["qKnowledgeGradient"], "construct_inputs_qKG");
    (["qMultiFidelityKnowledgeGradient"], "construct_inputs_qMFKG");
    (["qMultiFidelityMaxValueEntropy"], "construct_inputs_qMFMES") ].

(** [ACQF_INPUT_CONSTRUCTOR_REGISTRY] once the module is imported. *)
Definition ACQF_INPUT_CONSTRUCTOR_REGISTRY : gmap string string :=
  match load_module module_statements ∅ with
  | Ok R => R
  | Raise _ => ∅
  end.

(* ================================================================= *)
(** ** Tensors *)

(** A tensor is its shape and its entries in row-major order, as in
    [torch].  Only the operations that the module applies are embedded;
    each follows the behaviour of the [torch] operation of the same name,
    including the exception it raises. *)
Module torch.

Record Tensor (A : Type) : Type := mkTensor
  { shape : list nat; data : list A }.
Arguments mkTensor {A} shape data.
Arguments shape {A} t.
Arguments data {A} t.

Definition numel (s : list nat) : nat := foldr Nat.mul 1%nat s.

(** The entries fill the shape. *)
Definition wf {A} (t : Tensor A) : Prop :=
  length (data t) = numel (shape t).

(** A 0-dim tensor holding [x]. *)
Definition scalar {A} (x : A) : Tensor A := mkTensor [] [x].

(** [s ++ [k]] is split into [(s, k)]. *)
Fixpoint split_last (s : list nat) : option (list nat * nat) :=
  match s with
  | [] => None
  | [k] => Some ([], k)
  | n :: s' =>
      match split_last s' with
      | Some (r, k) => Some (n :: r, k)
      | None => None
      end
  end.

(** [t.shape[-1]] *)
Definition shape_last {A} (t : Tensor A) : Result nat :=
  match split_last (shape t) with
  | Some (_, k) => Ok k
  | None => Raise (IndexError "tuple index out of range")
  end.

(** [t.shape[0]] *)
Definition shape_first {A} (t : Tensor A) : Result nat :=
  match shape t with
  | n :: _ => Ok n
  | [] => Raise (IndexError "tuple index out of range")
  end.

(** [len(t)] *)
Definition len {A} (t : Tensor A) : Result nat :=
  match shape t with
  | n :: _ => Ok n
  | [] => Raise (TypeError "len() of a 0-d tensor")
  end.

(** [k, d = t.shape] *)
Definition unpack_shape2 {A} (t : Tensor A) : Result (nat * nat) :=
  match shape t with
  | [k; d] => Ok (k, d)
  | [] | [_] => Raise (ValueError "not enough values to unpack")
  | _ => Raise (ValueError "too many values to unpack")
  end.

(** [count] consecutive slices of [size] entries. *)
Fixpoint chunks {A} (count size : nat) (l : list A) : list (list A) :=
  match count with
  | O => []
  | S c => take size l :: chunks c size (drop size l)
  end.

Definition Qmax2 (x y : Q) : Q := if Qle_bool x y then y else x.

(** The largest entry of a slice; slices of a well-formed tensor reduced
    along a dimension of non-zero size are never empty. *)
Definition list_max (l : list Q) : Q :=
  match l with
  | [] => 0%Q
  | x :: r => foldl Qmax2 x r
  end.

(** [t.max(-1).values] *)
Definition max_last (t : Tensor Q) : Result (Tensor Q) :=
  match split_last (shape t) with
  | None => Ok t
  | Some (s, k) =>
      if decide (k = 0%nat)
      then Raise (IndexError
             "max(): Expected reduction dim -1 to have non-zero size.")
      else Ok (mkTensor s (list_max <$> chunks (numel s) k (data t)))
  end.

(** Column [j] of a block of [n] rows of [m] entries. *)
Definition column (n m j : nat) (block : list Q) : list Q :=
  (fun row => nth j row 0%Q) <$> chunks n m block.

(** [t.max(-2).values] *)
Definition max_dim2 (t : Tensor Q) : Result (Tensor Q) :=
  match split_last (shape t) with
  | None =>
      Raise (IndexError
        "Dimension out of range (expected to be in range of [-1, 0], but got -2)")
  | Some (s', m) =>
      match split_last s' with
      | None =>
          Raise (IndexError
            "Dimension out of range (expected to be in range of [-1, 0], but got -2)")
      | Some (s, n) =>
          if decide (n = 0%nat)
          then Raise (IndexError
                 "max(): Expected reduction dim -2 to have non-zero size.")
          else Ok (mkTensor (s ++ [m])
                     (concat ((fun block =>
                                 (fun j => list_max (column n m j block))
                                   <$> seq 0 m)
                              <$> chunks (numel s) (n * m) (data t))))
      end
  end.

(** [t.squeeze(-1)] *)
Definition squeeze_last {A} (t : Tensor A) : Tensor A :=
  match split_last (shape t) with
  | Some (s, 1%nat) => mkTensor s (data t)
  | _ => t
  end.

(** [t.squeeze()] *)
Definition squeeze {A} (t : Tensor A) : Tensor A :=
  mkTensor (filter (fun n => n ≠ 1%nat) (shape t)) (data t).

(** [-t] *)
Definition neg (t : Tensor Q) : Tensor Q :=
  mkTensor (shape t) (Qopp <$> data t).

(** [t[i, :]] for a 2-dim [t] with rows of [d] entries. *)
Definition row (d i : nat) (t : Tensor Q) : Tensor Q :=
  mkTensor [d] (take d (drop (i * d) (data t))).

(** The positions of the non-zero entries of a list, counted from
    [start]. *)
Fixpoint nonzero_positions (start : nat) (l : list Q) : list nat :=
  match l with
  | [] => []
  | x :: r =>
      if Qeq_bool x 0
      then nonzero_positions (S start) r
      else start :: nonzero_positions (S start) r
  end.

(** [t.nonzero(as_tuple=False)] for a 1-dim [t]: a [z x 1] tensor of
    indices. *)
Definition nonzero (t : Tensor Q) : Tensor nat :=
  let idx := nonzero_positions 0 (data t) in
  mkTensor [length idx; 1%nat] idx.

(** [t[i, indices]] for a 2-dim [t] with rows of [d] entries; the result
    has the shape of [indices]. *)
Definition index_row (d i : nat) (t : Tensor Q) (indices : Tensor nat)
  : Result (Tensor Q) :=
  if decide (Forall (fun j => j < d)%nat (data indices))
  then Ok (mkTensor (shape indices)
             ((fun j => nth (i * d + j) (data t) 0%Q) <$> data indices))
  else Raise (IndexError "index is out of bounds").

(** [t[i, j]] for a 2-dim [t], as the bound [b] is documented to be
    ([k x 1]); the result is a 0-dim tensor. *)
Definition index2 (i j : nat) (t : Tensor Q) : Result (Tensor Q) :=
  match shape t with
  | [k; c] =>
      if decide (i < k ∧ j < c)%nat
      then Ok (scalar (nth (i * c + j) (data t) 0%Q))
      else Raise (IndexError "index is out of bounds")
  | _ => Raise (IndexError "too many indices for tensor")
  end.

(** [t[:, dims]] for a 2-dim [t], as [bounds] is documented to be
    ([2 x d]). *)
Definition index_columns (t : Tensor Q) (dims : list nat)
  : Result (Tensor Q) :=
  match shape t with
  | [k; d] =>
      if decide (Forall (fun j => j < d)%nat dims)
      then Ok (mkTensor [k; length dims]
                 (concat ((fun r => (fun j => nth j r 0%Q) <$> dims)
                          <$> chunks k d (data t))))
      else Raise (IndexError "index is out of bounds")
  | _ => Raise (IndexError "too many indices for tensor")
  end.

(** [t[..., j]] *)
Definition select_last (j : nat) (t : Tensor Q) : Result (Tensor Q) :=
  match split_last (shape t) with
  | None => Raise (IndexError "too many indices for tensor")
  | Some (s, m) =>
      if decide (j < m)%nat
      then Ok (mkTensor s
                 ((fun r => nth j r 0%Q) <$> chunks (numel s) m (data t)))
      else Raise (IndexError "index is out of bounds")
  end.

End torch.

Export torch.

Abbreviation FloatTensor := (Tensor Q).
Abbreviation LongTensor := (Tensor nat).

(* ================================================================= *)
(** ** Collaborating objects *)

(** The model is used through [model.posterior(X).mean] only. *)
Record Model : Type := mkModel
  { posterior_mean : FloatTensor → Result FloatTensor }.

(** Modelled from the spec: [botorch.utils.containers.TrainingData] is not
    part of the sources at hand; it is a training-data object exposing
    input and outcome tensors and a block-design flag.  What reading [X]
    or [Y] does when the flag is false is not in these sources either:
    the projections below stand for the reads on block-design data. *)
Module TrainingData.
Record t : Type := mk
  { is_block_design : bool; X : FloatTensor; Y : FloatTensor }.
End TrainingData.

(** Objectives, by the class the module tests for with [isinstance].
    [forward] is what calling the object does; a [ScalarizedObjective]
    has an [evaluate] method as well. *)
Inductive AcquisitionObjective : Type :=
| ScalarizedObjective (evaluate forward : FloatTensor → Result FloatTensor)
| MCAcquisitionObjective (forward : FloatTensor → Result FloatTensor)
| AnalyticMultiOutputObjective (forward : FloatTensor → Result FloatTensor).

(** [objective(t)] *)
Definition call (objective : AcquisitionObjective) (t : FloatTensor)
  : Result FloatTensor :=
  match objective with
  | ScalarizedObjective _ forward
  | MCAcquisitionObjective forward
  | AnalyticMultiOutputObjective forward => forward t
  end.

(** Modelled from the spec: the class [IdentityMCObjective] of
    [botorch.acquisition.objective] is not part of the sources at hand; it
    is the identity objective on single-output samples, which drops the
    trailing output dimension. *)
Definition IdentityMCObjective : AcquisitionObjective :=
  MCAcquisitionObjective (fun samples => Ok (squeeze_last samples)).

(** Modelled from the spec: the classes
    [IdentityAnalyticMultiOutputObjective] and
    [IdentityMCMultiOutputObjective] of
    [botorch.acquisition.multi_objective.objective] are not part of the
    sources at hand; they are the identity on outcome tensors. *)
Definition IdentityAnalyticMultiOutputObjective : AcquisitionObjective :=
  AnalyticMultiOutputObjective (fun Y => Ok Y).

(** An objective restricted to outcome [j], as
    [GenericMCObjective(lambda Y: Y[..., j])]. *)
Definition column_objective (j : nat) : AcquisitionObjective :=
  MCAcquisitionObjective (select_last j).

Inductive MCSampler : Type :=
| SobolQMCNormalSampler (num_samples : Z) (seed : option Z)
| IIDNormalSampler (num_samples : Z) (seed : option Z).

(** The box decompositions, as the class that is instantiated and the
    arguments it receives. *)
Inductive Partitioning : Type :=
| NondominatedPartitioning (ref_point Y : FloatTensor) (alpha : Q)
| FastNondominatedPartitioning (ref_point Y : FloatTensor).

Record AffineFidelityCostModel : Type := mkAffineFidelityCostModel
  { fidelity_weights : gmap Z Q; fixed_cost : Q }.

Record InverseCostWeightedUtility : Type := mkInverseCostWeightedUtility
  { cost_model : AffineFidelityCostModel }.

(** Python values that occur as keyword arguments and in the bundles the
    constructors return. *)
Inductive Value : Type :=
| VNone
| VBool (b : bool)
| VInt (z : Z)
| VFloat (q : Q)
| VStr (s : string)
| VTensor (t : FloatTensor)
| VModel (m : Model)
| VObjective (o : AcquisitionObjective)
| VSampler (s : MCSampler)
| VPartitioning (p : Partitioning)
| VFidelities (d : gmap Z Q)
| VUtility (u : InverseCostWeightedUtility)
| VCallable (f : FloatTensor → Result FloatTensor).

Definition of_option {A} (f : A → Value) (o : option A) : Value :=
  from_option f VNone o.

(** [isinstance(v, Callable)] *)
Definition callable (v : Value) : bool :=
  match v with
  | VCallable _ => true
  | _ => false
  end.

(** [d.get(key)] and [d.get(key, default)] on a keyword dictionary *)
Definition get (d : gmap string Value) (key : string) : Value :=
  default VNone (d !! key).
Definition get_default (d : gmap string Value) (key : string)
    (dflt : Value) : Value :=
  default dflt (d !! key).

(** [v is None] *)
Definition is_None (v : Value) : bool :=
  match v with
  | VNone => true
  | _ => false
  end.

(** [v > 0], with the number compared *)
Definition gt_zero (v : Value) : Result (bool * Q) :=
  match v with
  | VFloat q => Ok (negb (Qle_bool q 0), q)
  | VInt z => Ok (negb (Qle_bool (inject_Z z) 0), inject_Z z)
  | VBool b => Ok (b, if b then 1%Q else 0%Q)
  | VTensor t =>
      match data t with
      | [x] => Ok (negb (Qle_bool x 0), x)
      | _ => Raise (RuntimeError
               "Boolean value of Tensor with more than one value is ambiguous")
      end
  | _ => Raise (TypeError "'>' not supported between these operands")
  end.

(** A keyword value passed where a tensor is expected *)
Definition as_tensor (v : Value) : Result FloatTensor :=
  match v with
  | VTensor t => Ok t
  | _ => Raise (TypeError "expected a Tensor")
  end.

(* ================================================================= *)
(** ** Best observed values *)

Definition get_best_f_analytic
    (training_data : TrainingData.t)
    (objective : option AcquisitionObjective) : Result FloatTensor :=
  if negb (TrainingData.is_block_design training_data)
  then Raise (NotImplementedError
                "Currently only block designs are supported.")
  else
    let Y := TrainingData.Y training_data in
    match objective with
    | Some (ScalarizedObjective evaluate _) =>
        T ← evaluate Y; max_last T
    | _ =>
        m ← shape_last Y;
        if decide (1 < m)%nat
        then Raise (NotImplementedError
               ("Analytic acquisition functions currently only work with "
                +:+ "multi-output models if provided with a "
                +:+ "`ScalarizedObjective`."))
        else squeeze_last <$> max_dim2 Y
    end.

Definition get_best_f_mc
    (training_data : TrainingData.t)
    (objective : option AcquisitionObjective) : Result FloatTensor :=
  if negb (TrainingData.is_block_design training_data)
  then Raise (NotImplementedError
                "Currently only block designs are supported.")
  else
    let Y := TrainingData.Y training_data in
    objective ←
      match objective with
      | None =>
          m ← shape_last Y;
          if decide (1 < m)%nat
          then Raise (UnsupportedError
                 ("Acquisition functions require an objective when "
                  +:+ "used with multi-output models (execpt for "
                  +:+ "multi-objectiveacquisition functions)."))
          else Ok IdentityMCObjective
      | Some objective => Ok objective
      end;
    T ← call objective (TrainingData.Y training_data);
    max_last T.

(* ================================================================= *)
(** ** Input constructors *)

(** Optional parameters are passed explicitly; the defaults of the source
    are recorded here. *)
Definition maximize_default : bool := true.
Definition num_fantasies_default : Z := 20.
Definition prune_baseline_default : bool := false.
Definition tau_default : Q := 1 # 1000.
Definition beta_default : Q := 2 # 10.
Definition cost_intercept_default : Q := 1.
Definition num_trace_observations_default : Z := 0.

Definition construct_inputs_analytic_base
    (model : Model) (training_data : TrainingData.t)
    (objective : option AcquisitionObjective)
    (kwargs : gmap string Value) : Result (gmap string Value) :=
  Ok (<["objective" := of_option VObjective objective]>
        {["model" := VModel model]}).

Definition construct_inputs_best_f
    (model : Model) (training_data : TrainingData.t)
    (objective : option AcquisitionObjective) (maximize : bool)
    (kwargs : gmap string Value) : Result (gmap string Value) :=
  base_inputs ← construct_inputs_analytic_base model training_data objective ∅;
  (* the default handed to [kwargs.get] is evaluated before the call *)
  dflt ← get_best_f_analytic training_data objective;
  let best_f := get_default kwargs "best_f" (VTensor dflt) in
  Ok (<["maximize" := VBool maximize]> (<["best_f" := best_f]> base_inputs)).

Definition construct_inputs_ucb
    (model : Model) (training_data : TrainingData.t)
    (objective : option AcquisitionObjective) (beta : Value)
    (maximize : bool)
    (kwargs : gmap string Value) : Result (gmap string Value) :=
  base_inputs ← construct_inputs_analytic_base model training_data objective ∅;
  Ok (<["maximize" := VBool maximize]> (<["beta" := beta]> base_inputs)).

Definition construct_inputs_constrained_ei
    (model : Model) (training_data : TrainingData.t)
    (objective_index : Z) (constraints : Value) (maximize : bool)
    (kwargs : gmap string Value) : Result (gmap string Value) :=
  Raise (NotImplementedError "").

Definition construct_inputs_noisy_ei
    (model : Model) (training_data : TrainingData.t)
    (num_fantasies : Z) (maximize : bool)
    (kwargs : gmap string Value) : Result (gmap string Value) :=
  if negb (TrainingData.is_block_design training_data)
  then Raise (NotImplementedError
                "Currently only block designs are supported")
  else
    Ok (<["maximize" := VBool maximize]>
       (<["num_fantasies" := VInt num_fantasies]>
       (<["X_observed" := VTensor (TrainingData.X training_data)]>
          {["model" := VModel model]}))).

Definition construct_inputs_mc_base
    (model : Model) (training_data : TrainingData.t)
    (objective : option AcquisitionObjective)
    (X_pending : option FloatTensor) (sampler : option MCSampler)
    (kwargs : gmap string Value) : Result (gmap string Value) :=
  Ok (<["sampler" := of_option VSampler sampler]>
     (<["X_pending" := of_option VTensor X_pending]>
     (<["objective" := of_option VObjective objective]>
        {["model" := VModel model]}))).

Definition construct_inputs_qEI
    (model : Model) (training_data : TrainingData.t)
    (objective : option AcquisitionObjective)
    (X_pending : option FloatTensor) (sampler : option MCSampler)
    (kwargs : gmap string Value) : Result (gmap string Value) :=
  base_inputs ←
    construct_inputs_mc_base model training_data objective X_pending sampler ∅;
  (* the default handed to [kwargs.get] is evaluated before the call *)
  dflt ← get_best_f_mc training_data objective;
  let best_f := get_default kwargs "best_f" (VTensor dflt) in
  Ok (<["best_f" := best_f]> base_inputs).

Definition construct_inputs_qNEI
    (model : Model) (training_data : TrainingData.t)
    (objective : option AcquisitionObjective)
    (X_pending : option FloatTensor) (sampler : option MCSampler)
    (X_baseline : option FloatTensor) (prune_baseline : bool)
    (kwargs : gmap string Value) : Result (gmap string Value) :=
  base_inputs ←
    construct_inputs_mc_base model training_data objective X_pending sampler ∅;
  X_baseline ←
    match X_baseline with
    | None =>
        if negb (TrainingData.is_block_design training_data)
        then Raise (NotImplementedError
                      "Currently only block designs are supported.")
        else Ok (TrainingData.X training_data)
    | Some X_baseline => Ok X_baseline
    end;
  Ok (<["prune_baseline" := VBool prune_baseline]>
     (<["X_baseline" := VTensor X_baseline]> base_inputs)).

Definition construct_inputs_qPI
    (model : Model) (training_data : TrainingData.t)
    (objective : option AcquisitionObjective)
    (X_pending : option FloatTensor) (sampler : option MCSampler)
    (tau : Q) (best_f : Value)
    (kwargs : gmap string Value) : Result (gmap string Value) :=
  base_inputs ←
    construct_inputs_mc_base model training_data objective X_pending sampler ∅;
  best_f ←
    (if is_None best_f
     then VTensor <$> get_best_f_mc training_data objective
     else Ok best_f);
  Ok (<["best_f" := best_f]> (<["tau" := VFloat tau]> base_inputs)).

Definition construct_inputs_qUCB
    (model : Model) (training_data : TrainingData.t)
    (objective : option AcquisitionObjective)
    (X_pending : option FloatTensor) (sampler : option MCSampler)
    (beta : Q)
    (kwargs : gmap string Value) : Result (gmap string Value) :=
  base_inputs ←
    construct_inputs_mc_base model training_data objective X_pending sampler ∅;
  Ok (<["beta" := VFloat beta]> base_inputs).

(* ================================================================= *)
(** ** Multi-fidelity base constructor *)

Section multi_fidelity.
(** Collaborators: the functions [expand_trace_observations] and
    [project_to_target_fidelity] of [botorch.acquisition.utils], and
    Python's rendering of a set in an f-string. *)
Context (expand_trace_observations :
           FloatTensor → list Z → Z → Result FloatTensor)
        (project_to_target_fidelity :
           FloatTensor → gmap Z Q → Result FloatTensor)
        (repr_set : gset Z → string).

(** [sorted(d)] for a dictionary [d] with integer keys *)
Definition sorted (d : gmap Z Q) : list Z :=
  merge_sort Z.le (elements (dom d)).

Definition construct_inputs_mf_base
    (model : Model) (training_data : TrainingData.t)
    (target_fidelities : gmap Z Q)
    (fidelity_weights : option (gmap Z Q))
    (cost_intercept : Q) (num_trace_observations : Z)
    (ignore : gmap string Value) : Result (gmap string Value) :=
  let fidelity_weights :=
    match fidelity_weights with
    | None => (fun _ => 1%Q) <$> target_fidelities
    | Some fidelity_weights => fidelity_weights
    end in
  if decide (dom target_fidelities ≠ dom fidelity_weights)
  then Raise (RuntimeError
         ("Must provide the same indices for target_fidelities "
          +:+ "(" +:+ repr_set (dom target_fidelities)
          +:+ ") and fidelity_weights "
          +:+ " (" +:+ repr_set (dom fidelity_weights) +:+ ")."))
  else
    let cost_aware_utility :=
      mkInverseCostWeightedUtility
        (mkAffineFidelityCostModel fidelity_weights cost_intercept) in
    Ok (<["project" :=
            VCallable (fun X =>
              project_to_target_fidelity X target_fidelities)]>
       (<["expand" :=
            VCallable (fun X =>
              expand_trace_observations X (sorted target_fidelities)
                num_trace_observations)]>
       (<["cost_aware_utility" := VUtility cost_aware_utility]>
          {["target_fidelities" := VFidelities target_fidelities]}))).
End multi_fidelity.

(* ================================================================= *)
(** ** Expected hypervolume improvement *)

Section hypervolume.
(** Collaborator: [get_default_partitioning_alpha] of
    [botorch.acquisition.multi_objective.utils]. *)
Context (get_default_partitioning_alpha : nat → Q).

Definition construct_inputs_EHVI
    (model : Model) (training_data : TrainingData.t)
    (objective_thresholds : FloatTensor)
    (objective : option AcquisitionObjective)
    (kwargs : gmap string Value) : Result (gmap string Value) :=
  num_objectives ← shape_first objective_thresholds;
  if negb (is_None (get kwargs "outcome_constraints"))
  then Raise (NotImplementedError
                "EHVI does not yet support outcome constraints.")
  else
    let X_observed := TrainingData.X training_data in
    let alpha :=
      get_default kwargs "alpha"
        (VFloat (get_default_partitioning_alpha num_objectives)) in
    let objective :=
      match objective with
      | None => IdentityAnalyticMultiOutputObjective
      | Some objective => objective
      end in
    ref_point ← call objective objective_thresholds;
    let Y_pmean := get kwargs "Y_pmean" in
    Y_pmean ←
      (if is_None Y_pmean
       then VTensor <$> posterior_mean model X_observed
       else Ok Y_pmean);
    '(positive, a) ← gt_zero alpha;
    partitioning ←
      (if positive : bool
       then Y ← as_tensor Y_pmean ≫= call objective;
            Ok (NondominatedPartitioning ref_point Y a)
       else Y ← as_tensor Y_pmean ≫= call objective;
            Ok (FastNondominatedPartitioning ref_point Y));
    Ok (<["objective" := VObjective objective]>
       (<["partitioning" := VPartitioning partitioning]>
       (<["ref_point" := VTensor ref_point]>
          {["model" := VModel model]}))).
End hypervolume.

(* ================================================================= *)
(** ** Optimizing an objective *)

(** One inequality constraint in the form [optimize_acqf] takes:
    [(indices, coefficients, rhs)] stands for
    [sum_j coefficients[j] * x[indices[j]] >= rhs]. *)
Definition SparseConstraint : Type :=
  LongTensor * FloatTensor * FloatTensor.

Inductive AcquisitionFunction : Type :=
| PosteriorMean (model : Model) (objective : AcquisitionObjective)
| qSimpleRegret (model : Model) (objective : AcquisitionObjective)
    (sampler : MCSampler)
| FixedFeatureAcquisitionFunction (acq_function : AcquisitionFunction)
    (d : nat) (columns : list Z) (values : list Q).

(** The keyword arguments of the call of [optimize_acqf]. *)
Record OptimizeAcqfArgs : Type := mkOptimizeAcqfArgs
  { acq_function : AcquisitionFunction;
    bounds : FloatTensor;
    q : Z;
    num_restarts : Value;
    raw_samples : Value;
    options : gmap string Value;
    inequality_constraints : option (list SparseConstraint);
    fixed_features : Value;
    post_processing_func : Value;
    batch_initial_conditions : option FloatTensor;
    return_best_only : bool;
    sequential : bool }.

(** The body of the loop [for i in range(k)] over the rows of [A]. *)
Definition constraint_of_row (A b : FloatTensor) (d i : nat)
  : Result SparseConstraint :=
  let indicies := squeeze (nonzero (row d i A)) in
  coefficients ← neg <$> index_row d i A indicies;
  rhs ← neg <$> index2 i 0 b;
  Ok (indicies, coefficients, rhs).

(** The loop itself, appending one triple per row. *)
Fixpoint constraint_loop (A b : FloatTensor) (d : nat) (rows : list nat)
    (inequality_constraints : list SparseConstraint)
  : Result (list SparseConstraint) :=
  match rows with
  | [] => Ok inequality_constraints
  | i :: rest =>
      c ← constraint_of_row A b d i;
      constraint_loop A b d rest (inequality_constraints ++ [c])
  end.

Definition make_inequality_constraints
    (linear_constraints : option (FloatTensor * FloatTensor))
  : Result (option (list SparseConstraint)) :=
  match linear_constraints with
  | None => Ok None
  | Some (A, b) =>
      '(k, d) ← unpack_shape2 A;
      Some <$> constraint_loop A b d (seq 0 k) []
  end.

Section optimize.
(** Collaborator: [optimize_acqf] of [botorch.optim.optimize]. *)
Context (optimize_acqf :
           OptimizeAcqfArgs → Result (FloatTensor * FloatTensor)).

Definition optimize_objective_args
    (model : Model) (objective : AcquisitionObjective)
    (bounds : FloatTensor) (q : Z)
    (linear_constraints : option (FloatTensor * FloatTensor))
    (fixed_features : option (gmap Z Q))
    (target_fidelities : option (gmap Z Q))
    (qmc : bool) (mc_samples : Z) (seed_inner : option Z)
    (optimizer_options : option (gmap string Value))
    (post_processing_func : Value)
    (batch_initial_conditions : option FloatTensor)
    (sequential : bool) : Result OptimizeAcqfArgs :=
  let optimizer_options := default ∅ optimizer_options in
  let acq_function :=
    match objective with
    | MCAcquisitionObjective _ =>
        let sampler_cls :=
          if qmc then SobolQMCNormalSampler else IIDNormalSampler in
        qSimpleRegret model objective (sampler_cls mc_samples seed_inner)
    | _ => PosteriorMean model objective
    end in
  '(acq_function, free_feature_bounds) ←
    match fixed_features with
    | Some fixed_features =>
        if decide (fixed_features = ∅)
        then Ok (acq_function, bounds)
        else
          d ← shape_last bounds;
          n ← len bounds;
          let free_feature_dims :=
            filter (fun j => fixed_features !! Z.of_nat j = None)
                   (seq 0 n) in
          free_feature_bounds ← index_columns bounds free_feature_dims;
          Ok (FixedFeatureAcquisitionFunction acq_function d
                (map_to_list fixed_features).*1
                (map_to_list fixed_features).*2,
              free_feature_bounds)
    | None => Ok (acq_function, bounds)
    end;
  inequality_constraints ← make_inequality_constraints linear_constraints;
  Ok (mkOptimizeAcqfArgs acq_function free_feature_bounds q
        (get_default optimizer_options "num_restarts" (VInt 60))
        (get_default optimizer_options "raw_samples" (VInt 1024))
        (<["method" :=
             get_default optimizer_options "method" (VStr "L-BFGS-B")]>
        (<["nonnegative" :=
             get_default optimizer_options "nonnegative" (VBool false)]>
        (<["maxiter" :=
             get_default optimizer_options "maxiter" (VInt 200)]>
           {["batch_limit" :=
               get_default optimizer_options "batch_limit" (VInt 8)]})))
        inequality_constraints VNone post_processing_func
        batch_initial_conditions true sequential).

Definition optimize_objective
    (model : Model) (objective : AcquisitionObjective)
    (bounds : FloatTensor) (q : Z)
    (linear_constraints : option (FloatTensor * FloatTensor))
    (fixed_features : option (gmap Z Q))
    (target_fidelities : option (gmap Z Q))
    (qmc : bool) (mc_samples : Z) (seed_inner : option Z)
    (optimizer_options : option (gmap string Value))
    (post_processing_func : Value)
    (batch_initial_conditions : option FloatTensor)
    (sequential : bool) : Result (FloatTensor * FloatTensor) :=
  args ← optimize_objective_args model objective bounds q
           linear_constraints fixed_features target_fidelities qmc
           mc_samples seed_inner optimizer_options post_processing_func
           batch_initial_conditions sequential;
  optimize_acqf args.
End optimize.

(** The points a sparse constraint admits, in the convention of
    [optimize_acqf]: [sum_j coefficients[j] * x[indices[j]] >= rhs]. *)
Definition sparse_sum (indices : list nat) (coefficients : list Q)
    (x : list Q) : Q :=
  foldr Qplus 0%Q
    (zip_with (fun j c => (c * nth j x 0)%Q) indices coefficients).

Definition admits (c : SparseConstraint) (x : list Q) : Prop :=
  let '(indices, coefficients, rhs) := c in
  (nth 0 (data rhs) 0 <= sparse_sum (data indices) (data coefficients) x)%Q.

(** [A[i] . x] for row [i] of a matrix with rows of [d] entries. *)
Definition dot (u x : list Q) : Q :=
  foldr Qplus 0%Q (zip_with Qmult u x).

(* ================================================================= *)
(** ** Specification vocabulary *)

(** [v] is a maximum of the entries [l]. *)
Definition is_max (v : Q) (l : list Q) : Prop :=
  v ∈ l ∧ Forall (fun x => x <= v)%Q l.

(** [R] has shape [s] and holds, for each of the [numel s] batches of [n]
    consecutive entries, a maximum of that batch. *)
Definition batch_maxima (s : list nat) (n : nat) (entries : list Q)
    (R : FloatTensor) : Prop :=
  shape R = s ∧ Forall2 is_max (data R) (chunks (numel s) n entries).

(** The triple that stands for row [i] of [A x <= b]: the positions of
    the non-zero entries of the row, the negated entries at these
    positions, and the negated bound. *)
Definition row_constraint (A b : FloatTensor) (d i : nat)
  : SparseConstraint :=
  let u := data (row d i A) in
  let indicies := squeeze (nonzero (row d i A)) in
  (indicies,
   mkTensor (shape indicies)
     ((fun j => - nth j u 0)%Q <$> nonzero_positions 0 u),
   scalar (- nth i (data b) 0)%Q).

(** [isinstance(objective, ScalarizedObjective)] *)
Definition is_scalarized (objective : option AcquisitionObjective) : bool :=
  match objective with
  | Some (ScalarizedObjective _ _) => true
  | _ => false
  end.

Definition block_design_msg : string :=
  "Currently only block designs are supported.".

Definition analytic_multi_output_msg : string :=
  "Analytic acquisition functions currently only work with "
  +:+ "multi-output models if provided with a `ScalarizedObjective`.".

Definition mc_multi_output_msg : string :=
  "Acquisition functions require an objective when "
  +:+ "used with multi-output models (execpt for "
  +:+ "multi-objectiveacquisition functions).".

(* ================================================================= *)
(** ** Example data *)

Module examples.
(** A model whose posterior mean at [X] is [X] itself. *)
Definition model : Model := mkModel (fun X => Ok X).

Definition X : FloatTensor := mkTensor [3; 1]%nat [0; 1; 2]%Q.

(** Single-output outcomes 1.0, 3.0, 2.0. *)
Definition Y1 : FloatTensor := mkTensor [3; 1]%nat [1; 3; 2]%Q.

(** Two-output outcomes, rows (1, 30), (5, 20), (2, 10). *)
Definition Y2 : FloatTensor := mkTensor [3; 2]%nat [1; 30; 5; 20; 2; 10]%Q.

Definition block1 : TrainingData.t := TrainingData.mk true X Y1.
Definition block2 : TrainingData.t := TrainingData.mk true X Y2.
Definition not_block : TrainingData.t := TrainingData.mk false X Y1.

(** A scalarizing objective that adds the two outcomes. *)
Definition add_outcomes (Y : FloatTensor) : Result FloatTensor :=
  match shape Y with
  | [n; 2%nat] =>
      Ok (mkTensor [n]
            ((fun r => nth 0 r 0 + nth 1 r 0)%Q <$> chunks n 2 (data Y)))
  | _ => Raise (RuntimeError "size mismatch")
  end.
Definition scalarized : AcquisitionObjective :=
  ScalarizedObjective add_outcomes
    (fun _ => Raise (TypeError "expected a posterior")).

Definition thresholds : FloatTensor := mkTensor [2]%nat [0; 0]%Q.

(** The constraints [x0 - 2 x2 <= 4] and [3 x2 <= 5]. *)
Definition A : FloatTensor := mkTensor [2; 3]%nat [1; 0; -2; 0; 0; 3]%Q.
Definition b : FloatTensor := mkTensor [2; 1]%nat [4; 5]%Q.

Definition target_fidelities : gmap Z Q := {[ 0%Z := 1%Q; 1%Z := 1%Q ]}.

(** Stand-ins for the collaborators. *)
Definition expand (X : FloatTensor) (dims : list Z) (n : Z)
  : Result FloatTensor := Ok X.
Definition project (X : FloatTensor) (tf : gmap Z Q)
  : Result FloatTensor := Ok X.
Definition repr_set (s : gset Z) : string := "{...}".
Definition default_alpha (num_objectives : nat) : Q :=
  if decide (num_objectives ≤ 4)%nat then 0 else 1 # 1000.
Definition optimizer (args : OptimizeAcqfArgs)
  : Result (FloatTensor * FloatTensor) :=
  Ok (bounds args, scalar 0%Q).
End examples.

(* ================================================================= *)
(** ** Batch hypervolume constructors *)

(** Boolean tensors and the operations applied to the posterior mean
    when outcome constraints are given. *)

(** [t <= 0] *)
Definition le_zero (t : FloatTensor) : Tensor bool :=
  mkTensor (shape t) ((fun x => Qle_bool x 0) <$> data t).

(** [torch.stack(ts, dim=-1)] *)
Definition stack_last (ts : list (Tensor bool)) : Result (Tensor bool) :=
  match ts with
  | [] => Raise (RuntimeError "stack expects a non-empty TensorList")
  | t :: rest =>
      if decide (Forall (fun t' => shape t' = shape t) rest)
      then Ok (mkTensor (shape t ++ [length ts])
                 (concat ((fun p => (fun t' => nth p (data t') false) <$> ts)
                          <$> seq 0 (numel (shape t)))))
      else Raise (RuntimeError "stack expects each tensor to be equal size")
  end.

(** [t.all(dim=-1)] *)
Definition all_last (t : Tensor bool) : Tensor bool :=
  match split_last (shape t) with
  | None => t
  | Some (s, c) =>
      mkTensor s (forallb id <$> chunks (numel s) c (data t))
  end.

(** The slices of [blocks] whose flag is set. *)
Fixpoint select_blocks {A} (flags : list bool) (blocks : list (list A))
  : list (list A) :=
  match flags, blocks with
  | f :: flags', blk :: blocks' =>
      if f then blk :: select_blocks flags' blocks'
      else select_blocks flags' blocks'
  | _, _ => []
  end.

(** [t[mask]] for a boolean [mask] over the leading dimensions of [t] *)
Definition mask_select (t : FloatTensor) (mask : Tensor bool)
  : Result FloatTensor :=
  if decide (take (length (shape mask)) (shape t) = shape mask)
  then
    let rest := drop (length (shape mask)) (shape t) in
    let kept :=
      select_blocks (data mask)
        (chunks (numel (shape mask)) (numel rest) (data t)) in
    Ok (mkTensor (length kept :: rest) (concat kept))
  else Raise (IndexError
         "The shape of the mask does not match the shape of the indexed tensor").

(** [[c(Y_pmean) <= 0 for c in cons_tfs]] *)
Fixpoint constraint_flags
    (cons_tfs : list (FloatTensor → Result FloatTensor))
    (Y_pmean : FloatTensor) : Result (list (Tensor bool)) :=
  match cons_tfs with
  | [] => Ok []
  | c :: rest =>
      v ← c Y_pmean;
      vs ← constraint_flags rest Y_pmean;
      Ok (le_zero v :: vs)
  end.

(** The two lines of [construct_inputs_qEHVI] that keep the feasible
    points of the posterior mean. *)
Definition feasible_points
    (cons_tfs : list (FloatTensor → Result FloatTensor))
    (Y_pmean : FloatTensor) : Result FloatTensor :=
  flags ← constraint_flags cons_tfs Y_pmean;
  stacked ← stack_last flags;
  let feas := all_last stacked in
  mask_select Y_pmean feas.

(** [bool(v)], as in [if qmc:] *)
Definition truthy (v : Value) : Result bool :=
  match v with
  | VNone => Ok false
  | VBool b => Ok b
  | VInt z => Ok (negb (Z.eqb z 0))
  | VFloat q => Ok (negb (Qeq_bool q 0))
  | VStr s => Ok (negb (String.eqb s ""))
  | VTensor t =>
      match data t with
      | [x] => Ok (negb (Qeq_bool x 0))
      | _ => Raise (RuntimeError
               "Boolean value of Tensor with more than one value is ambiguous")
      end
  | VFidelities d => Ok (negb (bool_decide (d = ∅)))
  | _ => Ok true
  end.

(** The number of samples of a sampler is an integer (the samplers build
    [torch.Size([num_samples])] from it). *)
Definition as_int (v : Value) : Result Z :=
  match v with
  | VInt z => Ok z
  | VBool b => Ok (if b then 1%Z else 0%Z)
  | _ => Raise (TypeError "torch.Size() takes an iterable of 'int'")
  end.

(** [_get_sampler]; [draw] is the value of
    [torch.randint(1, 10000, (1,)).item()]. *)
Definition _get_sampler (mc_samples qmc : Value) (draw : Z)
  : Result MCSampler :=
  let seed := draw in
  use_qmc ← truthy qmc;
  num_samples ← as_int mc_samples;
  Ok (if use_qmc : bool
      then SobolQMCNormalSampler num_samples (Some seed)
      else IIDNormalSampler num_samples (Some seed)).

(** Modelled from the spec: the class [IdentityMCMultiOutputObjective] of
    [botorch.acquisition.multi_objective.objective] is not part of the
    sources at hand; it is a Monte Carlo objective that is the identity
    on outcome tensors. *)
Definition IdentityMCMultiOutputObjective : AcquisitionObjective :=
  MCAcquisitionObjective (fun Y => Ok Y).

(** The bundles of the batch hypervolume constructors also hold the list
    of constraint transforms. *)
Inductive BundleValue : Type :=
| BValue (v : Value)
| BConstraints (cons_tfs : list (FloatTensor → Result FloatTensor)).

Definition multiple_values_msg : string :=
  "construct_inputs_EHVI() got multiple values for keyword argument 'Y_pmean'".

(** [kwargs.get("sampler")], replaced by [_get_sampler(...)] when it is
    [None]. *)
Definition sampler_or_default (kwargs : gmap string Value) (draw : Z)
  : Result Value :=
  let sampler := get kwargs "sampler" in
  if is_None sampler
  then VSampler
         <$> _get_sampler (get_default kwargs "mc_samples" (VInt 128))
               (get_default kwargs "qmc" (VBool true)) draw
  else Ok sampler.

Section batch_hypervolume.
(** Collaborators: [get_default_partitioning_alpha], and
    [get_outcome_constraint_transforms] of [botorch.utils.constraints]. *)
Context (get_default_partitioning_alpha : nat → Q)
        (get_outcome_constraint_transforms :
           Value → Result (list (FloatTensor → Result FloatTensor))).

(** The constraint transforms and the posterior mean that
    [construct_inputs_qEHVI] goes on with. *)
Definition constrained_mean (outcome_constraints : Value)
    (Y_pmean : FloatTensor)
  : Result (option (list (FloatTensor → Result FloatTensor)) * FloatTensor) :=
  if is_None outcome_constraints
  then Ok (None, Y_pmean)
  else
    match get_outcome_constraint_transforms outcome_constraints with
    | Raise e => Raise e
    | Ok cons_tfs =>
        match feasible_points cons_tfs Y_pmean with
        | Raise e => Raise e
        | Ok Y_feasible => Ok (Some cons_tfs, Y_feasible)
        end
    end.

(** The call [construct_inputs_EHVI(..., Y_pmean=Y_pmean, **kwargs)]; a
    ["Y_pmean"] among [kwargs] is a second value for the keyword. *)
Definition call_EHVI (model : Model) (training_data : TrainingData.t)
    (objective_thresholds : FloatTensor) (objective : AcquisitionObjective)
    (Y_pmean : FloatTensor) (kwargs : gmap string Value)
  : Result (gmap string Value) :=
  if decide (is_Some (kwargs !! "Y_pmean"))
  then Raise (TypeError multiple_values_msg)
  else construct_inputs_EHVI get_default_partitioning_alpha model
         training_data objective_thresholds (Some objective)
         (<["Y_pmean" := VTensor Y_pmean]> kwargs).

(** [draw] is the random seed [_get_sampler] would draw. *)
Definition construct_inputs_qEHVI
    (model : Model) (training_data : TrainingData.t)
    (objective_thresholds : FloatTensor)
    (objective : option AcquisitionObjective)
    (kwargs : gmap string Value) (draw : Z)
  : Result (gmap string BundleValue) :=
  let X_observed := TrainingData.X training_data in
  match posterior_mean model X_observed with
  | Raise e => Raise e
  | Ok Y_pmean =>
      (* kwargs.pop("outcome_constraints", None) *)
      let outcome_constraints := get kwargs "outcome_constraints" in
      let kwargs := delete "outcome_constraints" kwargs in
      match constrained_mean outcome_constraints Y_pmean with
      | Raise e => Raise e
      | Ok (cons_tfs, Y_pmean) =>
          let objective :=
            match objective with
            | None => IdentityMCMultiOutputObjective
            | Some objective => objective
            end in
          match call_EHVI model training_data objective_thresholds
                  objective Y_pmean kwargs with
          | Raise e => Raise e
          | Ok ehvi_kwargs =>
              match sampler_or_default kwargs draw with
              | Raise e => Raise e
              | Ok sampler =>
                  Ok (<["eta" :=
                          BValue (get_default kwargs "eta"
                                    (VFloat (1 # 1000)))]>
                     (<["constraints" :=
                          from_option BConstraints (BValue VNone) cons_tfs]>
                     (<["X_pending" := BValue (get kwargs "X_pending")]>
                     (<["sampler" := BValue sampler]>
                        (BValue <$> ehvi_kwargs)))))
              end
          end
      end
  end.

Definition construct_inputs_qNEHVI
    (model : Model) (training_data : TrainingData.t)
    (objective_thresholds : FloatTensor)
    (objective : option AcquisitionObjective)
    (kwargs : gmap string Value) (draw : Z)
  : Result (gmap string BundleValue) :=
  let objective :=
    match objective with
    | None => IdentityMCMultiOutputObjective
    | Some objective => objective
    end in
  let outcome_constraints := get kwargs "outcome_constraints" in
  let kwargs := delete "outcome_constraints" kwargs in
  match (if is_None outcome_constraints
         then Ok None
         else Some <$> get_outcome_constraint_transforms outcome_constraints)
  with
  | Raise e => Raise e
  | Ok cons_tfs =>
      match sampler_or_default kwargs draw with
      | Raise e => Raise e
      | Ok sampler =>
          match call objective objective_thresholds with
          | Raise e => Raise e
          | Ok ref_point =>
  Ok (<["incremental_nehvi" :=
          BValue (get_default kwargs "incremental_nehvi" (VBool true))]>
     (<["max_iep" := BValue (get_default kwargs "max_iep" (VInt 0))]>
     (<["cache_pending" :=
          BValue (get_default kwargs "cache_pending" (VBool true))]>
     (<["alpha" := BValue (get_default kwargs "alpha" (VFloat 0))]>
     (<["prune_baseline" :=
          BValue (get_default kwargs "prune_baseline" (VBool true))]>
     (<["eta" := BValue (get_default kwargs "eta" (VFloat (1 # 1000)))]>
     (<["X_pending" := BValue (get kwargs "X_pending")]>
     (<["constraints" :=
          from_option BConstraints (BValue VNone) cons_tfs]>
     (<["objective" := BValue (VObjective objective)]>
     (<["sampler" := BValue sampler]>
     (<["X_baseline" :=
          BValue (get_default kwargs "X_baseline"
                    (VTensor (TrainingData.X training_data)))]>
     (<["ref_point" := BValue (VTensor ref_point)]>
        {["model" := BValue (VModel model)]}))))))))))))
          end
      end
  end.
End batch_hypervolume.

(** Point [p] satisfies every constraint: each list of [vals] holds the
    values of one constraint transform, one per point. *)
Definition feasible_at (vals : list (list Q)) (p : nat) : bool :=
  forallb (fun v => Qle_bool (nth p v 0) 0) vals.

Module examples2.
(** One outcome constraint, on the first outcome. *)
Definition transforms (outcome_constraints : Value)
  : Result (list (FloatTensor → Result FloatTensor)) :=
  Ok [select_last 0].

(** Posterior means of three points with two outcomes. *)
Definition means : FloatTensor :=
  mkTensor [3; 2]%nat [-1; 30; 5; 20; 0; 10]%Q.
Definition model : Model := mkModel (fun _ => Ok means).
End examples2.

(* ================================================================= *)
(** ** Knowledge-gradient constructors *)

(** [optimize_objective(..., q=1, ..., **kwargs)] with a [q] in [kwargs] *)
Definition multiple_values_for_q : exn :=
  TypeError
    "optimize_objective() got multiple values for keyword argument 'q'".

(** [t.max()] over all entries *)
Definition max_all (t : FloatTensor) : Result FloatTensor :=
  match data t with
  | [] => Raise (RuntimeError
            "max(): Expected reduction dim to be specified for input.numel() == 0.")
  | _ => Ok (scalar (list_max (data t)))
  end.

(** [torch.tensor(bounds)] for a list of (lower, upper) pairs: [d x 2],
    or an empty 1-dim tensor for the empty list. *)
Definition tensor_of_bounds (bounds : list (Q * Q)) : FloatTensor :=
  match bounds with
  | [] => mkTensor [0%nat] []
  | _ => mkTensor [length bounds; 2%nat]
           (concat ((fun lu => [lu.1; lu.2]) <$> bounds))
  end.

(** [t.t()] *)
Definition t_ (t : FloatTensor) : Result FloatTensor :=
  match shape t with
  | [] | [_] => Ok t
  | [r; c] =>
      Ok (mkTensor [c; r]
            (concat ((fun j => column r c j (data t)) <$> seq 0 c)))
  | _ => Raise (RuntimeError "t() expects a tensor with <= 2 dimensions")
  end.

(** The keyword arguments that the knowledge-gradient constructors hand
    on with [**kwargs], by the parameter that receives each of them; a
    keyword the caller omits has the default of that parameter.  [q] is
    no parameter of a constructor, but [optimize_objective] has one, which
    [construct_inputs_qKG] sets itself: [kw_q] is the value of a keyword
    [q], when the caller gives one.  Every other keyword is ignored by
    all the callees. *)
Record Keywords : Type := mkKeywords
  { kw_X_pending : option FloatTensor;
    kw_sampler : option MCSampler;
    kw_linear_constraints : option (FloatTensor * FloatTensor);
    kw_fixed_features : option (gmap Z Q);
    kw_qmc : bool;
    kw_mc_samples : Z;
    kw_seed_inner : option Z;
    kw_optimizer_options : option (gmap string Value);
    kw_post_processing_func : Value;
    kw_batch_initial_conditions : option FloatTensor;
    kw_sequential : bool;
    kw_fidelity_weights : option (gmap Z Q);
    kw_cost_intercept : Q;
    kw_num_trace_observations : Z;
    kw_num_fantasies : Z;
    kw_q : option Z }.

(** No keyword given: every parameter has its default. *)
Definition no_keywords : Keywords :=
  mkKeywords None None None None true 512 None None VNone None false
    None 1 0 64 None.

Section knowledge_gradient.
Context (optimize_acqf :
           OptimizeAcqfArgs → Result (FloatTensor * FloatTensor))
        (expand_trace_observations :
           FloatTensor → list Z → Z → Result FloatTensor)
        (project_to_target_fidelity :
           FloatTensor → gmap Z Q → Result FloatTensor)
        (repr_set : gset Z → string).

Definition construct_inputs_qKG
    (model : Model) (training_data : TrainingData.t)
    (objective : AcquisitionObjective) (bounds : list (Q * Q))
    (target_fidelities : option (gmap Z Q))
    (kwargs : Keywords) : Result (gmap string Value) :=
  match construct_inputs_mc_base model training_data (Some objective)
          (kw_X_pending kwargs) (kw_sampler kwargs) ∅ with
  | Raise e => Raise e
  | Ok inputs_mc =>
      (* dtype and device are those of training_data.X; the tensors of
         this development carry neither *)
      let _bounds := tensor_of_bounds bounds in
      match t_ _bounds with
      | Raise e => Raise e
      | Ok bounds_t =>
          match
            match kw_q kwargs with
            | Some _ => Raise multiple_values_for_q
            | None =>
                optimize_objective optimize_acqf model objective bounds_t 1
                  (kw_linear_constraints kwargs) (kw_fixed_features kwargs)
                  target_fidelities (kw_qmc kwargs) (kw_mc_samples kwargs)
                  (kw_seed_inner kwargs) (kw_optimizer_options kwargs)
                  (kw_post_processing_func kwargs)
                  (kw_batch_initial_conditions kwargs)
                  (kw_sequential kwargs)
            end
          with
          | Raise e => Raise e
          | Ok (_, current_value) =>
              match max_all current_value with
              | Raise e => Raise e
              | Ok best =>
                  Ok (<["current_value" := VTensor best]>
                     (<["num_fantasies" :=
                          VInt (kw_num_fantasies kwargs)]> inputs_mc))
              end
          end
      end
  end.

Definition construct_inputs_qMFKG
    (model : Model) (training_data : TrainingData.t)
    (objective : AcquisitionObjective) (bounds : list (Q * Q))
    (target_fidelities : gmap Z Q)
    (kwargs : Keywords) : Result (gmap string Value) :=
  match construct_inputs_mf_base expand_trace_observations
          project_to_target_fidelity repr_set model training_data
          target_fidelities (kw_fidelity_weights kwargs)
          (kw_cost_intercept kwargs) (kw_num_trace_observations kwargs) ∅
  with
  | Raise e => Raise e
  | Ok inputs_mf =>
      (* target_fidelities is not among the arguments handed on *)
      match construct_inputs_qKG model training_data objective bounds None
              kwargs with
      | Raise e => Raise e
      | Ok inputs_kg => Ok (inputs_kg ∪ inputs_mf)
      end
  end.
End knowledge_gradient.

(* ================================================================= *)
(** * Properties *)

(** ** Tensor operations *)

Section tensor_facts.

Lemma split_last_snoc s k : split_last (s ++ [k]) = Some (s, k).
Proof.
  induction s as [|n s IH]; [done |].
  change ((n :: s) ++ [k]) with (n :: (s ++ [k])).
  simpl. rewrite IH. by destruct (s ++ [k]) eqn:E; [destruct s |].
Qed.

Lemma split_last_Some s r k : split_last s = Some (r, k) → s = r ++ [k].
Proof.
  revert r. induction s as [|n s IH]; intros r H; [done |].
  simpl in H. destruct s as [|n' s'].
  - by injection H as <- <-.
  - destruct (split_last (n' :: s')) as [[r' k']|] eqn:E; [| done].
    injection H as <- <-. by rewrite (IH r' eq_refl).
Qed.

Lemma numel_snoc s k : numel (s ++ [k]) = (numel s * k)%nat.
Proof.
  induction s as [|n s IH]; simpl; [lia |]. rewrite IH. lia.
Qed.

Lemma Qmax2_ge_l x y : (x <= Qmax2 x y)%Q.
Proof.
  unfold Qmax2. destruct (Qle_bool x y) eqn:E.
  - by apply Qle_bool_iff.
  - apply Qle_refl.
Qed.

Lemma Qmax2_ge_r x y : (y <= Qmax2 x y)%Q.
Proof.
  unfold Qmax2. destruct (Qle_bool x y) eqn:E.
  - apply Qle_refl.
  - destruct (Qlt_le_dec x y) as [Hlt | Hle]; [| done].
    apply Qlt_le_weak, Qle_bool_iff in Hlt. congruence.
Qed.

Lemma Qmax2_cases x y : Qmax2 x y = x ∨ Qmax2 x y = y.
Proof. unfold Qmax2. destruct (Qle_bool x y); auto. Qed.

Lemma foldl_Qmax2_spec x r :
  (foldl Qmax2 x r = x ∨ foldl Qmax2 x r ∈ r) ∧
  (x <= foldl Qmax2 x r)%Q ∧
  Forall (fun y => y <= foldl Qmax2 x r)%Q r.
Proof.
  revert x. induction r as [|y r IH]; intros x; simpl.
  - split; [by left |]. split; [apply Qle_refl | constructor].
  - destruct (IH (Qmax2 x y)) as (Hin & Hge & Hall).
    split; [| split].
    + destruct Hin as [-> | Hin].
      * destruct (Qmax2_cases x y) as [-> | ->]; [by left |].
        right. by left.
      * right. by right.
    + eapply Qle_trans; [apply Qmax2_ge_l | exact Hge].
    + constructor; [| done].
      eapply Qle_trans; [apply Qmax2_ge_r | exact Hge].
Qed.

(** [list_max] computes a maximum of a non-empty list. *)
Lemma list_max_is_max l : l ≠ [] → is_max (list_max l) l.
Proof.
  destruct l as [|x r]; [done |]. intros _. simpl.
  destruct (foldl_Qmax2_spec x r) as (Hin & Hge & Hall).
  split.
  - destruct Hin as [-> | Hin]; [by left | by right].
  - by constructor.
Qed.

Lemma chunks_length {A} count size (l : list A) :
  length (chunks count size l) = count.
Proof.
  revert l. induction count as [|c IH]; intros l; simpl; [done |].
  by rewrite IH.
Qed.

Lemma chunks_Forall_length {A} count size (l : list A) :
  length l = (count * size)%nat →
  Forall (fun c => length c = size) (chunks count size l).
Proof.
  revert l. induction count as [|c IH]; intros l Hl; simpl.
  - constructor.
  - constructor.
    + rewrite length_take. lia.
    + apply IH. rewrite length_drop. lia.
Qed.

Lemma chunks_singletons {A} (l : list A) :
  chunks (length l) 1 l = (fun x => [x]) <$> l.
Proof.
  induction l as [|x l IH]; [done |].
  simpl. rewrite take_0, drop_0. by rewrite IH.
Qed.

Lemma column_single n (block : list Q) :
  length block = n → column n 1 0 block = block.
Proof.
  intros <-. unfold column. rewrite chunks_singletons.
  induction block as [|x l IH]; [done |]. by rewrite !fmap_cons, IH.
Qed.

(** The entries that [max_last] computes are maxima of the batches. *)
Lemma max_last_batch_maxima (T : FloatTensor) s n :
  shape T = s ++ [n] → wf T → (0 < n)%nat →
  ∃ R, max_last T = Ok R ∧ batch_maxima s n (data T) R.
Proof.
  intros Hs Hwf Hn. unfold max_last. rewrite Hs, split_last_snoc.
  rewrite decide_False by lia. eexists. split; [done |].
  split; [done |]. simpl.
  unfold wf in Hwf. rewrite Hs, numel_snoc in Hwf.
  pose proof (chunks_Forall_length _ _ _ Hwf) as HF.
  induction HF as [|c cs Hc _ IH]; simpl; constructor; [| done].
  apply list_max_is_max. intros ->. simpl in Hc. lia.
Qed.

(** For single-output outcomes, [Y.max(-2).values.squeeze(-1)] is
    [Y.squeeze(-1).max(-1).values]. *)
Lemma max_dim2_single (Y : FloatTensor) s n :
  shape Y = s ++ [n; 1%nat] → wf Y → (0 < n)%nat →
  squeeze_last <$> max_dim2 Y
  = Ok (mkTensor s (list_max <$> chunks (numel s) n (data Y))).
Proof.
  intros Hs Hwf Hn. unfold max_dim2.
  replace (s ++ [n; 1%nat]) with ((s ++ [n]) ++ [1%nat]) in Hs
    by by rewrite <- app_assoc.
  rewrite Hs, !split_last_snoc. rewrite decide_False by lia.
  simpl. unfold squeeze_last. simpl. rewrite split_last_snoc. simpl.
  do 2 f_equal.
  unfold wf in Hwf. rewrite Hs, !numel_snoc in Hwf.
  rewrite Nat.mul_1_r in *.
  pose proof (chunks_Forall_length _ _ _ Hwf) as HF.
  induction HF as [|c cs Hc _ IH]; [done |].
  rewrite !fmap_cons. simpl. rewrite IH. by rewrite column_single.
Qed.

Lemma max_dim2_single_batch_maxima (Y : FloatTensor) s n :
  shape Y = s ++ [n; 1%nat] → wf Y → (0 < n)%nat →
  ∃ R, squeeze_last <$> max_dim2 Y = Ok R ∧ batch_maxima s n (data Y) R.
Proof.
  intros Hs Hwf Hn. rewrite (max_dim2_single Y s n) by done.
  eexists. split; [done |]. split; [done |]. simpl.
  unfold wf in Hwf. rewrite Hs in Hwf.
  replace (s ++ [n; 1%nat]) with ((s ++ [n]) ++ [1%nat]) in Hwf
    by by rewrite <- app_assoc.
  rewrite !numel_snoc, Nat.mul_1_r in Hwf.
  pose proof (chunks_Forall_length _ _ _ Hwf) as HF.
  induction HF as [|c cs Hc _ IH]; simpl; constructor; [| done].
  apply list_max_is_max. intros ->. simpl in Hc. lia.
Qed.

(** Without batch dimensions there is one batch: all the entries. *)
Lemma batch_maxima_scalar n entries R :
  length entries = n → batch_maxima [] n entries R →
  ∃ v, R = scalar v ∧ is_max v entries.
Proof.
  intros Hn [Hs HF]. simpl in HF. rewrite <- Hn, firstn_all in HF.
  destruct R as [sh d]. simpl in *. subst sh.
  inversion HF as [|v ? vs ? Hv Hnil]; subst.
  inversion Hnil; subst. by exists v.
Qed.

End tensor_facts.

(** ** The registry *)

Section registry_facts.
Context {F : Type}.
Implicit Types (REGISTRY R : gmap string F) (c : string) (cls : list string).

Lemma check_not_registered_ok R cls :
  check_not_registered R cls = Ok tt ↔ Forall (fun c => R !! c = None) cls.
Proof.
  induction cls as [|c cls IH]; simpl.
  - split; [constructor | done].
  - case_decide as Hc.
    + split; [done |]. intros HF. inversion HF as [|? ? Hn _]; subst.
      rewrite Hn in Hc. by destruct Hc.
    + rewrite IH. split.
      * intros HF. constructor; [| done].
        destruct (R !! c) eqn:E; [| done]. destruct Hc; eauto.
      * intros HF. by inversion HF.
Qed.

Lemma check_not_registered_raise R cls c :
  c ∈ cls → is_Some (R !! c) →
  ∃ c', c' ∈ cls ∧ is_Some (R !! c') ∧
        check_not_registered R cls = Raise (ValueError (duplicate_msg c')).
Proof.
  induction cls as [|a cls IH]; intros Hin Hc.
  - by apply elem_of_nil in Hin.
  - simpl. case_decide as Ha.
    + exists a. split; [left | done].
    + apply elem_of_cons in Hin as [-> | Hin]; [done |].
      destruct (IH Hin Hc) as (c' & ? & ? & ?).
      exists c'. split; [by right | done].
Qed.

Lemma decorator_lookup cls (m : F) R c :
  (decorator cls m R).2 !! c = if decide (c ∈ cls) then Some m else R !! c.
Proof.
  unfold decorator; simpl. revert R.
  induction cls as [|a cls IH]; intros R; simpl.
  - destruct (decide (c ∈ [])) as [H | H]; [by apply elem_of_nil in H | done].
  - rewrite IH. unfold _register_acqf_input_constructor.
    destruct (decide (c ∈ cls)) as [Hin | Hnin].
    + rewrite decide_True; [done | by right].
    + destruct (decide (c = a)) as [-> | Hne].
      * rewrite decide_True; [| by left]. by rewrite lookup_insert_eq.
      * rewrite decide_False.
        -- by rewrite !lookup_insert_ne.
        -- intros [-> | ?]%elem_of_cons; done.
Qed.

Lemma decorated_def_raise cls (m : F) R c :
  c ∈ cls → is_Some (R !! c) →
  ∃ c', c' ∈ cls ∧ is_Some (R !! c') ∧
        decorated_def cls m R = (Raise (ValueError (duplicate_msg c')), R).
Proof.
  intros Hin Hc.
  destruct (check_not_registered_raise R cls c Hin Hc) as (c' & ? & ? & E).
  exists c'. split; [done |]. split; [done |].
  unfold decorated_def, acqf_input_constructor. by rewrite E.
Qed.

Lemma decorated_def_ok cls (m : F) R :
  Forall (fun c => R !! c = None) cls →
  decorated_def cls m R = (Ok m, (decorator cls m R).2).
Proof.
  intros HF. apply check_not_registered_ok in HF.
  unfold decorated_def, acqf_input_constructor. by rewrite HF.
Qed.

Lemma decorated_def_cases cls (m : F) R :
  (∃ e, decorated_def cls m R = (Raise e, R)) ∨
  (Forall (fun c => R !! c = None) cls ∧
   decorated_def cls m R = (Ok m, (decorator cls m R).2)).
Proof.
  destruct (check_not_registered R cls) as [[]|e] eqn:E.
  - right. apply check_not_registered_ok in E. split; [done |].
    by apply decorated_def_ok.
  - left. exists e. unfold decorated_def, acqf_input_constructor.
    by rewrite E.
Qed.

(** A registration statement never changes an entry that exists. *)
Lemma decorated_def_preserves cls (m : F) R c f :
  R !! c = Some f → (decorated_def cls m R).2 !! c = Some f.
Proof.
  intros Hc. destruct (decorated_def_cases cls m R) as [[e ->] | [HF ->]].
  - done.
  - change ((decorator cls m R).2 !! c = Some f).
    rewrite decorator_lookup. case_decide as Hin; [| done].
    rewrite Forall_forall in HF. specialize (HF c Hin). congruence.
Qed.

Lemma attempt_all_preserves stmts R c f :
  R !! c = Some f → attempt_all stmts R !! c = Some f.
Proof.
  unfold attempt_all. revert R.
  induction stmts as [|s stmts IH]; intros R Hc; simpl; [done |].
  apply IH. by apply decorated_def_preserves.
Qed.
End registry_facts.

Section registry_claims.
Context {F : Type}.
Implicit Types (R : gmap string F) (c : string) (cls : list string).

Lemma load_module_lookup stmts R0 R c :
  load_module stmts R0 = Ok R →
  (∀ cls (m : F), (cls, m) ∈ stmts → c ∈ cls → R !! c = Some m) ∧
  ((∀ cls (m : F), (cls, m) ∈ stmts → c ∉ cls) → R !! c = R0 !! c) ∧
  (∀ f, R0 !! c = Some f → R !! c = Some f).
Proof.
  revert R0. induction stmts as [|[cls0 m0] stmts IH]; intros R0 Hload.
  - simpl in Hload. injection Hload as <-.
    split; [| done]. intros ? ? H. by apply elem_of_nil in H.
  - simpl in Hload.
    destruct (decorated_def_cases cls0 m0 R0) as [[e E] | [HF E]];
      rewrite E in Hload; [done |].
    destruct (IH _ Hload) as (IH1 & IH2 & IH3).
    split; [| split].
    + intros cls m [Heq | Hin]%elem_of_cons Hc.
      * injection Heq as -> ->. apply IH3.
        rewrite decorator_lookup. by rewrite decide_True.
      * by eapply IH1.
    + intros Hnot. rewrite IH2.
      * rewrite decorator_lookup. rewrite decide_False; [done |].
        eapply Hnot. by left.
      * intros cls m Hin. eapply Hnot. by right.
    + intros f Hf. apply IH3. rewrite decorator_lookup.
      case_decide as Hin; [| done].
      rewrite Forall_forall in HF. specialize (HF c Hin). congruence.
Qed.

(** C1. Every class registered with a constructor is looked up to
    exactly that constructor, and the lookup of a class that is not in
    the registry raises the descriptive [RuntimeError]: entry by entry
    on any registry, and for the registry built by the registration
    statements of a module that loads. *)
Theorem get_acqf_input_constructor_registered :
  (∀ R c (f : F), R !! c = Some f → get_acqf_input_constructor R c = Ok f) ∧
  (∀ R c, R !! c = None →
     get_acqf_input_constructor R c
     = Raise (RuntimeError (not_registered_msg c))) ∧
  (∀ stmts R, load_module stmts ∅ = Ok R →
     (∀ cls (m : F) c, (cls, m) ∈ stmts → c ∈ cls →
        get_acqf_input_constructor R c = Ok m) ∧
     (∀ c, (∀ cls (m : F), (cls, m) ∈ stmts → c ∉ cls) →
        get_acqf_input_constructor R c
        = Raise (RuntimeError (not_registered_msg c)))).
Proof.
  assert (H1 : ∀ R c (f : F), R !! c = Some f →
               get_acqf_input_constructor R c = Ok f).
  { intros R c f H. unfold get_acqf_input_constructor. by rewrite H. }
  assert (H2 : ∀ R c, R !! c = None →
               get_acqf_input_constructor R c
               = Raise (RuntimeError (not_registered_msg c))).
  { intros R c H. unfold get_acqf_input_constructor. by rewrite H. }
  split; [done |]. split; [done |].
  intros stmts R Hload. split.
  - intros cls m c Hin Hc. apply H1.
    destruct (load_module_lookup stmts ∅ R c Hload) as (L1 & _ & _).
    by eapply L1.
  - intros c Hnot. apply H2.
    destruct (load_module_lookup stmts ∅ R c Hload) as (_ & L2 & _).
    rewrite L2; [apply lookup_empty | done].
Qed.

(** C2. The duplicate check belongs to the call of
    [acqf_input_constructor]. Once a class [c] is in the registry,
    however many decorated definitions are attempted afterwards, its
    entry is still the one it had, and a further [acqf_input_constructor]
    call that names [c] raises [ValueError], so that the decorated
    definition leaves the registry as it was.  Nothing is checked when
    the entry is written: a decorator that an earlier call returned for
    the same classes, applied now, replaces the entry of [c] and returns
    its method, and so does [_register_acqf_input_constructor]. *)
Theorem acqf_input_constructor_duplicate R0 stmts c (f : F) cls (m : F) :
  R0 !! c = Some f → c ∈ cls →
  let R := attempt_all stmts R0 in
  R !! c = Some f ∧
  (∃ c', c' ∈ cls ∧ is_Some (R !! c') ∧
     acqf_input_constructor R cls = Raise (ValueError (duplicate_msg c')) ∧
     decorated_def cls m R = (Raise (ValueError (duplicate_msg c')), R) ∧
     (decorated_def cls m R).2 !! c = Some f) ∧
  (∀ R1 dec, acqf_input_constructor R1 cls = Ok dec →
     (dec m R).1 = m ∧ (dec m R).2 !! c = Some m) ∧
  _register_acqf_input_constructor c m R !! c = Some m.
Proof.
  intros Hc Hin R.
  assert (HR : R !! c = Some f) by by apply attempt_all_preserves.
  split; [done |]. split; [| split].
  - destruct (check_not_registered_raise R cls c Hin) as (c' & ? & ? & E);
      [by eexists |].
    exists c'. split; [done |]. split; [done |].
    unfold decorated_def, acqf_input_constructor. rewrite E. simpl.
    done.
  - intros R1 dec Hdec. unfold acqf_input_constructor in Hdec.
    destruct (check_not_registered R1 cls) as [[]|e]; [| done].
    injection Hdec as <-. split; [done |].
    rewrite decorator_lookup. by rewrite decide_True.
  - unfold _register_acqf_input_constructor. by rewrite lookup_insert_eq.
Qed.
End registry_claims.

Lemma module_loads :
  load_module module_statements ∅ = Ok ACQF_INPUT_CONSTRUCTOR_REGISTRY.
Proof. vm_compute. reflexivity. Qed.


(** ** Best observed values *)

Section best_f_claims.
Implicit Types (td : TrainingData.t)
               (objective : option AcquisitionObjective).

Lemma get_best_f_analytic_not_block td objective :
  TrainingData.is_block_design td = false →
  get_best_f_analytic td objective
  = Raise (NotImplementedError block_design_msg).
Proof. intros H. unfold get_best_f_analytic. by rewrite H. Qed.

Lemma get_best_f_mc_not_block td objective :
  TrainingData.is_block_design td = false →
  get_best_f_mc td objective = Raise (NotImplementedError block_design_msg).
Proof. intros H. unfold get_best_f_mc. by rewrite H. Qed.

Lemma get_best_f_analytic_unscalarized td objective :
  TrainingData.is_block_design td = true →
  is_scalarized objective = false →
  get_best_f_analytic td objective
  = (m ← shape_last (TrainingData.Y td);
     if decide (1 < m)%nat
     then Raise (NotImplementedError analytic_multi_output_msg)
     else squeeze_last <$> max_dim2 (TrainingData.Y td)).
Proof.
  intros Hb Hs. unfold get_best_f_analytic. rewrite Hb. simpl.
  by destruct objective as [[| |]|].
Qed.

Lemma shape_last_snoc {A} (t : Tensor A) s k :
  shape t = s ++ [k] → shape_last t = Ok k.
Proof. intros H. unfold shape_last. by rewrite H, split_last_snoc. Qed.

Lemma get_best_f_analytic_multi_output td objective m :
  TrainingData.is_block_design td = true →
  is_scalarized objective = false →
  shape_last (TrainingData.Y td) = Ok m → (1 < m)%nat →
  get_best_f_analytic td objective
  = Raise (NotImplementedError analytic_multi_output_msg).
Proof.
  intros Hb Hs Hm Hlt.
  rewrite get_best_f_analytic_unscalarized by done.
  rewrite Hm. simpl. by rewrite decide_True.
Qed.

Lemma get_best_f_mc_multi_output td m :
  TrainingData.is_block_design td = true →
  shape_last (TrainingData.Y td) = Ok m → (1 < m)%nat →
  get_best_f_mc td None = Raise (UnsupportedError mc_multi_output_msg).
Proof.
  intros Hb Hm Hlt. unfold get_best_f_mc. rewrite Hb. simpl.
  rewrite Hm. simpl. by rewrite decide_True.
Qed.

Lemma get_best_f_mc_objective td o :
  TrainingData.is_block_design td = true →
  get_best_f_mc td (Some o) = (T ← call o (TrainingData.Y td); max_last T).
Proof. intros Hb. unfold get_best_f_mc. by rewrite Hb. Qed.

Lemma squeeze_last_single {A} (t : Tensor A) s n :
  shape t = s ++ [n; 1%nat] →
  squeeze_last t = mkTensor (s ++ [n]) (data t).
Proof.
  intros H. unfold squeeze_last.
  replace (s ++ [n; 1%nat]) with ((s ++ [n]) ++ [1%nat]) in H
    by by rewrite <- app_assoc.
  by rewrite H, split_last_snoc.
Qed.

(** C3. [get_best_f_analytic] raises on data that is not block design;
    on block-design data, with a [ScalarizedObjective] it returns the
    maxima of the outcomes reduced through [evaluate]; with no
    scalarizing objective and single-output outcomes it returns the
    maxima of the outcomes; with no scalarizing objective and more than
    one output it raises.  Outcomes 1.0, 3.0, 2.0 give 3.0. *)
Theorem get_best_f_analytic_cases td objective :
  (TrainingData.is_block_design td = false →
     get_best_f_analytic td objective
     = Raise (NotImplementedError block_design_msg)) ∧
  (TrainingData.is_block_design td = true →
     (∀ evaluate forward T s n,
        objective = Some (ScalarizedObjective evaluate forward) →
        evaluate (TrainingData.Y td) = Ok T →
        shape T = s ++ [n] → wf T → (0 < n)%nat →
        ∃ R, get_best_f_analytic td objective = Ok R ∧
             batch_maxima s n (data T) R) ∧
     (is_scalarized objective = false →
        (∀ s n,
           shape (TrainingData.Y td) = s ++ [n; 1%nat] →
           wf (TrainingData.Y td) → (0 < n)%nat →
           ∃ R, get_best_f_analytic td objective = Ok R ∧
                batch_maxima s n (data (TrainingData.Y td)) R) ∧
        (∀ m,
           shape_last (TrainingData.Y td) = Ok m → (1 < m)%nat →
           get_best_f_analytic td objective
           = Raise (NotImplementedError analytic_multi_output_msg)))) ∧
  (∀ X, get_best_f_analytic
          (TrainingData.mk true X (mkTensor [3; 1]%nat [1; 3; 2]%Q)) None
        = Ok (scalar 3%Q)).
Proof.
  split; [apply get_best_f_analytic_not_block |].
  split; [| done].
  intros Hb. split.
  - intros evaluate forward T s n -> HT Hs Hwf Hn.
    unfold get_best_f_analytic. rewrite Hb. simpl. rewrite HT. simpl.
    by apply max_last_batch_maxima.
  - intros Hsc. split.
    + intros s n Hs Hwf Hn.
      rewrite get_best_f_analytic_unscalarized by done.
      replace (s ++ [n; 1%nat]) with ((s ++ [n]) ++ [1%nat]) in Hs
        by by rewrite <- app_assoc.
      rewrite (shape_last_snoc _ _ _ Hs). simpl.
      apply max_dim2_single_batch_maxima; [| done | done].
      by rewrite Hs, <- app_assoc.
    + intros m Hm Hlt. by eapply get_best_f_analytic_multi_output.
Qed.

Lemma select_last_matrix (Y : FloatTensor) n m j :
  shape Y = [n; m] → (j < m)%nat →
  select_last j Y = Ok (mkTensor [n] (column n m j (data Y))).
Proof.
  intros Hs Hj. unfold select_last.
  change [n; m] with ([n] ++ [m]) in Hs. rewrite Hs, split_last_snoc.
  rewrite decide_True by done. simpl. by rewrite Nat.mul_1_r.
Qed.

(** C4. [get_best_f_mc] raises on data that is not block design; on
    block-design data, with no objective and more than one output it
    raises; with no objective and single-output outcomes the identity
    objective is applied and the maxima are returned; with an objective
    the maxima of the objective applied to the outcomes are returned,
    so an objective restricted to one column gives the maximum of that
    column. *)
Theorem get_best_f_mc_cases td objective :
  (TrainingData.is_block_design td = false →
     get_best_f_mc td objective
     = Raise (NotImplementedError block_design_msg)) ∧
  (TrainingData.is_block_design td = true →
     (objective = None →
        (∀ m,
           shape_last (TrainingData.Y td) = Ok m → (1 < m)%nat →
           get_best_f_mc td objective
           = Raise (UnsupportedError mc_multi_output_msg)) ∧
        (∀ s n,
           shape (TrainingData.Y td) = s ++ [n; 1%nat] →
           wf (TrainingData.Y td) → (0 < n)%nat →
           get_best_f_mc td objective
           = (T ← call IdentityMCObjective (TrainingData.Y td);
              max_last T) ∧
           ∃ R, get_best_f_mc td objective = Ok R ∧
                batch_maxima s n (data (TrainingData.Y td)) R)) ∧
     (∀ o T s n,
        objective = Some o →
        call o (TrainingData.Y td) = Ok T →
        shape T = s ++ [n] → wf T → (0 < n)%nat →
        ∃ R, get_best_f_mc td objective = Ok R ∧
             batch_maxima s n (data T) R) ∧
     (∀ n m j,
        objective = Some (column_objective j) →
        shape (TrainingData.Y td) = [n; m] → wf (TrainingData.Y td) →
        (0 < n)%nat → (j < m)%nat →
        ∃ v, get_best_f_mc td objective = Ok (scalar v) ∧
             is_max v (column n m j (data (TrainingData.Y td))))).
Proof.
  split; [apply get_best_f_mc_not_block |].
  intros Hb. split; [| split].
  - intros ->. split.
    + intros m Hm Hlt. by eapply get_best_f_mc_multi_output.
    + intros s n Hs Hwf Hn.
      assert (E : get_best_f_mc td None
                  = (T ← call IdentityMCObjective (TrainingData.Y td);
                     max_last T)).
      { unfold get_best_f_mc. rewrite Hb. simpl.
        replace (s ++ [n; 1%nat]) with ((s ++ [n]) ++ [1%nat]) in Hs
          by by rewrite <- app_assoc.
        by rewrite (shape_last_snoc _ _ _ Hs). }
      split; [done |]. rewrite E. simpl.
      rewrite (squeeze_last_single _ s n Hs).
      change (data (TrainingData.Y td))
        with (data (mkTensor (s ++ [n]) (data (TrainingData.Y td)))).
      apply max_last_batch_maxima; [done | | done].
      unfold wf in *. simpl. rewrite Hwf, Hs.
      replace (s ++ [n; 1%nat]) with ((s ++ [n]) ++ [1%nat])
        by by rewrite <- app_assoc.
      rewrite (numel_snoc (s ++ [n])). lia.
  - intros o T s n -> HT Hs Hwf Hn.
    rewrite get_best_f_mc_objective by done. rewrite HT. simpl.
    by apply max_last_batch_maxima.
  - intros n m j -> Hs Hwf Hn Hj.
    rewrite get_best_f_mc_objective by done. simpl.
    rewrite (select_last_matrix _ n m j Hs Hj). simpl.
    assert (Hlen : length (column n m j (data (TrainingData.Y td))) = n).
    { unfold column. by rewrite length_fmap, chunks_length. }
    destruct (max_last_batch_maxima
                (mkTensor [n] (column n m j (data (TrainingData.Y td))))
                [] n eq_refl) as (R & -> & HR);
      [unfold wf; simpl; lia | done |].
    destruct (batch_maxima_scalar n _ R Hlen HR) as (v & -> & Hv).
    by exists v.
Qed.
End best_f_claims.

(** ** Constructors and the shape of the training data *)

Section constructor_claims.
Implicit Types (model : Model) (td : TrainingData.t)
               (objective : option AcquisitionObjective)
               (X_pending X_baseline : option FloatTensor)
               (sampler : option MCSampler)
               (kwargs : gmap string Value).

(** The default of [kwargs.get("best_f", ...)] is computed whether or
    not the key is present. *)
Lemma construct_inputs_best_f_raise model td objective maximize kwargs e :
  get_best_f_analytic td objective = Raise e →
  construct_inputs_best_f model td objective maximize kwargs = Raise e.
Proof. intros H. unfold construct_inputs_best_f. simpl. by rewrite H. Qed.

Lemma construct_inputs_qEI_raise
    model td objective X_pending sampler kwargs e :
  get_best_f_mc td objective = Raise e →
  construct_inputs_qEI model td objective X_pending sampler kwargs
  = Raise e.
Proof. intros H. unfold construct_inputs_qEI. simpl. by rewrite H. Qed.

Lemma construct_inputs_qPI_omitted
    model td objective X_pending sampler tau kwargs e :
  get_best_f_mc td objective = Raise e →
  construct_inputs_qPI model td objective X_pending sampler tau VNone kwargs
  = Raise e.
Proof. intros H. unfold construct_inputs_qPI. simpl. by rewrite H. Qed.

Lemma construct_inputs_qPI_supplied
    model td objective X_pending sampler tau best_f kwargs :
  best_f ≠ VNone →
  ∃ bundle,
    construct_inputs_qPI model td objective X_pending sampler tau best_f
      kwargs = Ok bundle ∧
    bundle !! "best_f" = Some best_f.
Proof.
  intros H. unfold construct_inputs_qPI. simpl.
  assert (is_None best_f = false) as -> by by destruct best_f.
  simpl. eexists. split; [done |]. by rewrite lookup_insert_eq.
Qed.

Lemma construct_inputs_qNEI_supplied
    model td objective X_pending sampler Xb prune_baseline kwargs :
  ∃ bundle,
    construct_inputs_qNEI model td objective X_pending sampler (Some Xb)
      prune_baseline kwargs = Ok bundle ∧
    bundle !! "X_baseline" = Some (VTensor Xb).
Proof.
  unfold construct_inputs_qNEI. simpl. eexists. split; [done |].
  rewrite lookup_insert_ne by done. by rewrite lookup_insert_eq.
Qed.

(** C5, as amended. On training data that is not block design: both
    best-f helpers raise the block-design [NotImplementedError];
    [construct_inputs_best_f] and [construct_inputs_qEI] raise it for
    every [kwargs]; [construct_inputs_qPI] raises it when [best_f] is
    omitted and [construct_inputs_qNEI] when [X_baseline] is omitted;
    [construct_inputs_noisy_ei] raises its own block-design
    [NotImplementedError].  When [best_f] (for qPI) or [X_baseline] (for
    qNEI) is supplied, that constructor returns a bundle holding the
    supplied value. *)
Theorem not_block_design_derivations td :
  TrainingData.is_block_design td = false →
  (∀ objective,
     get_best_f_analytic td objective
     = Raise (NotImplementedError block_design_msg) ∧
     get_best_f_mc td objective
     = Raise (NotImplementedError block_design_msg)) ∧
  (∀ model objective maximize kwargs,
     construct_inputs_best_f model td objective maximize kwargs
     = Raise (NotImplementedError block_design_msg)) ∧
  (∀ model objective X_pending sampler kwargs,
     construct_inputs_qEI model td objective X_pending sampler kwargs
     = Raise (NotImplementedError block_design_msg)) ∧
  (∀ model objective X_pending sampler tau kwargs,
     construct_inputs_qPI model td objective X_pending sampler tau VNone
       kwargs
     = Raise (NotImplementedError block_design_msg)) ∧
  (∀ model num_fantasies maximize kwargs,
     construct_inputs_noisy_ei model td num_fantasies maximize kwargs
     = Raise (NotImplementedError
                "Currently only block designs are supported")) ∧
  (∀ model objective X_pending sampler prune_baseline kwargs,
     construct_inputs_qNEI model td objective X_pending sampler None
       prune_baseline kwargs
     = Raise (NotImplementedError block_design_msg)) ∧
  (∀ model objective X_pending sampler tau best_f kwargs,
     best_f ≠ VNone →
     ∃ bundle,
       construct_inputs_qPI model td objective X_pending sampler tau
         best_f kwargs = Ok bundle ∧
       bundle !! "best_f" = Some best_f) ∧
  (∀ model objective X_pending sampler Xb prune_baseline kwargs,
     ∃ bundle,
       construct_inputs_qNEI model td objective X_pending sampler
         (Some Xb) prune_baseline kwargs = Ok bundle ∧
       bundle !! "X_baseline" = Some (VTensor Xb)).
Proof.
  intros Hb. repeat split.
  - by apply get_best_f_analytic_not_block.
  - by apply get_best_f_mc_not_block.
  - intros. by apply construct_inputs_best_f_raise,
      get_best_f_analytic_not_block.
  - intros. by apply construct_inputs_qEI_raise, get_best_f_mc_not_block.
  - intros. by apply construct_inputs_qPI_omitted, get_best_f_mc_not_block.
  - intros. unfold construct_inputs_noisy_ei. by rewrite Hb.
  - intros. unfold construct_inputs_qNEI. simpl. by rewrite Hb.
  - intros. by apply construct_inputs_qPI_supplied.
  - intros. by apply construct_inputs_qNEI_supplied.
Qed.

(** C9. A [best_f] among the keyword arguments does not spare
    [construct_inputs_best_f] and [construct_inputs_qEI] the computation
    of the fallback: the supplied value reaches the bundle only when the
    best-f helper returns, and whatever exception the helper raises is
    raised by the constructor, so both raise on data that is not block
    design, [construct_inputs_best_f] raises on multi-output data
    without a [ScalarizedObjective], and [construct_inputs_qEI] raises
    on multi-output data without an objective. *)
Theorem explicit_best_f_keeps_preconditions
    model td objective maximize X_pending sampler kwargs v :
  kwargs !! "best_f" = Some v →
  (∀ d, get_best_f_analytic td objective = Ok d →
        ∃ bundle,
          construct_inputs_best_f model td objective maximize kwargs
          = Ok bundle ∧ bundle !! "best_f" = Some v) ∧
  (∀ d, get_best_f_mc td objective = Ok d →
        ∃ bundle,
          construct_inputs_qEI model td objective X_pending sampler kwargs
          = Ok bundle ∧ bundle !! "best_f" = Some v) ∧
  (∀ e, get_best_f_analytic td objective = Raise e →
        construct_inputs_best_f model td objective maximize kwargs
        = Raise e) ∧
  (∀ e, get_best_f_mc td objective = Raise e →
        construct_inputs_qEI model td objective X_pending sampler kwargs
        = Raise e) ∧
  (TrainingData.is_block_design td = false →
     construct_inputs_best_f model td objective maximize kwargs
     = Raise (NotImplementedError block_design_msg) ∧
     construct_inputs_qEI model td objective X_pending sampler kwargs
     = Raise (NotImplementedError block_design_msg)) ∧
  (TrainingData.is_block_design td = true →
   ∀ m, shape_last (TrainingData.Y td) = Ok m → (1 < m)%nat →
     (is_scalarized objective = false →
        construct_inputs_best_f model td objective maximize kwargs
        = Raise (NotImplementedError analytic_multi_output_msg)) ∧
     (objective = None →
        construct_inputs_qEI model td objective X_pending sampler kwargs
        = Raise (UnsupportedError mc_multi_output_msg))).
Proof.
  intros Hk. split; [| split; [| split; [| split; [| split]]]].
  - intros d Hd. unfold construct_inputs_best_f. simpl. rewrite Hd. simpl.
    eexists. split; [done |]. rewrite lookup_insert_ne by done.
    rewrite lookup_insert_eq. unfold get_default. by rewrite Hk.
  - intros d Hd. unfold construct_inputs_qEI. simpl. rewrite Hd. simpl.
    eexists. split; [done |].
    rewrite lookup_insert_eq. unfold get_default. by rewrite Hk.
  - intros e. apply construct_inputs_best_f_raise.
  - intros e. apply construct_inputs_qEI_raise.
  - intros Hb. split.
    + by apply construct_inputs_best_f_raise,
        get_best_f_analytic_not_block.
    + by apply construct_inputs_qEI_raise, get_best_f_mc_not_block.
  - intros Hb m Hm Hlt. split.
    + intros Hs. apply construct_inputs_best_f_raise.
      by eapply get_best_f_analytic_multi_output.
    + intros ->. apply construct_inputs_qEI_raise.
      by eapply get_best_f_mc_multi_output.
Qed.

(** C10. With a [best_f] that is not [None], [construct_inputs_qPI]
    returns, whatever the training data, a bundle whose ["best_f"] is
    the value supplied, also where [get_best_f_mc] raises. *)
Theorem construct_inputs_qPI_explicit_best_f
    model td objective X_pending sampler tau best_f kwargs :
  best_f ≠ VNone →
  ∃ bundle,
    construct_inputs_qPI model td objective X_pending sampler tau best_f
      kwargs = Ok bundle ∧
    bundle !! "best_f" = Some best_f ∧
    bundle
    = <["best_f" := best_f]>
        (<["tau" := VFloat tau]>
           (<["sampler" := of_option VSampler sampler]>
           (<["X_pending" := of_option VTensor X_pending]>
           (<["objective" := of_option VObjective objective]>
              {["model" := VModel model]})))).
Proof.
  intros H. unfold construct_inputs_qPI. simpl.
  assert (is_None best_f = false) as -> by by destruct best_f.
  simpl. eexists. split; [done |]. split; [| done].
  by rewrite lookup_insert_eq.
Qed.
End constructor_claims.

(** ** Multi-fidelity base constructor *)

Section multi_fidelity_claims.
Context (expand_trace_observations :
           FloatTensor → list Z → Z → Result FloatTensor)
        (project_to_target_fidelity :
           FloatTensor → gmap Z Q → Result FloatTensor)
        (repr_set : gset Z → string).

Local Abbreviation mf_base :=
  (construct_inputs_mf_base expand_trace_observations
     project_to_target_fidelity repr_set).

(** [sorted(d)] lists the keys of [d], each once, in increasing order. *)
Lemma sorted_spec (d : gmap Z Q) :
  Sorted Z.le (sorted d) ∧ NoDup (sorted d) ∧
  ∀ k, k ∈ sorted d ↔ is_Some (d !! k).
Proof.
  unfold sorted. split; [| split].
  - apply (Sorted_merge_sort Z.le).
  - rewrite merge_sort_Permutation. apply NoDup_elements.
  - intros k. rewrite merge_sort_Permutation, elem_of_elements.
    apply elem_of_dom.
Qed.

Lemma mf_base_mismatch model td tf w ci nto ignore :
  dom w ≠ dom tf →
  mf_base model td tf (Some w) ci nto ignore
  = Raise (RuntimeError
      ("Must provide the same indices for target_fidelities "
       +:+ "(" +:+ repr_set (dom tf)
       +:+ ") and fidelity_weights "
       +:+ " (" +:+ repr_set (dom w) +:+ ").")).
Proof.
  intros H. unfold construct_inputs_mf_base.
  by rewrite decide_True by congruence.
Qed.

Lemma mf_base_match model td tf fw ci nto ignore :
  (∀ w, fw = Some w → dom w = dom tf) →
  mf_base model td tf fw ci nto ignore
  = Ok (<["project" :=
            VCallable (fun X => project_to_target_fidelity X tf)]>
       (<["expand" :=
            VCallable (fun X =>
              expand_trace_observations X (sorted tf) nto)]>
       (<["cost_aware_utility" :=
            VUtility (mkInverseCostWeightedUtility
              (mkAffineFidelityCostModel
                 (default ((fun _ => 1%Q) <$> tf) fw) ci))]>
          {["target_fidelities" := VFidelities tf]}))).
Proof.
  intros H. unfold construct_inputs_mf_base.
  destruct fw as [w|]; simpl.
  - rewrite decide_False; [done |]. rewrite (H w eq_refl). by intros ?.
  - rewrite decide_False; [done |]. rewrite dom_fmap_L. by intros ?.
Qed.

(** C6. [construct_inputs_mf_base] raises [RuntimeError] whenever the
    keys of [fidelity_weights] differ from the keys of
    [target_fidelities], as for [{0: 1.0, 1: 1.0}] against [{0: 1.0}];
    when the keys agree, and when [fidelity_weights] is omitted (weight
    1.0 for each target key), it returns a bundle whose ["expand"] and
    ["project"] are callables: the first expands with trace
    observations over the sorted fidelity keys, the second projects to
    the target fidelities. *)
Theorem construct_inputs_mf_base_keys model td tf fw ci nto ignore :
  (∀ w, fw = Some w → dom w ≠ dom tf →
     mf_base model td tf fw ci nto ignore
     = Raise (RuntimeError
         ("Must provide the same indices for target_fidelities "
          +:+ "(" +:+ repr_set (dom tf)
          +:+ ") and fidelity_weights "
          +:+ " (" +:+ repr_set (dom w) +:+ ")."))) ∧
  ((∀ w, fw = Some w → dom w = dom tf) →
     ∃ bundle expand project,
       mf_base model td tf fw ci nto ignore = Ok bundle ∧
       bundle !! "expand" = Some (VCallable expand) ∧
       bundle !! "project" = Some (VCallable project) ∧
       callable (VCallable expand) = true ∧
       callable (VCallable project) = true ∧
       (∀ X, expand X = expand_trace_observations X (sorted tf) nto) ∧
       (∀ X, project X = project_to_target_fidelity X tf) ∧
       bundle !! "cost_aware_utility"
       = Some (VUtility (mkInverseCostWeightedUtility
                 (mkAffineFidelityCostModel
                    (default ((fun _ => 1%Q) <$> tf) fw) ci)))) ∧
  (∃ msg,
     mf_base model td {[ 0%Z := 1%Q; 1%Z := 1%Q ]}
       (Some {[ 0%Z := 1%Q ]}) ci nto ignore
     = Raise (RuntimeError msg)).
Proof.
  split; [| split].
  - intros w -> Hne. by apply mf_base_mismatch.
  - intros H. rewrite mf_base_match by done.
    do 3 eexists. split; [done |].
    split; [rewrite lookup_insert_ne by done; by rewrite lookup_insert_eq |].
    split; [by rewrite lookup_insert_eq |].
    split; [done |]. split; [done |]. split; [done |]. split; [done |].
    do 2 rewrite lookup_insert_ne by done. by rewrite lookup_insert_eq.
  - eexists. apply mf_base_mismatch.
    intros H. assert (Hin : (1%Z : Z) ∈ dom ({[ 0%Z := 1%Q ]} : gmap Z Q)).
    { rewrite H. rewrite !dom_insert_L. set_solver. }
    rewrite dom_singleton_L in Hin. set_solver.
Qed.
End multi_fidelity_claims.

(** ** Expected hypervolume improvement *)

Section hypervolume_claims.
Context (get_default_partitioning_alpha : nat → Q).

Local Abbreviation EHVI :=
  (construct_inputs_EHVI get_default_partitioning_alpha).

Lemma gt_zero_sign v positive a :
  gt_zero v = Ok (positive, a) → positive = negb (Qle_bool a 0).
Proof.
  destruct v as [| [] | | | | t | | | | | | |]; simpl; intros H;
    try discriminate; try by injection H as <- <-.
  destruct (data t) as [|x [|]]; try discriminate. by injection H as <- <-.
Qed.

(** C7, as amended. When [outcome_constraints] is supplied the
    constructor raises [NotImplementedError], whatever [alpha] is.
    Otherwise, when the objective and the posterior return, it returns
    a bundle whose reference point is the objective applied to the
    thresholds, and whose partitioning is a
    [FastNondominatedPartitioning] when [alpha] is 0 and a
    [NondominatedPartitioning] with that [alpha] when [alpha] is
    positive. *)
Theorem construct_inputs_EHVI_partitioning
    model td objective_thresholds objective kwargs m :
  shape_first objective_thresholds = Ok m →
  let objective' :=
    default IdentityAnalyticMultiOutputObjective objective in
  let alpha :=
    get_default kwargs "alpha"
      (VFloat (get_default_partitioning_alpha m)) in
  (is_None (get kwargs "outcome_constraints") = false →
     EHVI model td objective_thresholds objective kwargs
     = Raise (NotImplementedError
                "EHVI does not yet support outcome constraints.")) ∧
  (is_None (get kwargs "outcome_constraints") = true →
   ∀ positive a ref_point Y_pmean Y,
     gt_zero alpha = Ok (positive, a) →
     call objective' objective_thresholds = Ok ref_point →
     (if is_None (get kwargs "Y_pmean")
      then VTensor <$> posterior_mean model (TrainingData.X td)
      else Ok (get kwargs "Y_pmean")) = Ok (VTensor Y_pmean) →
     call objective' Y_pmean = Ok Y →
     ∃ bundle,
       EHVI model td objective_thresholds objective kwargs = Ok bundle ∧
       bundle !! "ref_point" = Some (VTensor ref_point) ∧
       (a == 0 →
          bundle !! "partitioning"
          = Some (VPartitioning
                    (FastNondominatedPartitioning ref_point Y)))%Q ∧
       (0 < a →
          bundle !! "partitioning"
          = Some (VPartitioning
                    (NondominatedPartitioning ref_point Y a)))%Q).
Proof.
  intros Hm objective' alpha. split.
  - intros Hoc. unfold construct_inputs_EHVI. rewrite Hm. simpl.
    by rewrite Hoc.
  - intros Hoc positive a ref_point Y_pmean Y Ha Href Hpm HY.
    pose proof (gt_zero_sign _ _ _ Ha) as Hsign.
    assert (E : EHVI model td objective_thresholds objective kwargs
                = Ok (<["objective" := VObjective objective']>
                     (<["partitioning" :=
                          VPartitioning
                            (if positive
                             then NondominatedPartitioning ref_point Y a
                             else FastNondominatedPartitioning ref_point Y)]>
                     (<["ref_point" := VTensor ref_point]>
                        {["model" := VModel model]})))).
    { unfold construct_inputs_EHVI. rewrite Hm. simpl. rewrite Hoc. simpl.
      change (match objective with
              | Some o => o
              | None => IdentityAnalyticMultiOutputObjective
              end) with objective'.
      rewrite Href. simpl. rewrite Hpm. simpl.
      fold alpha. rewrite Ha. simpl.
      destruct positive; simpl; rewrite HY; done. }
    eexists. split; [exact E |].
    split; [| split].
    + do 2 rewrite lookup_insert_ne by done. by rewrite lookup_insert_eq.
    + intros Hz. rewrite lookup_insert_ne by done.
      rewrite lookup_insert_eq. rewrite Hsign.
      assert (Qle_bool a 0 = true) as ->; [| done].
      apply Qle_bool_iff. rewrite Hz. apply Qle_refl.
    + intros Hpos. rewrite lookup_insert_ne by done.
      rewrite lookup_insert_eq. rewrite Hsign.
      assert (Qle_bool a 0 = false) as ->; [| done].
      destruct (Qle_bool a 0) eqn:E'; [| done].
      apply Qle_bool_iff in E'. exfalso. eapply Qlt_not_le; eauto.
Qed.
End hypervolume_claims.

(** ** Linear constraints *)

Section constraint_facts.

Lemma nonzero_positions_bounds st u j :
  j ∈ nonzero_positions st u → (st ≤ j < st + length u)%nat.
Proof.
  revert st. induction u as [|a u IH]; intros st Hj; simpl in *.
  - by apply elem_of_nil in Hj.
  - destruct (Qeq_bool a 0).
    + apply IH in Hj. lia.
    + apply elem_of_cons in Hj as [-> | Hj]; [lia |].
      apply IH in Hj. lia.
Qed.

Lemma sparse_sum_fmap idx (f : nat → Q) x :
  sparse_sum idx (f <$> idx) x
  = foldr Qplus 0%Q ((fun j => f j * nth j x 0)%Q <$> idx).
Proof.
  unfold sparse_sum. induction idx as [|j idx IH]; [done |].
  rewrite !fmap_cons. simpl. by rewrite IH.
Qed.

Lemma foldr_Qplus_ext (f g : nat → Q) idx :
  (∀ j, j ∈ idx → f j == g j)%Q →
  (foldr Qplus 0 (f <$> idx) == foldr Qplus 0 (g <$> idx))%Q.
Proof.
  induction idx as [|j idx IH]; intros H; [reflexivity |].
  rewrite !fmap_cons. simpl. rewrite IH.
  - rewrite (H j); [reflexivity | by left].
  - intros j' Hj'. apply H. by right.
Qed.

Lemma dot_cons_drop a u x st :
  (dot (a :: u) (drop st x)
   == a * nth st x 0 + dot u (drop (S st) x))%Q.
Proof.
  unfold dot. destruct (x !! st) as [y|] eqn:E.
  - rewrite (drop_S _ _ _ E). simpl.
    rewrite (nth_lookup_Some _ _ _ _ E). reflexivity.
  - apply lookup_ge_None in E.
    rewrite !drop_ge by lia. rewrite nth_overflow by lia.
    rewrite !zip_with_nil_r. simpl. ring.
Qed.

(** Summing the negated non-zero entries of a row against [x] is the
    negated inner product of the row with [x]. *)
Lemma sparse_sum_nonzero u x st :
  (foldr Qplus 0
     ((fun j => (- nth (j - st) u 0) * nth j x 0)
        <$> nonzero_positions st u)
   == - dot u (drop st x))%Q.
Proof.
  revert st. induction u as [|a u IH]; intros st.
  - simpl. unfold dot. simpl. ring.
  - rewrite dot_cons_drop. simpl nonzero_positions.
    assert (Htail :
      (foldr Qplus 0
         ((fun j => (- nth (j - st) (a :: u) 0) * nth j x 0)
            <$> nonzero_positions (S st) u)
       == - dot u (drop (S st) x))%Q).
    { rewrite <- IH. apply foldr_Qplus_ext. intros j Hj.
      apply nonzero_positions_bounds in Hj.
      replace (j - st)%nat with (S (j - S st)) by lia. reflexivity. }
    destruct (Qeq_bool a 0) eqn:Ea.
    + apply Qeq_bool_eq in Ea. rewrite Htail, Ea. ring.
    + rewrite fmap_cons. simpl foldr. rewrite Htail.
      rewrite Nat.sub_diag. simpl nth. ring.
Qed.

Lemma nth_take_drop (l : list Q) i d j :
  (j < d)%nat → nth j (take d (drop (i * d) l)) 0%Q = nth (i * d + j) l 0%Q.
Proof.
  intros Hj. rewrite !nth_lookup. rewrite lookup_take_lt by done.
  by rewrite lookup_drop.
Qed.

(** One iteration of the loop, on row [i] of a [k x d] matrix. *)
Lemma constraint_of_row_ok (A b : FloatTensor) k d i :
  shape b = [k; 1%nat] → (i < k)%nat →
  constraint_of_row A b d i = Ok (row_constraint A b d i).
Proof.
  intros Hb Hi. unfold row_constraint.
  set (u := data (row d i A)).
  set (indicies := squeeze (nonzero (row d i A))).
  unfold constraint_of_row.
  fold indicies. unfold index_row.
  assert (Hbound : Forall (fun j => j < d)%nat (data indicies)).
  { apply Forall_forall. intros j Hj. simpl in Hj.
    apply nonzero_positions_bounds in Hj.
    assert (length (take d (drop (i * d) (data A))) ≤ d)%nat
      by (rewrite length_take; lia).
    simpl in *. lia. }
  rewrite decide_True by done. simpl.
  unfold index2. rewrite Hb. rewrite decide_True by lia. simpl.
  unfold neg, scalar. simpl.
  rewrite Nat.mul_1_r, Nat.add_0_r.
  do 3 f_equal.
  rewrite <- list_fmap_compose. f_equal.
  apply Forall_fmap_ext_1.
  eapply Forall_impl; [exact Hbound |].
  intros j Hj. simpl. subst u. simpl. by rewrite nth_take_drop.
Qed.

Lemma constraint_loop_ok (A b : FloatTensor) k d rows acc :
  shape b = [k; 1%nat] → Forall (fun i => i < k)%nat rows →
  constraint_loop A b d rows acc
  = Ok (acc ++ (row_constraint A b d <$> rows)).
Proof.
  intros Hb HF. revert acc.
  induction HF as [|i rows Hi _ IH]; intros acc; simpl.
  - by rewrite app_nil_r.
  - rewrite (constraint_of_row_ok A b k d i Hb Hi). simpl.
    rewrite IH. by rewrite <- app_assoc.
Qed.

Lemma make_inequality_constraints_ok (A b : FloatTensor) k d :
  shape A = [k; d] → shape b = [k; 1%nat] →
  make_inequality_constraints (Some (A, b))
  = Ok (Some (row_constraint A b d <$> seq 0 k)).
Proof.
  intros HA Hb. unfold make_inequality_constraints, unpack_shape2.
  rewrite HA. simpl.
  rewrite (constraint_loop_ok A b k d); [done | done |].
  apply Forall_forall. intros i Hi. apply elem_of_seq in Hi. lia.
Qed.

(** The triple of a row admits exactly the points on which the row
    satisfies [A[i] . x <= b[i]]. *)
Lemma row_constraint_admits (A b : FloatTensor) d i x :
  admits (row_constraint A b d i) x
  ↔ (dot (data (row d i A)) x <= nth i (data b) 0)%Q.
Proof.
  unfold admits, row_constraint.
  set (u := data (row d i A)). simpl.
  change (nonzero_positions 0 (take d (drop (i * d) (data A))))
    with (nonzero_positions 0 u).
  rewrite sparse_sum_fmap.
  assert (E : (foldr Qplus 0
                 ((fun j => (- nth j u 0) * nth j x 0)
                    <$> nonzero_positions 0 u)
               == - dot u x)%Q).
  { pose proof (sparse_sum_nonzero u x 0) as H0.
    change (drop 0 x) with x in H0. rewrite <- H0.
    apply foldr_Qplus_ext. intros j _. by rewrite Nat.sub_0_r. }
  rewrite E. split; intros H; lra.
Qed.

(** What [optimize_objective] hands to [optimize_acqf] as
    [inequality_constraints]. *)
Lemma optimize_objective_args_constraints
    model objective bounds q lc ff tf qmc mc seed opts ppf bic sq args :
  optimize_objective_args model objective bounds q lc ff tf qmc mc seed
    opts ppf bic sq = Ok args →
  make_inequality_constraints lc = Ok (inequality_constraints args).
Proof.
  unfold optimize_objective_args.
  repeat match goal with
         | |- context [mbind _ ?r] =>
             lazymatch r with
             | make_inequality_constraints _ => fail
             | _ => destruct r as [[]|]; simpl
             end
         end; [| done].
  destruct (make_inequality_constraints lc) as [ic|]; simpl; [| done].
  by intros [= <-].
Qed.
End constraint_facts.

Section constraint_claims.

(** C8. For [linear_constraints = (A, b)] with [A] of shape [k x d] and
    [b] of shape [k x 1], the [inequality_constraints] that
    [optimize_objective] passes to [optimize_acqf] are exactly [k]
    triples; the triple of row [i] holds the indices of the non-zero
    entries of [A[i]], the negated entries [-A[i, indices]] and the
    negated bound [-b[i, 0]], and it admits, in the convention
    [sum(coefficients * x[indices]) >= rhs], exactly the points [x]
    with [A[i] . x <= b[i]].  Without [linear_constraints], no
    inequality constraints are passed. *)
Theorem optimize_objective_inequality_constraints :
  (∀ (A b : FloatTensor) k d,
     shape A = [k; d] → shape b = [k; 1%nat] →
     ∃ cs,
       make_inequality_constraints (Some (A, b)) = Ok (Some cs) ∧
       length cs = k ∧
       (∀ i, (i < k)%nat →
          ∃ indices coefficients rhs,
            cs !! i = Some (indices, coefficients, rhs) ∧
            data indices = nonzero_positions 0 (data (row d i A)) ∧
            data coefficients
            = (fun j => - nth j (data (row d i A)) 0)%Q <$> data indices ∧
            rhs = scalar (- nth i (data b) 0)%Q ∧
            ∀ x, admits (indices, coefficients, rhs) x
                 ↔ (dot (data (row d i A)) x <= nth i (data b) 0)%Q) ∧
       (∀ optimize_acqf model objective bounds q ff tf qmc mc seed opts
          ppf bic sq,
          (∀ args,
             optimize_objective_args model objective bounds q
               (Some (A, b)) ff tf qmc mc seed opts ppf bic sq = Ok args →
             inequality_constraints args = Some cs ∧
             optimize_objective optimize_acqf model objective bounds q
               (Some (A, b)) ff tf qmc mc seed opts ppf bic sq
             = optimize_acqf args) ∧
          (ff = None →
           ∃ args,
             optimize_objective_args model objective bounds q
               (Some (A, b)) ff tf qmc mc seed opts ppf bic sq
             = Ok args))) ∧
  (∀ optimize_acqf model objective bounds q ff tf qmc mc seed opts
     ppf bic sq args,
     optimize_objective_args model objective bounds q None ff tf qmc mc
       seed opts ppf bic sq = Ok args →
     inequality_constraints args = None ∧
     optimize_objective optimize_acqf model objective bounds q None ff tf
       qmc mc seed opts ppf bic sq
     = optimize_acqf args).
Proof.
  split.
  - intros A b k d HA Hb.
    exists (row_constraint A b d <$> seq 0 k).
    pose proof (make_inequality_constraints_ok A b k d HA Hb) as Hmk.
    split; [done |].
    split; [by rewrite length_fmap, length_seq |].
    split.
    + intros i Hi.
      exists (squeeze (nonzero (row d i A))).
      exists (mkTensor (shape (squeeze (nonzero (row d i A))))
                ((fun j => - nth j (data (row d i A)) 0)%Q
                   <$> nonzero_positions 0 (data (row d i A)))).
      exists (scalar (- nth i (data b) 0)%Q).
      split.
      { rewrite list_lookup_fmap, lookup_seq_lt by done. done. }
      split; [done |]. split; [done |]. split; [done |].
      intros x. apply (row_constraint_admits A b d i x).
    + intros optimize_acqf model objective bounds q ff tf qmc mc seed
        opts ppf bic sq. split.
      * intros args Hargs.
        pose proof (optimize_objective_args_constraints _ _ _ _ _ _ _ _ _
                      _ _ _ _ _ _ Hargs) as Hic.
        rewrite Hmk in Hic. injection Hic as <-.
        split; [done |].
        unfold optimize_objective. by rewrite Hargs.
      * intros ->. unfold optimize_objective_args.
        rewrite Hmk. destruct objective; simpl; eauto.
  - intros optimize_acqf model objective bounds q ff tf qmc mc seed opts
      ppf bic sq args Hargs.
    pose proof (optimize_objective_args_constraints _ _ _ _ _ _ _ _ _
                  _ _ _ _ _ _ Hargs) as Hic.
    simpl in Hic. injection Hic as <-.
    split; [done |].
    unfold optimize_objective. by rewrite Hargs.
Qed.
End constraint_claims.

(** ** The statements at concrete inputs *)

Lemma get_acqf_input_constructor_registered_witness :
  get_acqf_input_constructor ACQF_INPUT_CONSTRUCTOR_REGISTRY
    "ProbabilityOfImprovement" = Ok "construct_inputs_best_f" ∧
  get_acqf_input_constructor ACQF_INPUT_CONSTRUCTOR_REGISTRY
    "qLowerBoundMaxValueEntropy"
  = Raise (RuntimeError (not_registered_msg "qLowerBoundMaxValueEntropy")) ∧
  get_acqf_input_constructor ({[ "PosteriorMean" := 7%nat ]} : gmap string nat)
    "PosteriorMean" = Ok 7%nat.
Proof.
  destruct (@get_acqf_input_constructor_registered string) as (_ & _ & H).
  destruct (H module_statements _ module_loads) as [H1 H2].
  split; [| split].
  - apply (H1 ["ExpectedImprovement"; "ProbabilityOfImprovement"]).
    + right. left.
    + right. left.
  - apply H2. intros cls m Hin.
    assert (HF : Forall (fun s => "qLowerBoundMaxValueEntropy" ∉ s.1)
                   module_statements).
    { apply (bool_decide_unpack _). vm_compute. exact I. }
    rewrite Forall_forall in HF. apply (HF _ Hin).
  - destruct (@get_acqf_input_constructor_registered nat) as (H0 & _ & _).
    apply H0. reflexivity.
Defined.

(** C2 is not true of the code as stated: the decorator that
    [acqf_input_constructor] returned while [qGIBBON] was not registered
    can be applied twice, and the second application, made when the class
    is in the registry, raises nothing and replaces the entry;
    [_register_acqf_input_constructor] replaces the entry of a class that
    the module has registered. *)
Lemma acqf_input_constructor_duplicate_counterexample :
  ∃ dec,
    acqf_input_constructor ACQF_INPUT_CONSTRUCTOR_REGISTRY ["qGIBBON"]
    = Ok dec ∧
    (dec "first" ACQF_INPUT_CONSTRUCTOR_REGISTRY).2 !! "qGIBBON"
    = Some "first" ∧
    (dec "second" (dec "first" ACQF_INPUT_CONSTRUCTOR_REGISTRY).2).1
    = "second" ∧
    (dec "second" (dec "first" ACQF_INPUT_CONSTRUCTOR_REGISTRY).2).2
      !! "qGIBBON" = Some "second" ∧
    ACQF_INPUT_CONSTRUCTOR_REGISTRY !! "PosteriorMean"
    = Some "construct_inputs_analytic_base" ∧
    _register_acqf_input_constructor "PosteriorMean" "construct_inputs_other"
      ACQF_INPUT_CONSTRUCTOR_REGISTRY !! "PosteriorMean"
    = Some "construct_inputs_other".
Proof.
  exists (decorator ["qGIBBON"]).
  split; [vm_compute; reflexivity |].
  split; [vm_compute; reflexivity |].
  split; [reflexivity |].
  split; vm_compute; auto.
Qed.

Lemma acqf_input_constructor_duplicate_witness :
  let R := attempt_all [(["qLowerBoundMaxValueEntropy"], "construct_inputs_qGIBBON")]
             ACQF_INPUT_CONSTRUCTOR_REGISTRY in
  R !! "qExpectedImprovement" = Some "construct_inputs_qEI" ∧
  (∃ c', decorated_def ["qGIBBON"; "qExpectedImprovement"] "construct_inputs_other" R
         = (Raise (ValueError (duplicate_msg c')), R)) ∧
  (decorator ["qGIBBON"; "qExpectedImprovement"] "construct_inputs_other" R).2
    !! "qExpectedImprovement" = Some "construct_inputs_other".
Proof.
  intros R.
  destruct (acqf_input_constructor_duplicate ACQF_INPUT_CONSTRUCTOR_REGISTRY
              [(["qLowerBoundMaxValueEntropy"], "construct_inputs_qGIBBON")]
              "qExpectedImprovement" "construct_inputs_qEI"
              ["qGIBBON"; "qExpectedImprovement"] "construct_inputs_other")
    as (H1 & (c' & _ & _ & _ & H2 & _) & H3 & _).
  - vm_compute. reflexivity.
  - right. left.
  - split; [exact H1 |]. split; [exists c'; exact H2 |].
    exact (proj2 (H3 ∅ (decorator ["qGIBBON"; "qExpectedImprovement"])
                    eq_refl)).
Defined.

Lemma get_best_f_analytic_cases_witness :
  get_best_f_analytic examples.not_block None
  = Raise (NotImplementedError block_design_msg) ∧
  (∃ R, get_best_f_analytic examples.block2 (Some examples.scalarized) = Ok R ∧
        batch_maxima [] 3 [31; 25; 12]%Q R) ∧
  (∃ R, get_best_f_analytic examples.block1 None = Ok R ∧
        batch_maxima [] 3 [1; 3; 2]%Q R) ∧
  get_best_f_analytic examples.block2 None
  = Raise (NotImplementedError analytic_multi_output_msg).
Proof.
  split; [| split; [| split]].
  - apply (get_best_f_analytic_cases examples.not_block None). reflexivity.
  - destruct (get_best_f_analytic_cases examples.block2
                (Some examples.scalarized)) as (_ & H & _).
    destruct (H eq_refl) as [H1 _].
    apply (H1 examples.add_outcomes
              (fun _ => Raise (TypeError "expected a posterior"))
              (mkTensor [3]%nat [31; 25; 12]%Q) [] 3%nat).
    + reflexivity.
    + reflexivity.
    + reflexivity.
    + reflexivity.
    + lia.
  - destruct (get_best_f_analytic_cases examples.block1 None) as (_ & H & _).
    destruct (H eq_refl) as [_ H2]. destruct (H2 eq_refl) as [H3 _].
    apply (H3 [] 3%nat).
    + reflexivity.
    + reflexivity.
    + lia.
  - destruct (get_best_f_analytic_cases examples.block2 None) as (_ & H & _).
    destruct (H eq_refl) as [_ H2]. destruct (H2 eq_refl) as [_ H3].
    apply (H3 2%nat).
    + reflexivity.
    + lia.
Defined.

Lemma get_best_f_mc_cases_witness :
  get_best_f_mc examples.not_block None
  = Raise (NotImplementedError block_design_msg) ∧
  get_best_f_mc examples.block2 None
  = Raise (UnsupportedError mc_multi_output_msg) ∧
  (∃ R, get_best_f_mc examples.block1 None = Ok R ∧
        batch_maxima [] 3 [1; 3; 2]%Q R) ∧
  (∃ R, get_best_f_mc examples.block2 (Some (column_objective 1)) = Ok R ∧
        batch_maxima [] 3 [30; 20; 10]%Q R) ∧
  (∃ v, get_best_f_mc examples.block2 (Some (column_objective 0))
        = Ok (scalar v) ∧
        is_max v [1; 5; 2]%Q).
Proof.
  split; [| split; [| split; [| split]]].
  - apply (get_best_f_mc_cases examples.not_block None). reflexivity.
  - destruct (get_best_f_mc_cases examples.block2 None) as (_ & H).
    destruct (H eq_refl) as (H1 & _ & _). destruct (H1 eq_refl) as [H2 _].
    apply (H2 2%nat).
    + reflexivity.
    + lia.
  - destruct (get_best_f_mc_cases examples.block1 None) as (_ & H).
    destruct (H eq_refl) as (H1 & _ & _). destruct (H1 eq_refl) as [_ H2].
    apply (H2 [] 3%nat).
    + reflexivity.
    + reflexivity.
    + lia.
  - destruct (get_best_f_mc_cases examples.block2
                (Some (column_objective 1))) as (_ & H).
    destruct (H eq_refl) as (_ & H1 & _).
    apply (H1 (column_objective 1)
              (mkTensor [3]%nat [30; 20; 10]%Q) [] 3%nat).
    + reflexivity.
    + reflexivity.
    + reflexivity.
    + reflexivity.
    + lia.
  - destruct (get_best_f_mc_cases examples.block2
                (Some (column_objective 0))) as (_ & H).
    destruct (H eq_refl) as (_ & _ & H1).
    apply (H1 3%nat 2%nat 0%nat).
    + reflexivity.
    + reflexivity.
    + reflexivity.
    + lia.
    + lia.
Defined.

(** C5 is not true of the code as stated: on data that is not block
    design, [construct_inputs_qNEI] with a supplied [X_baseline] and
    [construct_inputs_qPI] with a supplied [best_f] return a bundle. *)
Lemma not_block_design_derivations_counterexample :
  TrainingData.is_block_design examples.not_block = false ∧
  construct_inputs_qNEI examples.model examples.not_block None None None
    (Some examples.X) prune_baseline_default ∅
  = Ok (<["prune_baseline" := VBool false]>
       (<["X_baseline" := VTensor examples.X]>
       (<["sampler" := VNone]>
       (<["X_pending" := VNone]>
       (<["objective" := VNone]>
          {["model" := VModel examples.model]}))))) ∧
  ¬ raises (construct_inputs_qNEI examples.model examples.not_block None
              None None (Some examples.X) prune_baseline_default ∅) ∧
  ¬ raises (construct_inputs_qPI examples.model examples.not_block None
              None None tau_default (VFloat 3) ∅).
Proof.
  split; [reflexivity |]. split; [reflexivity |].
  split; intros [e He]; discriminate He.
Qed.

Lemma not_block_design_derivations_witness :
  get_best_f_analytic examples.not_block None
  = Raise (NotImplementedError block_design_msg) ∧
  construct_inputs_qEI examples.model examples.not_block None None None
    {[ "best_f" := VFloat 3 ]}
  = Raise (NotImplementedError block_design_msg) ∧
  construct_inputs_noisy_ei examples.model examples.not_block
    num_fantasies_default maximize_default ∅
  = Raise (NotImplementedError "Currently only block designs are supported") ∧
  construct_inputs_qNEI examples.model examples.not_block None None None
    None prune_baseline_default ∅
  = Raise (NotImplementedError block_design_msg).
Proof.
  destruct (not_block_design_derivations examples.not_block eq_refl)
    as (H1 & H2 & H3 & H4 & H5 & H6 & H7 & H8).
  split; [apply H1 |]. split; [apply H3 |]. split; [apply H5 | apply H6].
Defined.

Lemma explicit_best_f_keeps_preconditions_witness :
  construct_inputs_best_f examples.model examples.not_block None true
    {[ "best_f" := VFloat 3 ]}
  = Raise (NotImplementedError block_design_msg) ∧
  construct_inputs_best_f examples.model examples.block2 None true
    {[ "best_f" := VFloat 3 ]}
  = Raise (NotImplementedError analytic_multi_output_msg) ∧
  construct_inputs_qEI examples.model examples.block2 None None None
    {[ "best_f" := VFloat 3 ]}
  = Raise (UnsupportedError mc_multi_output_msg) ∧
  (∃ bundle,
     construct_inputs_qEI examples.model examples.block1 None None None
       {[ "best_f" := VFloat 3 ]} = Ok bundle ∧
     bundle !! "best_f" = Some (VFloat 3)).
Proof.
  split; [| split; [| split]].
  - destruct (explicit_best_f_keeps_preconditions examples.model
                examples.not_block None true None None
                {[ "best_f" := VFloat 3 ]} (VFloat 3))
      as (_ & _ & _ & _ & H & _).
    + reflexivity.
    + apply H. reflexivity.
  - destruct (explicit_best_f_keeps_preconditions examples.model
                examples.block2 None true None None
                {[ "best_f" := VFloat 3 ]} (VFloat 3))
      as (_ & _ & _ & _ & _ & H).
    + reflexivity.
    + apply (H eq_refl 2%nat); [reflexivity | lia | reflexivity].
  - destruct (explicit_best_f_keeps_preconditions examples.model
                examples.block2 None true None None
                {[ "best_f" := VFloat 3 ]} (VFloat 3))
      as (_ & _ & _ & _ & _ & H).
    + reflexivity.
    + apply (H eq_refl 2%nat); [reflexivity | lia | reflexivity].
  - destruct (explicit_best_f_keeps_preconditions examples.model
                examples.block1 None true None None
                {[ "best_f" := VFloat 3 ]} (VFloat 3))
      as (_ & H & _).
    + reflexivity.
    + apply (H (scalar 3%Q)). reflexivity.
Defined.

Lemma construct_inputs_qPI_explicit_best_f_witness :
  ∃ bundle,
    construct_inputs_qPI examples.model examples.not_block None None None
      tau_default (VFloat 3) ∅ = Ok bundle ∧
    bundle !! "best_f" = Some (VFloat 3).
Proof.
  destruct (construct_inputs_qPI_explicit_best_f examples.model
              examples.not_block None None None tau_default (VFloat 3) ∅)
    as (bundle & H1 & H2 & _).
  - discriminate.
  - exists bundle. split; [exact H1 | exact H2].
Defined.

Lemma construct_inputs_mf_base_keys_witness :
  (∃ msg,
     construct_inputs_mf_base examples.expand examples.project
       examples.repr_set examples.model examples.block1
       examples.target_fidelities (Some {[ 0%Z := 1%Q ]})
       cost_intercept_default num_trace_observations_default ∅
     = Raise (RuntimeError msg)) ∧
  (∃ bundle expand project,
     construct_inputs_mf_base examples.expand examples.project
       examples.repr_set examples.model examples.block1
       examples.target_fidelities (Some {[ 0%Z := (1 # 2)%Q; 1%Z := 2%Q ]})
       cost_intercept_default num_trace_observations_default ∅
     = Ok bundle ∧
     bundle !! "expand" = Some (VCallable expand) ∧
     bundle !! "project" = Some (VCallable project)) ∧
  (∃ bundle,
     construct_inputs_mf_base examples.expand examples.project
       examples.repr_set examples.model examples.block1
       examples.target_fidelities None
       cost_intercept_default num_trace_observations_default ∅
     = Ok bundle ∧
     bundle !! "cost_aware_utility"
     = Some (VUtility (mkInverseCostWeightedUtility
               (mkAffineFidelityCostModel
                  ((fun _ => 1%Q) <$> examples.target_fidelities) 1)))).
Proof.
  split; [| split].
  - destruct (construct_inputs_mf_base_keys examples.expand examples.project
                examples.repr_set examples.model examples.block1
                examples.target_fidelities (Some {[ 0%Z := 1%Q ]})
                cost_intercept_default num_trace_observations_default ∅)
      as (H & _ & _).
    eexists. apply (H {[ 0%Z := 1%Q ]} eq_refl).
    apply (bool_decide_unpack _). vm_compute. exact I.
  - destruct (construct_inputs_mf_base_keys examples.expand examples.project
                examples.repr_set examples.model examples.block1
                examples.target_fidelities
                (Some {[ 0%Z := (1 # 2)%Q; 1%Z := 2%Q ]})
                cost_intercept_default num_trace_observations_default ∅)
      as (_ & H & _).
    destruct H as (bundle & expand & project & H1 & H2 & H3 & _).
    + intros w [= <-]. apply (bool_decide_unpack _). vm_compute. exact I.
    + exists bundle, expand, project. split; [exact H1 |].
      split; [exact H2 | exact H3].
  - destruct (construct_inputs_mf_base_keys examples.expand examples.project
                examples.repr_set examples.model examples.block1
                examples.target_fidelities None
                cost_intercept_default num_trace_observations_default ∅)
      as (_ & H & _).
    destruct H as (bundle & expand & project & H1 & _ & _ & _ & _ & _ & _ & H2).
    + intros w [=].
    + exists bundle. split; [exact H1 | exact H2].
Defined.

(** C7 is not true of the code as stated: with [alpha = 0] and
    [outcome_constraints] supplied, the constructor raises; no
    partitioning is built and no reference point is returned. *)
Lemma construct_inputs_EHVI_counterexample :
  let kwargs : gmap string Value :=
    {[ "alpha" := VFloat 0; "outcome_constraints" := VTensor examples.A ]} in
  get_default kwargs "alpha" (VFloat (examples.default_alpha 2)) = VFloat 0 ∧
  construct_inputs_EHVI examples.default_alpha examples.model examples.block2
    examples.thresholds None kwargs
  = Raise (NotImplementedError
             "EHVI does not yet support outcome constraints.") ∧
  ¬ returns (construct_inputs_EHVI examples.default_alpha examples.model
               examples.block2 examples.thresholds None kwargs).
Proof.
  intros kwargs. split; [reflexivity |].
  assert (E : construct_inputs_EHVI examples.default_alpha examples.model
                examples.block2 examples.thresholds None kwargs
              = Raise (NotImplementedError
                         "EHVI does not yet support outcome constraints."))
    by reflexivity.
  split; [exact E |]. rewrite E. intros [bundle H]. discriminate H.
Qed.

Lemma construct_inputs_EHVI_partitioning_witness :
  (construct_inputs_EHVI examples.default_alpha examples.model examples.block2
     examples.thresholds None
     {[ "outcome_constraints" := VTensor examples.A ]}
   = Raise (NotImplementedError
              "EHVI does not yet support outcome constraints.")) ∧
  (∃ bundle,
     construct_inputs_EHVI examples.default_alpha examples.model
       examples.block2 examples.thresholds None ∅ = Ok bundle ∧
     bundle !! "ref_point" = Some (VTensor examples.thresholds) ∧
     bundle !! "partitioning"
     = Some (VPartitioning
               (FastNondominatedPartitioning examples.thresholds
                  examples.X))) ∧
  (∃ bundle,
     construct_inputs_EHVI examples.default_alpha examples.model
       examples.block2 examples.thresholds None
       {[ "alpha" := VFloat (1 # 100); "Y_pmean" := VTensor examples.Y2 ]}
     = Ok bundle ∧
     bundle !! "ref_point" = Some (VTensor examples.thresholds) ∧
     bundle !! "partitioning"
     = Some (VPartitioning
               (NondominatedPartitioning examples.thresholds examples.Y2
                  (1 # 100)))).
Proof.
  split; [| split].
  - destruct (construct_inputs_EHVI_partitioning examples.default_alpha
                examples.model examples.block2 examples.thresholds None
                {[ "outcome_constraints" := VTensor examples.A ]} 2%nat
                eq_refl) as [H _].
    apply H. reflexivity.
  - destruct (construct_inputs_EHVI_partitioning examples.default_alpha
                examples.model examples.block2 examples.thresholds None
                ∅ 2%nat eq_refl) as [_ H].
    destruct (H eq_refl false 0%Q examples.thresholds examples.X examples.X)
      as (bundle & H1 & H2 & H3 & _).
    + reflexivity.
    + reflexivity.
    + reflexivity.
    + reflexivity.
    + exists bundle. split; [exact H1 |]. split; [exact H2 |].
      apply H3. reflexivity.
  - destruct (construct_inputs_EHVI_partitioning examples.default_alpha
                examples.model examples.block2 examples.thresholds None
                {[ "alpha" := VFloat (1 # 100);
                   "Y_pmean" := VTensor examples.Y2 ]} 2%nat eq_refl)
      as [_ H].
    destruct (H eq_refl true (1 # 100)%Q examples.thresholds examples.Y2
                examples.Y2)
      as (bundle & H1 & H2 & _ & H3).
    + reflexivity.
    + reflexivity.
    + reflexivity.
    + reflexivity.
    + exists bundle. split; [exact H1 |]. split; [exact H2 |].
      apply H3. reflexivity.
Defined.

Lemma optimize_objective_inequality_constraints_witness :
  (∃ cs,
     make_inequality_constraints (Some (examples.A, examples.b))
     = Ok (Some cs) ∧
     length cs = 2%nat ∧
     (∃ indices coefficients rhs,
        cs !! 0%nat = Some (indices, coefficients, rhs) ∧
        data indices = [0; 2]%nat ∧
        data coefficients
        = (fun j => - nth j [1; 0; -2] 0)%Q <$> [0; 2]%nat ∧
        rhs = scalar (- 4)%Q) ∧
     (∃ args,
        optimize_objective_args examples.model (column_objective 0)
          (mkTensor [2; 3]%nat [0; 0; 0; 1; 1; 1]%Q) 1
          (Some (examples.A, examples.b)) None None true 512 None None
          VNone None false = Ok args ∧
        inequality_constraints args = Some cs)) ∧
  (∀ args,
     optimize_objective_args examples.model (column_objective 0)
       (mkTensor [2; 3]%nat [0; 0; 0; 1; 1; 1]%Q) 1
       None None None true 512 None None VNone None false = Ok args →
     inequality_constraints args = None).
Proof.
  destruct optimize_objective_inequality_constraints as [H HNone].
  split.
  - destruct (H examples.A examples.b 2%nat 3%nat eq_refl eq_refl)
      as (cs & H1 & H2 & H3 & H4).
    exists cs. split; [exact H1 |]. split; [exact H2 |]. split.
    + destruct (H3 0%nat) as (indices & coefficients & rhs & E1 & E2 & E3 & E4 & _).
      * lia.
      * exists indices, coefficients, rhs.
        split; [exact E1 |]. split; [exact E2 |].
        split; [| exact E4]. rewrite E3, E2. reflexivity.
    + destruct (H4 examples.optimizer examples.model (column_objective 0)
                  (mkTensor [2; 3]%nat [0; 0; 0; 1; 1; 1]%Q) 1%Z None None
                  true 512%Z None None VNone None false) as [G1 G2].
      destruct (G2 eq_refl) as [args Hargs].
      exists args. split; [exact Hargs |].
      apply (G1 args Hargs).
  - intros args Hargs.
    apply (HNone examples.optimizer _ _ _ _ _ _ _ _ _ _ _ _ _ args Hargs).
Defined.

(* ================================================================= *)
(** * Further properties *)

(** ** The registry: registration and lookup *)

Section registry_more.
Context {F : Type}.
Implicit Types (R : gmap string F) (c : string) (cls : list string).

Lemma get_acqf_input_constructor_lookup R R' c :
  R !! c = R' !! c →
  get_acqf_input_constructor R c = get_acqf_input_constructor R' c.
Proof. intros H. unfold get_acqf_input_constructor. by rewrite H. Qed.

(** X1. A decorated definition succeeds exactly when none of its classes
    is registered (a class repeated within the one call is not an
    error); it then returns the method itself, every class it names is
    looked up to that method, and the lookup of every other class, found
    or not found, is as before. *)
Theorem decorated_def_registers cls (m : F) R :
  (Forall (fun c => R !! c = None) cls
   ↔ ∃ R', decorated_def cls m R = (Ok m, R')) ∧
  (Forall (fun c => R !! c = None) cls →
   (∀ c, c ∈ cls →
      get_acqf_input_constructor (decorated_def cls m R).2 c = Ok m) ∧
   (∀ c, c ∉ cls →
      get_acqf_input_constructor (decorated_def cls m R).2 c
      = get_acqf_input_constructor R c)).
Proof.
  split.
  - split.
    + intros HF. eexists. by apply decorated_def_ok.
    + intros [R' HR'].
      destruct (decorated_def_cases cls m R) as [[e He] | [HF _]]; [| done].
      rewrite He in HR'. discriminate HR'.
  - intros HF. rewrite (decorated_def_ok cls m R HF).
    change ((Ok m, (decorator cls m R).2).2) with ((decorator cls m R).2).
    split.
    + intros c Hc. unfold get_acqf_input_constructor.
      rewrite decorator_lookup. by rewrite decide_True.
    + intros c Hc. apply get_acqf_input_constructor_lookup.
      rewrite decorator_lookup. by rewrite decide_False.
Qed.

(** X2. The duplicate check is made when [acqf_input_constructor] is
    called, not when the decorator it returns is applied: two decorators
    obtained for the same unregistered class can both be applied, and the
    second application replaces the entry of the first without an
    exception.  [_register_acqf_input_constructor] likewise overwrites
    whatever entry the class had. *)
Theorem decorator_applied_later_overwrites R c (m1 m2 : F) :
  R !! c = None →
  (∃ dec1 dec2,
     acqf_input_constructor R [c] = Ok dec1 ∧
     acqf_input_constructor R [c] = Ok dec2 ∧
     get_acqf_input_constructor (dec1 m1 R).2 c = Ok m1 ∧
     get_acqf_input_constructor (dec2 m2 (dec1 m1 R).2).2 c = Ok m2) ∧
  (∀ R0,
     get_acqf_input_constructor
       (_register_acqf_input_constructor c m2
          (_register_acqf_input_constructor c m1 R0)) c = Ok m2).
Proof.
  intros Hc. split.
  - exists (decorator [c]), (decorator [c]).
    assert (E : acqf_input_constructor R [c] = Ok (decorator [c])).
    { unfold acqf_input_constructor. simpl.
      rewrite decide_False; [done |]. rewrite Hc. by intros [? ?]. }
    split; [done |]. split; [done |].
    unfold get_acqf_input_constructor. rewrite !decorator_lookup.
    rewrite !decide_True by by left. done.
  - intros R0. unfold get_acqf_input_constructor,
      _register_acqf_input_constructor.
    by rewrite lookup_insert_eq.
Qed.
End registry_more.

Lemma decorated_def_registers_witness :
  get_acqf_input_constructor
    (decorated_def ["qGIBBON"; "qLowerBoundMaxValueEntropy"]
       "construct_inputs_qGIBBON" ACQF_INPUT_CONSTRUCTOR_REGISTRY).2
    "qLowerBoundMaxValueEntropy" = Ok "construct_inputs_qGIBBON" ∧
  get_acqf_input_constructor
    (decorated_def ["qGIBBON"; "qLowerBoundMaxValueEntropy"]
       "construct_inputs_qGIBBON" ACQF_INPUT_CONSTRUCTOR_REGISTRY).2
    "PosteriorMean"
  = get_acqf_input_constructor ACQF_INPUT_CONSTRUCTOR_REGISTRY "PosteriorMean".
Proof.
  destruct (decorated_def_registers
              ["qGIBBON"; "qLowerBoundMaxValueEntropy"]
              "construct_inputs_qGIBBON" ACQF_INPUT_CONSTRUCTOR_REGISTRY)
    as [_ H].
  destruct H as [H1 H2].
  - apply (bool_decide_unpack _). vm_compute. exact I.
  - split.
    + apply H1. right. left.
    + apply H2. apply (bool_decide_unpack _). vm_compute. exact I.
Defined.

Lemma decorator_applied_later_overwrites_witness :
  ∃ dec1 dec2,
    acqf_input_constructor ACQF_INPUT_CONSTRUCTOR_REGISTRY ["qGIBBON"]
    = Ok dec1 ∧
    acqf_input_constructor ACQF_INPUT_CONSTRUCTOR_REGISTRY ["qGIBBON"]
    = Ok dec2 ∧
    get_acqf_input_constructor
      (dec2 "second" (dec1 "first" ACQF_INPUT_CONSTRUCTOR_REGISTRY).2).2
      "qGIBBON" = Ok "second".
Proof.
  destruct (decorator_applied_later_overwrites
              ACQF_INPUT_CONSTRUCTOR_REGISTRY "qGIBBON" "first" "second")
    as [(dec1 & dec2 & H1 & H2 & _ & H3) _].
  - vm_compute. reflexivity.
  - exists dec1, dec2. split; [exact H1 |]. split; [exact H2 | exact H3].
Defined.

(** X3. Importing the module raises no duplicate-registration error: its
    seventeen decorated definitions register eighteen classes
    ([ExpectedImprovement] and [ProbabilityOfImprovement] share
    [construct_inputs_best_f]), and [construct_inputs_mf_base], which
    carries no decorator, is the constructor of no class. *)
Theorem module_import_registry :
  load_module module_statements ∅ = Ok ACQF_INPUT_CONSTRUCTOR_REGISTRY ∧
  size ACQF_INPUT_CONSTRUCTOR_REGISTRY = 18%nat ∧
  dom ACQF_INPUT_CONSTRUCTOR_REGISTRY
  = list_to_set (concat (module_statements.*1)) ∧
  get_acqf_input_constructor ACQF_INPUT_CONSTRUCTOR_REGISTRY
    "ExpectedImprovement"
  = get_acqf_input_constructor ACQF_INPUT_CONSTRUCTOR_REGISTRY
      "ProbabilityOfImprovement" ∧
  map_Forall (fun _ f => f ≠ "construct_inputs_mf_base")
    ACQF_INPUT_CONSTRUCTOR_REGISTRY.
Proof.
  split; [vm_compute; reflexivity |].
  split; [vm_compute; reflexivity |].
  split; [apply (bool_decide_unpack _); vm_compute; exact I |].
  split; [vm_compute; reflexivity |].
  apply (bool_decide_unpack _). vm_compute. exact I.
Qed.

(** ** Best observed values: agreement and degenerate shapes *)

Section best_f_more.
Implicit Types (td : TrainingData.t)
               (objective : option AcquisitionObjective).

Lemma max_last_empty (T : FloatTensor) s :
  shape T = s ++ [0%nat] →
  max_last T
  = Raise (IndexError
             "max(): Expected reduction dim -1 to have non-zero size.").
Proof. intros H. unfold max_last. by rewrite H, split_last_snoc. Qed.

Lemma max_dim2_empty (Y : FloatTensor) s m :
  shape Y = s ++ [0%nat; m] →
  max_dim2 Y
  = Raise (IndexError
             "max(): Expected reduction dim -2 to have non-zero size.").
Proof.
  intros H. unfold max_dim2.
  replace (s ++ [0%nat; m]) with ((s ++ [0%nat]) ++ [m]) in H
    by by rewrite <- app_assoc.
  by rewrite H, !split_last_snoc.
Qed.

(** X4. On single-output outcomes with at least one observation and no
    objective, the analytic and the Monte Carlo helper give the same
    result: the same tensor of maxima on block-design data, the same
    exception otherwise. *)
Theorem get_best_f_helpers_agree td s n :
  shape (TrainingData.Y td) = s ++ [n; 1%nat] →
  wf (TrainingData.Y td) → (0 < n)%nat →
  get_best_f_analytic td None = get_best_f_mc td None.
Proof.
  intros Hs Hwf Hn.
  destruct (TrainingData.is_block_design td) eqn:Hb.
  - rewrite get_best_f_analytic_unscalarized by done.
    unfold get_best_f_mc. rewrite Hb. simpl.
    assert (Hl : shape_last (TrainingData.Y td) = Ok 1%nat).
    { apply (shape_last_snoc _ (s ++ [n])). by rewrite Hs, <- app_assoc. }
    rewrite Hl. simpl.
    rewrite (max_dim2_single _ s n Hs Hwf Hn).
    rewrite (squeeze_last_single _ s n Hs).
    unfold max_last. simpl. rewrite split_last_snoc.
    by rewrite decide_False by lia.
  - rewrite get_best_f_analytic_not_block, get_best_f_mc_not_block by done.
    done.
Qed.

(** X5. With no observation at all (outcomes of shape [... x 0 x 1]),
    both helpers raise [IndexError] on block-design data: the reduction
    runs over a dimension of size zero and there is no value to return. *)
Theorem get_best_f_no_observations td s :
  TrainingData.is_block_design td = true →
  shape (TrainingData.Y td) = s ++ [0%nat; 1%nat] →
  (∃ msg, get_best_f_analytic td None = Raise (IndexError msg)) ∧
  (∃ msg, get_best_f_mc td None = Raise (IndexError msg)).
Proof.
  intros Hb Hs.
  assert (Hl : shape_last (TrainingData.Y td) = Ok 1%nat).
  { apply (shape_last_snoc _ (s ++ [0%nat])). by rewrite Hs, <- app_assoc. }
  split.
  - rewrite get_best_f_analytic_unscalarized by done.
    rewrite Hl. simpl. rewrite (max_dim2_empty _ s 1 Hs). simpl. eauto.
  - unfold get_best_f_mc. rewrite Hb. simpl. rewrite Hl. simpl.
    rewrite (squeeze_last_single _ s 0 Hs).
    rewrite (max_last_empty (mkTensor (s ++ [0%nat]) _) s) by done. eauto.
Qed.

(** X6. [get_best_f_analytic] uses an objective only if it is a
    [ScalarizedObjective]: any other objective is ignored, and the result
    is the one obtained with no objective, whereas [get_best_f_mc]
    applies whatever objective it is given. *)
Theorem get_best_f_analytic_ignores_other_objectives td objective :
  is_scalarized objective = false →
  get_best_f_analytic td objective = get_best_f_analytic td None ∧
  (TrainingData.is_block_design td = true →
   ∀ o, objective = Some o →
     get_best_f_mc td objective
     = (T ← call o (TrainingData.Y td); max_last T)).
Proof.
  intros Hs. split.
  - unfold get_best_f_analytic. by destruct objective as [[| |]|].
  - intros Hb o ->. by apply get_best_f_mc_objective.
Qed.
End best_f_more.

Lemma get_best_f_helpers_agree_witness :
  get_best_f_analytic examples.block1 None
  = get_best_f_mc examples.block1 None.
Proof.
  apply (get_best_f_helpers_agree examples.block1 [] 3%nat).
  - reflexivity.
  - reflexivity.
  - lia.
Defined.

Lemma get_best_f_no_observations_witness :
  ∃ msg,
    get_best_f_mc
      (TrainingData.mk true (mkTensor [0; 2]%nat []) (mkTensor [0; 1]%nat []))
      None = Raise (IndexError msg).
Proof.
  destruct (get_best_f_no_observations
              (TrainingData.mk true (mkTensor [0; 2]%nat [])
                 (mkTensor [0; 1]%nat [])) [])
    as [_ H].
  - reflexivity.
  - reflexivity.
  - exact H.
Defined.

Lemma get_best_f_analytic_ignores_other_objectives_witness :
  get_best_f_analytic examples.block2 (Some (column_objective 0))
  = get_best_f_analytic examples.block2 None ∧
  get_best_f_mc examples.block2 (Some (column_objective 0))
  = (T ← call (column_objective 0) examples.Y2; max_last T).
Proof.
  destruct (get_best_f_analytic_ignores_other_objectives examples.block2
              (Some (column_objective 0))) as [H1 H2].
  - reflexivity.
  - split; [exact H1 |]. apply (H2 eq_refl). reflexivity.
Defined.

(** ** Constructors: keyword arguments and bundles *)

Section constructors_more.
Implicit Types (model : Model) (td : TrainingData.t)
               (objective : option AcquisitionObjective)
               (X_pending X_baseline : option FloatTensor)
               (sampler : option MCSampler)
               (kwargs : gmap string Value).

(** X7. Keyword arguments the constructors do not name are dropped
    silently: [construct_inputs_best_f] and [construct_inputs_qEI] depend
    on [kwargs] through the key ["best_f"] only, and the other
    constructors return the same result for every [kwargs]. *)
Theorem constructors_ignore_other_kwargs kwargs kwargs' :
  (kwargs !! "best_f" = kwargs' !! "best_f" →
   (∀ model td objective maximize,
      construct_inputs_best_f model td objective maximize kwargs
      = construct_inputs_best_f model td objective maximize kwargs') ∧
   (∀ model td objective X_pending sampler,
      construct_inputs_qEI model td objective X_pending sampler kwargs
      = construct_inputs_qEI model td objective X_pending sampler kwargs')) ∧
  (∀ model td objective,
     construct_inputs_analytic_base model td objective kwargs
     = construct_inputs_analytic_base model td objective kwargs') ∧
  (∀ model td objective beta maximize,
     construct_inputs_ucb model td objective beta maximize kwargs
     = construct_inputs_ucb model td objective beta maximize kwargs') ∧
  (∀ model td num_fantasies maximize,
     construct_inputs_noisy_ei model td num_fantasies maximize kwargs
     = construct_inputs_noisy_ei model td num_fantasies maximize kwargs') ∧
  (∀ model td objective X_pending sampler,
     construct_inputs_mc_base model td objective X_pending sampler kwargs
     = construct_inputs_mc_base model td objective X_pending sampler kwargs') ∧
  (∀ model td objective X_pending sampler X_baseline prune_baseline,
     construct_inputs_qNEI model td objective X_pending sampler X_baseline
       prune_baseline kwargs
     = construct_inputs_qNEI model td objective X_pending sampler X_baseline
         prune_baseline kwargs') ∧
  (∀ model td objective X_pending sampler tau best_f,
     construct_inputs_qPI model td objective X_pending sampler tau best_f
       kwargs
     = construct_inputs_qPI model td objective X_pending sampler tau best_f
         kwargs') ∧
  (∀ model td objective X_pending sampler beta,
     construct_inputs_qUCB model td objective X_pending sampler beta kwargs
     = construct_inputs_qUCB model td objective X_pending sampler beta
         kwargs').
Proof.
  split; [| repeat split; done].
  intros Hk. split.
  - intros. unfold construct_inputs_best_f, get_default. by rewrite Hk.
  - intros. unfold construct_inputs_qEI, get_default. by rewrite Hk.
Qed.

(** X8. The keys of the bundle each constructor returns, whatever the
    arguments: the bundle is expanded into the call of the acquisition
    function, so these are the keyword arguments that call receives. *)
Theorem constructor_bundle_keys model td objective kwargs :
  (∀ bundle,
     construct_inputs_analytic_base model td objective kwargs = Ok bundle →
     dom bundle = {[ "model"; "objective" ]}) ∧
  (∀ maximize bundle,
     construct_inputs_best_f model td objective maximize kwargs = Ok bundle →
     dom bundle = {[ "model"; "objective"; "best_f"; "maximize" ]}) ∧
  (∀ beta maximize bundle,
     construct_inputs_ucb model td objective beta maximize kwargs
     = Ok bundle →
     dom bundle = {[ "model"; "objective"; "beta"; "maximize" ]}) ∧
  (∀ num_fantasies maximize bundle,
     construct_inputs_noisy_ei model td num_fantasies maximize kwargs
     = Ok bundle →
     dom bundle
     = {[ "model"; "X_observed"; "num_fantasies"; "maximize" ]}) ∧
  (∀ X_pending sampler bundle,
     construct_inputs_mc_base model td objective X_pending sampler kwargs
     = Ok bundle →
     dom bundle = {[ "model"; "objective"; "X_pending"; "sampler" ]}) ∧
  (∀ X_pending sampler bundle,
     construct_inputs_qEI model td objective X_pending sampler kwargs
     = Ok bundle →
     dom bundle
     = {[ "model"; "objective"; "X_pending"; "sampler"; "best_f" ]}) ∧
  (∀ X_pending sampler X_baseline prune_baseline bundle,
     construct_inputs_qNEI model td objective X_pending sampler X_baseline
       prune_baseline kwargs = Ok bundle →
     dom bundle
     = {[ "model"; "objective"; "X_pending"; "sampler"; "X_baseline";
          "prune_baseline" ]}) ∧
  (∀ X_pending sampler tau best_f bundle,
     construct_inputs_qPI model td objective X_pending sampler tau best_f
       kwargs = Ok bundle →
     dom bundle
     = {[ "model"; "objective"; "X_pending"; "sampler"; "tau"; "best_f" ]}) ∧
  (∀ X_pending sampler beta bundle,
     construct_inputs_qUCB model td objective X_pending sampler beta kwargs
     = Ok bundle →
     dom bundle
     = {[ "model"; "objective"; "X_pending"; "sampler"; "beta" ]}).
Proof.
  repeat split.
  - intros bundle [= <-]. rewrite !dom_insert_L, dom_singleton_L. set_solver.
  - intros maximize bundle. unfold construct_inputs_best_f. simpl.
    destruct (get_best_f_analytic td objective); simpl; [| done].
    intros [= <-]. rewrite !dom_insert_L, dom_singleton_L. set_solver.
  - intros beta maximize bundle [= <-].
    rewrite !dom_insert_L, dom_singleton_L. set_solver.
  - intros num_fantasies maximize bundle. unfold construct_inputs_noisy_ei.
    destruct (TrainingData.is_block_design td); simpl; [| done].
    intros [= <-]. rewrite !dom_insert_L, dom_singleton_L. set_solver.
  - intros X_pending sampler bundle [= <-].
    rewrite !dom_insert_L, dom_singleton_L. set_solver.
  - intros X_pending sampler bundle. unfold construct_inputs_qEI. simpl.
    destruct (get_best_f_mc td objective); simpl; [| done].
    intros [= <-]. rewrite !dom_insert_L, dom_singleton_L. set_solver.
  - intros X_pending sampler X_baseline prune_baseline bundle.
    unfold construct_inputs_qNEI. simpl.
    destruct X_baseline as [Xb|];
      [| destruct (TrainingData.is_block_design td)]; simpl; try done.
    + intros [= <-]. rewrite !dom_insert_L, dom_singleton_L. set_solver.
    + intros [= <-]. rewrite !dom_insert_L, dom_singleton_L. set_solver.
  - intros X_pending sampler tau best_f bundle.
    unfold construct_inputs_qPI. simpl.
    destruct (is_None best_f);
      [destruct (get_best_f_mc td objective) |]; simpl; try done.
    + intros [= <-]. rewrite !dom_insert_L, dom_singleton_L. set_solver.
    + intros [= <-]. rewrite !dom_insert_L, dom_singleton_L. set_solver.
  - intros X_pending sampler beta bundle [= <-].
    rewrite !dom_insert_L, dom_singleton_L. set_solver.
Qed.

(** X9. With [best_f] omitted, [construct_inputs_qPI] returns the bundle
    of [construct_inputs_qEI] (called without a [best_f] keyword) with
    ["tau"] added, and raises exactly what [construct_inputs_qEI] raises. *)
Theorem construct_inputs_qPI_omitted_is_qEI
    model td objective X_pending sampler tau kwargs :
  construct_inputs_qPI model td objective X_pending sampler tau VNone kwargs
  = (fun bundle => <["tau" := VFloat tau]> bundle)
      <$> construct_inputs_qEI model td objective X_pending sampler ∅.
Proof.
  unfold construct_inputs_qPI, construct_inputs_qEI. simpl.
  destruct (get_best_f_mc td objective) as [d|e]; simpl; [| done].
  (* the two insertions commute: both sides are the same map *)
  by f_equal.
Qed.
End constructors_more.

Lemma constructors_ignore_other_kwargs_witness :
  construct_inputs_best_f examples.model examples.block1 None true
    {[ "best_f" := VFloat 3; "beta" := VFloat 1 ]}
  = construct_inputs_best_f examples.model examples.block1 None true
      {[ "best_f" := VFloat 3 ]}.
Proof.
  destruct (constructors_ignore_other_kwargs
              {[ "best_f" := VFloat 3; "beta" := VFloat 1 ]}
              {[ "best_f" := VFloat 3 ]}) as [H _].
  destruct H as [H _].
  - vm_compute. reflexivity.
  - apply H.
Defined.

Lemma constructor_bundle_keys_witness :
  ∃ bundle,
    construct_inputs_qEI examples.model examples.block1 None None None ∅
    = Ok bundle ∧
    dom bundle = {[ "model"; "objective"; "X_pending"; "sampler"; "best_f" ]}.
Proof.
  destruct (constructor_bundle_keys examples.model examples.block1 None ∅)
    as (_ & _ & _ & _ & _ & H & _).
  eexists. split; [reflexivity |].
  apply (H None None). reflexivity.
Defined.

(** ** Multi-fidelity base constructor: what the closures capture *)

Section multi_fidelity_more.
Context (expand_trace_observations :
           FloatTensor → list Z → Z → Result FloatTensor)
        (project_to_target_fidelity :
           FloatTensor → gmap Z Q → Result FloatTensor)
        (repr_set : gset Z → string).

Local Abbreviation mf_base :=
  (construct_inputs_mf_base expand_trace_observations
     project_to_target_fidelity repr_set).

(** X10. When [construct_inputs_mf_base] returns, the fidelity
    dimensions its ["expand"] closure hands to
    [expand_trace_observations] are exactly the keys of
    [target_fidelities], each once, in increasing order; the model, the
    training data and further keyword arguments play no part in the
    result. *)
Theorem construct_inputs_mf_base_expand_dims
    model td tf fw ci nto ignore :
  (∀ w, fw = Some w → dom w = dom tf) →
  (∃ bundle expand dims,
     mf_base model td tf fw ci nto ignore = Ok bundle ∧
     bundle !! "expand" = Some (VCallable expand) ∧
     (∀ X, expand X = expand_trace_observations X dims nto) ∧
     Sorted Z.le dims ∧ NoDup dims ∧
     (∀ k, k ∈ dims ↔ is_Some (tf !! k))) ∧
  (∀ model' td' ignore',
     mf_base model' td' tf fw ci nto ignore'
     = mf_base model td tf fw ci nto ignore).
Proof.
  intros H. split.
  - rewrite mf_base_match by done.
    eexists _, _, (sorted tf). split; [done |].
    split; [rewrite lookup_insert_ne by done; by rewrite lookup_insert_eq |].
    split; [done |].
    destruct (sorted_spec tf) as (H1 & H2 & H3). done.
  - intros model' td' ignore'. by rewrite !mf_base_match by done.
Qed.
End multi_fidelity_more.

Lemma construct_inputs_mf_base_expand_dims_witness :
  ∃ bundle expand dims,
    construct_inputs_mf_base examples.expand examples.project
      examples.repr_set examples.model examples.block1
      examples.target_fidelities None cost_intercept_default
      num_trace_observations_default ∅ = Ok bundle ∧
    bundle !! "expand" = Some (VCallable expand) ∧
    Sorted Z.le dims ∧
    (∀ k, k ∈ dims ↔ is_Some (examples.target_fidelities !! k)).
Proof.
  destruct (construct_inputs_mf_base_expand_dims examples.expand
              examples.project examples.repr_set examples.model
              examples.block1 examples.target_fidelities None
              cost_intercept_default num_trace_observations_default ∅)
    as [(bundle & expand & dims & H1 & H2 & _ & H3 & _ & H4) _].
  - intros w [=].
  - exists bundle, expand, dims.
    split; [exact H1 |]. split; [exact H2 |]. split; [exact H3 | exact H4].
Defined.

(** ** Expected hypervolume improvement: the remaining branches *)

Section hypervolume_more.
Context (get_default_partitioning_alpha : nat → Q).

Local Abbreviation EHVI :=
  (construct_inputs_EHVI get_default_partitioning_alpha).

(** The bundle of [construct_inputs_EHVI] when every step returns. *)
Lemma construct_inputs_EHVI_bundle
    model td objective_thresholds objective kwargs m
    positive a ref_point Y_pmean Y :
  let objective' :=
    default IdentityAnalyticMultiOutputObjective objective in
  shape_first objective_thresholds = Ok m →
  is_None (get kwargs "outcome_constraints") = true →
  gt_zero (get_default kwargs "alpha"
             (VFloat (get_default_partitioning_alpha m)))
  = Ok (positive, a) →
  call objective' objective_thresholds = Ok ref_point →
  (if is_None (get kwargs "Y_pmean")
   then VTensor <$> posterior_mean model (TrainingData.X td)
   else Ok (get kwargs "Y_pmean")) = Ok (VTensor Y_pmean) →
  call objective' Y_pmean = Ok Y →
  EHVI model td objective_thresholds objective kwargs
  = Ok (<["objective" := VObjective objective']>
       (<["partitioning" :=
            VPartitioning
              (if positive
               then NondominatedPartitioning ref_point Y a
               else FastNondominatedPartitioning ref_point Y)]>
       (<["ref_point" := VTensor ref_point]>
          {["model" := VModel model]}))).
Proof.
  intros objective' Hm Hoc Ha Href Hpm HY.
  unfold construct_inputs_EHVI. rewrite Hm. simpl. rewrite Hoc. simpl.
  change (match objective with
          | Some o => o
          | None => IdentityAnalyticMultiOutputObjective
          end) with objective'.
  rewrite Href. simpl. rewrite Hpm. simpl. rewrite Ha. simpl.
  destruct positive; simpl; rewrite HY; done.
Qed.

(** X11. [construct_inputs_EHVI] takes the approximate partitioning only
    for a positive [alpha]: zero and every negative [alpha] give a
    [FastNondominatedPartitioning]; the bundle has exactly the keys
    ["model"], ["ref_point"], ["partitioning"] and ["objective"], and its
    objective is the one applied (the identity when none was passed). *)
Theorem construct_inputs_EHVI_nonpositive_alpha
    model td objective_thresholds objective kwargs m
    positive a ref_point Y_pmean Y :
  let objective' :=
    default IdentityAnalyticMultiOutputObjective objective in
  shape_first objective_thresholds = Ok m →
  is_None (get kwargs "outcome_constraints") = true →
  gt_zero (get_default kwargs "alpha"
             (VFloat (get_default_partitioning_alpha m)))
  = Ok (positive, a) →
  (a <= 0)%Q →
  call objective' objective_thresholds = Ok ref_point →
  (if is_None (get kwargs "Y_pmean")
   then VTensor <$> posterior_mean model (TrainingData.X td)
   else Ok (get kwargs "Y_pmean")) = Ok (VTensor Y_pmean) →
  call objective' Y_pmean = Ok Y →
  ∃ bundle,
    EHVI model td objective_thresholds objective kwargs = Ok bundle ∧
    bundle !! "partitioning"
    = Some (VPartitioning (FastNondominatedPartitioning ref_point Y)) ∧
    bundle !! "objective" = Some (VObjective objective') ∧
    dom bundle = {[ "model"; "ref_point"; "partitioning"; "objective" ]}.
Proof.
  intros objective' Hm Hoc Ha Hle Href Hpm HY.
  rewrite (construct_inputs_EHVI_bundle model td objective_thresholds
             objective kwargs m positive a ref_point Y_pmean Y) by done.
  assert (positive = false) as ->.
  { rewrite (gt_zero_sign _ _ _ Ha).
    apply Qle_bool_iff in Hle. by rewrite Hle. }
  eexists. split; [done |]. split; [| split].
  - rewrite lookup_insert_ne by done. by rewrite lookup_insert_eq.
  - by rewrite lookup_insert_eq.
  - rewrite !dom_insert_L, dom_singleton_L. set_solver.
Qed.

(** X12. On block-design training data and with a [Y_pmean] among the
    keyword arguments, [construct_inputs_EHVI] does not consult the
    model's posterior, and the training inputs it reads are not used:
    apart from the ["model"] entry itself, the result is the same for
    every model and for all block-design training data. *)
Theorem construct_inputs_EHVI_supplied_Y_pmean
    model td model' td' objective_thresholds objective kwargs v :
  TrainingData.is_block_design td = true →
  TrainingData.is_block_design td' = true →
  kwargs !! "Y_pmean" = Some v → v ≠ VNone →
  delete "model" <$> EHVI model td objective_thresholds objective kwargs
  = delete "model" <$> EHVI model' td' objective_thresholds objective kwargs.
Proof.
  intros _ _ Hk Hv. unfold construct_inputs_EHVI.
  destruct (shape_first objective_thresholds) as [m|]; simpl; [| done].
  destruct (is_None (get kwargs "outcome_constraints")); simpl; [| done].
  destruct (call _ objective_thresholds) as [ref_point|]; simpl; [| done].
  assert (is_None (get kwargs "Y_pmean") = false) as ->.
  { unfold get. rewrite Hk. by destruct v. }
  simpl.
  destruct (gt_zero _) as [[positive a]|]; simpl; [| done].
  destruct positive; simpl;
    destruct (as_tensor (get kwargs "Y_pmean") ≫= _) as [Y|]; simpl; done.
Qed.
End hypervolume_more.

Lemma construct_inputs_EHVI_nonpositive_alpha_witness :
  ∃ bundle,
    construct_inputs_EHVI examples.default_alpha examples.model
      examples.block2 examples.thresholds None
      {[ "alpha" := VFloat (- (1 # 2)) ]} = Ok bundle ∧
    bundle !! "partitioning"
    = Some (VPartitioning
              (FastNondominatedPartitioning examples.thresholds examples.X)).
Proof.
  destruct (construct_inputs_EHVI_nonpositive_alpha examples.default_alpha
              examples.model examples.block2 examples.thresholds None
              {[ "alpha" := VFloat (- (1 # 2)) ]} 2%nat false (- (1 # 2))%Q
              examples.thresholds examples.X examples.X)
    as (bundle & H1 & H2 & _).
  - reflexivity.
  - reflexivity.
  - reflexivity.
  - discriminate.
  - reflexivity.
  - reflexivity.
  - reflexivity.
  - exists bundle. split; [exact H1 | exact H2].
Defined.

Lemma construct_inputs_EHVI_supplied_Y_pmean_witness :
  delete "model"
    <$> construct_inputs_EHVI examples.default_alpha examples.model
          examples.block2 examples.thresholds None
          {[ "Y_pmean" := VTensor examples.Y2 ]}
  = delete "model"
      <$> construct_inputs_EHVI examples.default_alpha
            (mkModel (fun _ => Raise (RuntimeError "no posterior")))
            examples.block1 examples.thresholds None
            {[ "Y_pmean" := VTensor examples.Y2 ]}.
Proof.
  apply (construct_inputs_EHVI_supplied_Y_pmean examples.default_alpha
           examples.model examples.block2
           (mkModel (fun _ => Raise (RuntimeError "no posterior")))
           examples.block1 examples.thresholds None
           {[ "Y_pmean" := VTensor examples.Y2 ]} (VTensor examples.Y2)).
  - reflexivity.
  - reflexivity.
  - reflexivity.
  - discriminate.
Defined.

(** ** Optimizing an objective: the call of the optimizer *)

Section optimize_more.
Implicit Types (model : Model) (objective : AcquisitionObjective)
               (bnds A b : FloatTensor)
               (lc : option (FloatTensor * FloatTensor))
               (ff tf : option (gmap Z Q))
               (opts : option (gmap string Value)).

(** X13. Without fixed features ([None] or an empty dictionary),
    [optimize_objective] calls [optimize_acqf] once, on [qSimpleRegret]
    with a Sobol (if [qmc]) or i.i.d. sampler of [mc_samples] samples
    seeded by [seed_inner] for a Monte Carlo objective and on
    [PosteriorMean] for any other objective, with the bounds unchanged,
    [fixed_features=None] and [return_best_only=True]; without optimizer
    options it asks for 60 restarts, 1024 raw samples, batch limit 8, 200
    iterations and L-BFGS-B.  [target_fidelities] has no effect. *)
Theorem optimize_objective_call
    model objective bnds q0 lc ff tf qmc mc seed opts ppf bic sq ic :
  ff = None ∨ ff = Some ∅ →
  make_inequality_constraints lc = Ok ic →
  ∃ args,
    optimize_objective_args model objective bnds q0 lc ff tf qmc mc seed
      opts ppf bic sq = Ok args ∧
    acq_function args
    = match objective with
      | MCAcquisitionObjective _ =>
          qSimpleRegret model objective
            (if qmc then SobolQMCNormalSampler mc seed
             else IIDNormalSampler mc seed)
      | _ => PosteriorMean model objective
      end ∧
    bounds args = bnds ∧ q args = q0 ∧
    inequality_constraints args = ic ∧
    fixed_features args = VNone ∧ return_best_only args = true ∧
    post_processing_func args = ppf ∧
    batch_initial_conditions args = bic ∧ sequential args = sq ∧
    (opts = None ∨ opts = Some ∅ →
     num_restarts args = VInt 60 ∧ raw_samples args = VInt 1024 ∧
     options args
     = {[ "batch_limit" := VInt 8; "maxiter" := VInt 200;
          "nonnegative" := VBool false; "method" := VStr "L-BFGS-B" ]}) ∧
    (∀ optimize_acqf tf',
       optimize_objective optimize_acqf model objective bnds q0 lc ff tf'
         qmc mc seed opts ppf bic sq = optimize_acqf args).
Proof.
  intros Hff Hic.
  assert (E : ∀ tf0,
    optimize_objective_args model objective bnds q0 lc ff tf0 qmc mc seed
      opts ppf bic sq
    = Ok (mkOptimizeAcqfArgs
            match objective with
            | MCAcquisitionObjective _ =>
                qSimpleRegret model objective
                  (if qmc then SobolQMCNormalSampler mc seed
                   else IIDNormalSampler mc seed)
            | _ => PosteriorMean model objective
            end
            bnds q0
            (get_default (default ∅ opts) "num_restarts" (VInt 60))
            (get_default (default ∅ opts) "raw_samples" (VInt 1024))
            (<["method" :=
                 get_default (default ∅ opts) "method" (VStr "L-BFGS-B")]>
            (<["nonnegative" :=
                 get_default (default ∅ opts) "nonnegative" (VBool false)]>
            (<["maxiter" :=
                 get_default (default ∅ opts) "maxiter" (VInt 200)]>
               {["batch_limit" :=
                   get_default (default ∅ opts) "batch_limit" (VInt 8)]})))
            ic VNone ppf bic true sq)).
  { intros tf0. unfold optimize_objective_args.
    destruct Hff as [-> | ->]; simpl; rewrite ?decide_True by done; simpl;
      rewrite Hic; simpl; by destruct objective, qmc. }
  eexists. split; [apply (E tf) |]. simpl.
  repeat (split; [done |]). split.
  - intros [-> | ->]; simpl; unfold get_default; rewrite !lookup_empty;
      simpl; split; try done; split; try done;
      apply map_eq; intros k; apply option_eq; intros v;
      rewrite !lookup_insert_Some, !lookup_singleton_Some; naive_solver.
  - intros optimize_acqf tf'. unfold optimize_objective.
    by rewrite (E tf').
Qed.

(** X14. With fixed features, the free dimensions are computed from
    [range(len(bounds))], and [len] of the [2 x d] bounds tensor is 2:
    whatever [d] is, only dimensions 0 and 1 can be free, so the bounds
    handed to the optimizer have at most two columns, and the
    acquisition function is wrapped in a
    [FixedFeatureAcquisitionFunction] over all [d] dimensions. *)
Theorem optimize_objective_fixed_features
    model objective bnds q0 lc f tf qmc mc seed opts ppf bic sq ic d :
  f ≠ ∅ → shape bnds = [2%nat; d] → (2 ≤ d)%nat →
  make_inequality_constraints lc = Ok ic →
  let free :=
    filter (fun j => f !! Z.of_nat j = None) [0%nat; 1%nat] in
  ∃ args base,
    optimize_objective_args model objective bnds q0 lc (Some f) tf qmc mc
      seed opts ppf bic sq = Ok args ∧
    acq_function args
    = FixedFeatureAcquisitionFunction base d
        (map_to_list f).*1 (map_to_list f).*2 ∧
    shape (bounds args) = [2%nat; length free] ∧
    (length free ≤ 2)%nat ∧
    data (bounds args)
    = concat ((fun r => (fun j => nth j r 0%Q) <$> free)
              <$> chunks 2 d (data bnds)).
Proof.
  intros Hf Hs Hd Hic free.
  assert (Hfree : Forall (fun j => j < d)%nat free).
  { apply Forall_forall. intros j Hj.
    apply list_elem_of_filter in Hj as [_ Hj].
    apply elem_of_cons in Hj as [-> | Hj]; [lia |].
    apply elem_of_cons in Hj as [-> | Hj]; [lia |].
    by apply elem_of_nil in Hj. }
  unfold optimize_objective_args. simpl.
  rewrite decide_False by done.
  unfold shape_last, len, index_columns. rewrite Hs. simpl.
  change (filter (fun j => f !! Z.of_nat j = None) [0%nat; 1%nat])
    with free.
  rewrite decide_True by done. simpl. rewrite Hic. simpl.
  eexists _, _. split; [done |]. simpl.
  split; [done |]. split; [done |]. split; [| done].
  subst free.
  pose proof (length_filter (fun j => f !! Z.of_nat j = None)
                [0%nat; 1%nat]) as Hlen.
  simpl in Hlen. exact Hlen.
Qed.

Lemma constraint_of_row_returns A b k' c d i :
  shape b = [k'; c] → (i < k')%nat → (0 < c)%nat →
  ∃ t, constraint_of_row A b d i = Ok t.
Proof.
  intros Hb Hi Hc. unfold constraint_of_row, index_row.
  rewrite decide_True.
  - simpl. unfold index2. rewrite Hb. rewrite decide_True by lia.
    simpl. eauto.
  - apply Forall_forall. intros j Hj. simpl in Hj.
    apply nonzero_positions_bounds in Hj.
    assert (length (take d (drop (i * d) (data A))) ≤ d)%nat
      by (rewrite length_take; lia).
    lia.
Qed.

Lemma constraint_of_row_out_of_range A b k' c d i :
  shape b = [k'; c] → (k' ≤ i)%nat →
  constraint_of_row A b d i = Raise (IndexError "index is out of bounds").
Proof.
  intros Hb Hi. unfold constraint_of_row, index_row.
  rewrite decide_True.
  - simpl. unfold index2. rewrite Hb. by rewrite decide_False by lia.
  - apply Forall_forall. intros j Hj. simpl in Hj.
    apply nonzero_positions_bounds in Hj.
    assert (length (take d (drop (i * d) (data A))) ≤ d)%nat
      by (rewrite length_take; lia).
    lia.
Qed.

Lemma constraint_loop_out_of_range A b k' c d rows1 i rows2 acc :
  shape b = [k'; c] → (0 < c)%nat →
  Forall (fun j => j < k')%nat rows1 → (k' ≤ i)%nat →
  constraint_loop A b d (rows1 ++ i :: rows2) acc
  = Raise (IndexError "index is out of bounds").
Proof.
  intros Hb Hc HF Hi. revert acc.
  induction HF as [|j rows1 Hj _ IH]; intros acc; simpl.
  - by rewrite (constraint_of_row_out_of_range A b k' c d i Hb Hi).
  - destruct (constraint_of_row_returns A b k' c d j Hb Hj Hc) as [t ->].
    simpl. apply IH.
Qed.

(** X15. The index and coefficient tensors of a row keep the shape left
    by [squeeze()]: 0-dimensional when the row has exactly one non-zero
    entry, 1-dimensional with one entry per non-zero otherwise (empty for
    an all-zero row); the bound is 0-dimensional and every index is a
    column of [A]. *)
Theorem inequality_constraint_shapes A b k d cs i indices coefficients rhs :
  shape A = [k; d] → shape b = [k; 1%nat] →
  make_inequality_constraints (Some (A, b)) = Ok (Some cs) →
  cs !! i = Some (indices, coefficients, rhs) →
  let z := length (nonzero_positions 0 (data (row d i A))) in
  shape indices = (if decide (z = 1%nat) then [] else [z]) ∧
  shape coefficients = shape indices ∧
  shape rhs = [] ∧
  length (data indices) = z ∧ length (data coefficients) = z ∧
  Forall (fun j => j < d)%nat (data indices).
Proof.
  intros HA Hb Hmk Hi z.
  rewrite (make_inequality_constraints_ok A b k d HA Hb) in Hmk.
  injection Hmk as <-.
  rewrite list_lookup_fmap in Hi.
  destruct (seq 0 k !! i) as [i'|] eqn:Hseq; [| done].
  apply lookup_seq in Hseq as [-> _]. simpl in Hi.
  unfold row_constraint in Hi. injection Hi as <- <- <-.
  simpl. fold z.
  split; [| split; [| split; [| split; [| split]]]]; try done.
  - rewrite filter_cons, filter_cons, filter_nil.
    rewrite (decide_False (P := (1 ≠ 1)%nat)) by (intros H; by apply H).
    change (length (nonzero_positions 0 (take d (drop (i * d) (data A)))))
      with z.
    destruct (decide (z ≠ 1%nat)), (decide (z = 1%nat)); try done; lia.
  - by rewrite length_fmap.
  - apply Forall_forall. intros j Hj.
    apply nonzero_positions_bounds in Hj.
    assert (length (take d (drop (i * d) (data A))) ≤ d)%nat
      by (rewrite length_take; lia).
    simpl in *. lia.
Qed.

(** X16. Malformed linear constraints stop [optimize_objective] before
    the optimizer is called: an [A] that is not 2-dimensional raises
    [ValueError] when its shape is unpacked, and a [b] with fewer rows
    than [A] raises [IndexError] at the first missing row.  An [A] with
    no row gives an empty list of constraints, not [None]. *)
Theorem inequality_constraints_malformed :
  (∀ A b, (∀ k d, shape A ≠ [k; d]) →
     ∃ msg, make_inequality_constraints (Some (A, b))
            = Raise (ValueError msg)) ∧
  (∀ A b k d k' c,
     shape A = [k; d] → shape b = [k'; c] → (k' < k)%nat → (0 < c)%nat →
     make_inequality_constraints (Some (A, b))
     = Raise (IndexError "index is out of bounds")) ∧
  (∀ A b d, shape A = [0%nat; d] →
     make_inequality_constraints (Some (A, b)) = Ok (Some [])) ∧
  (∀ optimize_acqf model objective bnds q0 lc tf qmc mc seed opts ppf bic
     sq e,
     make_inequality_constraints lc = Raise e →
     optimize_objective optimize_acqf model objective bnds q0 lc None tf
       qmc mc seed opts ppf bic sq = Raise e).
Proof.
  split; [| split; [| split]].
  - intros A b HA. unfold make_inequality_constraints, unpack_shape2.
    destruct (shape A) as [|k [|d [|? ?]]] eqn:E; simpl; eauto.
    by destruct (HA k d).
  - intros A b k d k' c HA Hb Hlt Hc.
    unfold make_inequality_constraints, unpack_shape2. rewrite HA. simpl.
    replace (seq 0 k) with (seq 0 k' ++ k' :: seq (S k') (k - S k')).
    + rewrite (constraint_loop_out_of_range A b k' c d); try done.
      apply Forall_forall. intros j Hj. apply elem_of_seq in Hj. lia.
    + change (k' :: seq (S k') (k - S k')) with (seq k' (S (k - S k'))).
      rewrite <- (Nat.add_0_l k') at 2. rewrite <- seq_app.
      f_equal. lia.
  - intros A b d HA. unfold make_inequality_constraints, unpack_shape2.
    by rewrite HA.
  - intros optimize_acqf model objective bnds q0 lc tf qmc mc seed opts
      ppf bic sq e He.
    unfold optimize_objective, optimize_objective_args. simpl.
    by rewrite He.
Qed.
End optimize_more.

Lemma optimize_objective_call_witness :
  ∃ args,
    optimize_objective_args examples.model (column_objective 0)
      (mkTensor [2; 3]%nat [0; 0; 0; 1; 1; 1]%Q) 1 None (Some ∅) None
      false 512 (Some 7%Z) None VNone None false = Ok args ∧
    acq_function args
    = qSimpleRegret examples.model (column_objective 0)
        (IIDNormalSampler 512 (Some 7%Z)) ∧
    num_restarts args = VInt 60.
Proof.
  destruct (optimize_objective_call examples.model (column_objective 0)
              (mkTensor [2; 3]%nat [0; 0; 0; 1; 1; 1]%Q) 1%Z None (Some ∅)
              None false 512%Z (Some 7%Z) None VNone None false None)
    as (args & H1 & H2 & _ & _ & _ & _ & _ & _ & _ & _ & H3 & _).
  - right. reflexivity.
  - reflexivity.
  - exists args. split; [exact H1 |]. split; [exact H2 |].
    destruct H3 as [H3 _]; [by left | exact H3].
Defined.

Lemma optimize_objective_fixed_features_witness :
  ∃ args,
    optimize_objective_args examples.model (column_objective 0)
      (mkTensor [2; 5]%nat [0; 0; 0; 0; 0; 1; 2; 3; 4; 5]%Q) 1 None
      (Some {[ 0%Z := 1%Q ]}) None true 512 None None VNone None false
    = Ok args ∧
    shape (bounds args) = [2; 1]%nat ∧
    data (bounds args) = [0; 2]%Q.
Proof.
  destruct (optimize_objective_fixed_features examples.model
              (column_objective 0)
              (mkTensor [2; 5]%nat [0; 0; 0; 0; 0; 1; 2; 3; 4; 5]%Q) 1%Z
              None {[ 0%Z := 1%Q ]} None true 512%Z None None VNone None
              false None 5%nat)
    as (args & base & H1 & _ & H2 & _ & H3).
  - apply (bool_decide_unpack _). vm_compute. exact I.
  - reflexivity.
  - lia.
  - reflexivity.
  - exists args. split; [exact H1 |]. split; [exact H2 | exact H3].
Defined.

Lemma inequality_constraint_shapes_witness :
  ∃ cs indices coefficients rhs,
    make_inequality_constraints (Some (examples.A, examples.b))
    = Ok (Some cs) ∧
    cs !! 1%nat = Some (indices, coefficients, rhs) ∧
    shape indices = [] ∧ shape coefficients = [] ∧ shape rhs = [].
Proof.
  eexists _, _, _, _. split; [reflexivity |]. split; [reflexivity |].
  destruct (inequality_constraint_shapes examples.A examples.b 2%nat 3%nat
              _ 1%nat _ _ _ eq_refl eq_refl eq_refl eq_refl)
    as (H1 & H2 & H3 & _).
  split; [exact H1 |]. split; [| exact H3].
  rewrite H2. exact H1.
Defined.

Lemma inequality_constraints_malformed_witness :
  make_inequality_constraints
    (Some (examples.A, mkTensor [1; 1]%nat [4]%Q))
  = Raise (IndexError "index is out of bounds") ∧
  (∃ msg,
     make_inequality_constraints
       (Some (mkTensor [3]%nat [1; 0; 2]%Q, examples.b))
     = Raise (ValueError msg)).
Proof.
  destruct inequality_constraints_malformed as (H1 & H2 & _ & _).
  split.
  - apply (H2 examples.A (mkTensor [1; 1]%nat [4]%Q) 2%nat 3%nat 1%nat
             1%nat); [reflexivity | reflexivity | lia | lia].
  - apply H1. intros k d. discriminate.
Defined.

(** ** Batch hypervolume constructors *)

Section batch_hypervolume_more.
Context (get_default_partitioning_alpha : nat → Q)
        (get_outcome_constraint_transforms :
           Value → Result (list (FloatTensor → Result FloatTensor))).

Local Abbreviation qEHVI :=
  (construct_inputs_qEHVI get_default_partitioning_alpha
     get_outcome_constraint_transforms).
Local Abbreviation qNEHVI :=
  (construct_inputs_qNEHVI get_outcome_constraint_transforms).

Lemma is_None_false v : v ≠ VNone → is_None v = false.
Proof. by destruct v. Qed.

(** X17. [construct_inputs_qEHVI] takes outcome constraints out of the
    keyword arguments before it calls [construct_inputs_EHVI], so the
    guard of the latter never fires: with outcome constraints supplied
    and the collaborators returning, it returns a bundle whose
    partitioning is built from the feasible points of the posterior mean,
    whose ["constraints"] are the transforms, and which has the four keys
    of [construct_inputs_EHVI] and ["sampler"], ["X_pending"],
    ["constraints"], ["eta"]. *)
Theorem construct_inputs_qEHVI_with_constraints
    model td objective_thresholds objective kwargs draw
    v Y_pmean cons_tfs Y_feasible m positive a ref_point Y sampler :
  let objective' := default IdentityMCMultiOutputObjective objective in
  posterior_mean model (TrainingData.X td) = Ok Y_pmean →
  kwargs !! "outcome_constraints" = Some v → v ≠ VNone →
  get_outcome_constraint_transforms v = Ok cons_tfs →
  feasible_points cons_tfs Y_pmean = Ok Y_feasible →
  kwargs !! "Y_pmean" = None →
  shape_first objective_thresholds = Ok m →
  gt_zero (get_default kwargs "alpha"
             (VFloat (get_default_partitioning_alpha m)))
  = Ok (positive, a) →
  call objective' objective_thresholds = Ok ref_point →
  call objective' Y_feasible = Ok Y →
  sampler_or_default (delete "outcome_constraints" kwargs) draw
  = Ok sampler →
  ∃ bundle,
    qEHVI model td objective_thresholds objective kwargs draw = Ok bundle ∧
    bundle !! "partitioning"
    = Some (BValue (VPartitioning
              (if positive
               then NondominatedPartitioning ref_point Y a
               else FastNondominatedPartitioning ref_point Y))) ∧
    bundle !! "ref_point" = Some (BValue (VTensor ref_point)) ∧
    bundle !! "constraints" = Some (BConstraints cons_tfs) ∧
    bundle !! "sampler" = Some (BValue sampler) ∧
    dom bundle
    = {[ "model"; "ref_point"; "partitioning"; "objective"; "sampler";
         "X_pending"; "constraints"; "eta" ]}.
Proof.
  intros objective' Hpost Hoc Hv Hct Hfeas HY Hm Ha Href HYobj Hs.
  set (kwargs' := delete "outcome_constraints" kwargs).
  assert (Hget : get kwargs "outcome_constraints" = v)
    by (unfold get; by rewrite Hoc).
  assert (HE :
    construct_inputs_EHVI get_default_partitioning_alpha model td
      objective_thresholds (Some objective')
      (<["Y_pmean" := VTensor Y_feasible]> kwargs')
    = Ok (<["objective" := VObjective objective']>
         (<["partitioning" :=
              VPartitioning
                (if positive
                 then NondominatedPartitioning ref_point Y a
                 else FastNondominatedPartitioning ref_point Y)]>
         (<["ref_point" := VTensor ref_point]>
            {["model" := VModel model]})))).
  { apply (construct_inputs_EHVI_bundle get_default_partitioning_alpha
             model td objective_thresholds (Some objective') _ m positive a
             ref_point Y_feasible Y); try done.
    - unfold get. rewrite lookup_insert_ne by done.
      subst kwargs'. by rewrite lookup_delete_eq.
    - unfold get_default in *. rewrite lookup_insert_ne by done.
      subst kwargs'. by rewrite lookup_delete_ne by done.
    - unfold get. by rewrite lookup_insert_eq. }
  unfold construct_inputs_qEHVI. rewrite Hpost, Hget.
  unfold constrained_mean. rewrite (is_None_false v Hv), Hct, Hfeas.
  unfold call_EHVI. fold kwargs'.
  rewrite decide_False.
  2:{ subst kwargs'. rewrite lookup_delete_ne by done. rewrite HY.
      by intros [? ?]. }
  change (match objective with
          | Some o => o
          | None => IdentityMCMultiOutputObjective
          end) with objective'.
  rewrite HE. subst kwargs'. rewrite Hs.
  eexists. split; [done |].
  split; [by rewrite !lookup_insert_ne, lookup_fmap, lookup_insert_ne,
            lookup_insert_eq by done |].
  split; [by rewrite !lookup_insert_ne, lookup_fmap, !lookup_insert_ne,
            lookup_insert_eq by done |].
  split; [by rewrite lookup_insert_ne, lookup_insert_eq by done |].
  split; [by rewrite !lookup_insert_ne, lookup_insert_eq by done |].
  rewrite !dom_insert_L, dom_fmap_L, !dom_insert_L, dom_singleton_L.
  set_solver.
Qed.

(** X18. A ["Y_pmean"] among the keyword arguments of
    [construct_inputs_qEHVI] is an error: the constructor passes its own
    [Y_pmean] to [construct_inputs_EHVI] together with the keyword
    arguments, and the call raises [TypeError] for the keyword given
    twice (once the posterior mean and the constraint transforms have
    been computed). *)
Theorem construct_inputs_qEHVI_Y_pmean_keyword
    model td objective_thresholds objective kwargs draw v Y_pmean r :
  kwargs !! "Y_pmean" = Some v →
  posterior_mean model (TrainingData.X td) = Ok Y_pmean →
  constrained_mean get_outcome_constraint_transforms
    (get kwargs "outcome_constraints") Y_pmean = Ok r →
  qEHVI model td objective_thresholds objective kwargs draw
  = Raise (TypeError multiple_values_msg).
Proof.
  intros Hk Hpost Hr. unfold construct_inputs_qEHVI.
  rewrite Hpost, Hr. destruct r as [cons_tfs Yf].
  unfold call_EHVI. rewrite decide_True; [done |].
  rewrite lookup_delete_ne by done. by rewrite Hk.
Qed.

(** X19. A sampler among the keyword arguments is used as it is and no
    random seed is drawn; when it is omitted or [None], the sampler is a
    [SobolQMCNormalSampler] unless [qmc] is false, then an
    [IIDNormalSampler], with [mc_samples] samples (128 by default) and
    the drawn seed. *)
Theorem sampler_or_default_cases kwargs draw :
  (∀ v, kwargs !! "sampler" = Some v → v ≠ VNone →
     ∀ draw', sampler_or_default kwargs draw' = Ok v) ∧
  (is_None (get kwargs "sampler") = true →
   ∀ n use_qmc,
     as_int (get_default kwargs "mc_samples" (VInt 128)) = Ok n →
     truthy (get_default kwargs "qmc" (VBool true)) = Ok use_qmc →
     sampler_or_default kwargs draw
     = Ok (VSampler (if use_qmc : bool
                     then SobolQMCNormalSampler n (Some draw)
                     else IIDNormalSampler n (Some draw)))) ∧
  (is_None (get kwargs "sampler") = true →
   kwargs !! "mc_samples" = None → kwargs !! "qmc" = None →
   sampler_or_default kwargs draw
   = Ok (VSampler (SobolQMCNormalSampler 128 (Some draw)))).
Proof.
  split; [| split].
  - intros v Hk Hv draw'. unfold sampler_or_default, get. rewrite Hk.
    simpl. by rewrite (is_None_false v Hv).
  - intros Hn n use_qmc Hi Hq. unfold sampler_or_default, _get_sampler.
    rewrite Hn, Hq. simpl. rewrite Hi. simpl. by destruct use_qmc.
  - intros Hn Hmc Hq. unfold sampler_or_default, _get_sampler, get_default.
    by rewrite Hn, Hmc, Hq.
Qed.

(** X20. On block-design training data [construct_inputs_qNEHVI] does
    not consult the model's posterior: when the constraint transforms,
    the sampler and the objective return, it returns a bundle of thirteen
    keys whose reference point is the objective applied to the
    thresholds, whose ["X_baseline"] is the training inputs unless the
    caller supplied one, and whose ["alpha"] defaults to 0.0. *)
Theorem construct_inputs_qNEHVI_bundle
    model td objective_thresholds objective kwargs draw
    cons_tfs sampler ref_point :
  let objective' := default IdentityMCMultiOutputObjective objective in
  TrainingData.is_block_design td = true →
  (if is_None (get kwargs "outcome_constraints")
   then Ok None
   else Some <$> get_outcome_constraint_transforms
                   (get kwargs "outcome_constraints")) = Ok cons_tfs →
  sampler_or_default (delete "outcome_constraints" kwargs) draw
  = Ok sampler →
  call objective' objective_thresholds = Ok ref_point →
  ∃ bundle,
    qNEHVI model td objective_thresholds objective kwargs draw = Ok bundle ∧
    bundle !! "ref_point" = Some (BValue (VTensor ref_point)) ∧
    bundle !! "constraints"
    = Some (from_option BConstraints (BValue VNone) cons_tfs) ∧
    (kwargs !! "X_baseline" = None →
     bundle !! "X_baseline"
     = Some (BValue (VTensor (TrainingData.X td)))) ∧
    (∀ Xb, kwargs !! "X_baseline" = Some Xb →
     bundle !! "X_baseline" = Some (BValue Xb)) ∧
    (kwargs !! "alpha" = None →
     bundle !! "alpha" = Some (BValue (VFloat 0))) ∧
    dom bundle
    = {[ "model"; "ref_point"; "X_baseline"; "sampler"; "objective";
         "constraints"; "X_pending"; "eta"; "prune_baseline"; "alpha";
         "cache_pending"; "max_iep"; "incremental_nehvi" ]}.
Proof.
  intros objective' _ Hc Hs Href. unfold construct_inputs_qNEHVI.
  rewrite Hc, Hs.
  change (match objective with
          | Some o => o
          | None => IdentityMCMultiOutputObjective
          end) with objective'.
  rewrite Href. eexists. split; [done |].
  split; [by rewrite !lookup_insert_ne, lookup_insert_eq by done |].
  split; [by rewrite !lookup_insert_ne, lookup_insert_eq by done |].
  split; [| split; [| split]].
  - intros Hk. rewrite !lookup_insert_ne, lookup_insert_eq by done.
    unfold get_default. rewrite lookup_delete_ne by done. by rewrite Hk.
  - intros Xb Hk. rewrite !lookup_insert_ne, lookup_insert_eq by done.
    unfold get_default. rewrite lookup_delete_ne by done. by rewrite Hk.
  - intros Hk. rewrite !lookup_insert_ne, lookup_insert_eq by done.
    unfold get_default. rewrite lookup_delete_ne by done. by rewrite Hk.
  - rewrite !dom_insert_L, dom_singleton_L. set_solver.
Qed.
End batch_hypervolume_more.

Section feasible_points_facts.

Lemma chunks_concat {A} (L : list (list A)) c :
  Forall (fun l => length l = c) L →
  chunks (length L) c (concat L) = L.
Proof.
  induction 1 as [|l L Hl _ IH]; simpl; [done |].
  rewrite take_app_length' by done. rewrite drop_app_length' by done.
  by rewrite IH.
Qed.

Lemma select_blocks_filter {A} (g h : nat → bool) idx
    (blocks : list (list A)) :
  length idx = length blocks →
  Forall (fun p => g p = h p) idx →
  select_blocks (g <$> idx) blocks
  = (filter (fun pr => Is_true (h pr.1)) (zip idx blocks)).*2.
Proof.
  revert blocks. induction idx as [|p idx IH]; intros blocks Hlen HF.
  - by destruct blocks.
  - destruct blocks as [|blk blocks]; [done |].
    inversion HF as [|? ? Hp HF']; subst.
    simpl. rewrite filter_cons. simpl. rewrite Hp.
    destruct (h p); simpl.
    + f_equal. apply IH; [by injection Hlen | done].
    + apply IH; [by injection Hlen | done].
Qed.

Lemma constraint_flags_ok cons_tfs vals (Y : FloatTensor) n :
  Forall2 (fun c v => c Y = Ok (mkTensor [n] v) ∧ length v = n)
    cons_tfs vals →
  constraint_flags cons_tfs Y
  = Ok ((fun v => le_zero (mkTensor [n] v)) <$> vals).
Proof.
  induction 1 as [|c v cs vs [Hc _] _ IH]; simpl; [done |].
  rewrite Hc. simpl. rewrite IH. done.
Qed.

Lemma flags_at (vals : list (list Q)) n p :
  Forall (fun v => length v = n) vals → (p < n)%nat →
  forallb id
    ((fun t : Tensor bool => nth p (data t) false)
       <$> ((fun v => le_zero (mkTensor [n] v)) <$> vals))
  = feasible_at vals p.
Proof.
  intros HF Hp. unfold feasible_at.
  induction HF as [|v vs Hv _ IH]; [done |].
  rewrite !fmap_cons. simpl. rewrite IH. f_equal.
  destruct (v !! p) as [x|] eqn:E.
  - rewrite (nth_lookup_Some _ _ _ _ E).
    apply (nth_lookup_Some _ _ false).
    by rewrite list_lookup_fmap, E.
  - apply lookup_ge_None in E. lia.
Qed.

Lemma feasible_at_spec vals p :
  feasible_at vals p = true ↔ Forall (fun v => (nth p v 0 <= 0)%Q) vals.
Proof.
  unfold feasible_at. rewrite forallb_forall, Forall_forall.
  split; intros H v Hv.
  - apply Qle_bool_iff, H. by apply list_elem_of_In.
  - apply Qle_bool_iff, H. by apply list_elem_of_In.
Qed.

Lemma Result_bind_Ok {A B} (x : A) (f : A → Result B) :
  (Ok x ≫= f) = f x.
Proof. done. Qed.

Lemma stack_last_cons (t : Tensor bool) rest :
  Forall (fun t' => shape t' = shape t) rest →
  stack_last (t :: rest)
  = Ok (mkTensor (shape t ++ [length (t :: rest)])
          (concat ((fun p =>
                      (fun t' : Tensor bool => nth p (data t') false)
                        <$> (t :: rest))
                   <$> seq 0 (numel (shape t))))).
Proof. intros H. unfold stack_last. by rewrite decide_True. Qed.

Lemma all_last_concat (L : list (list bool)) s c :
  Forall (fun l => length l = c) L → length L = numel s →
  all_last (mkTensor (s ++ [c]) (concat L))
  = mkTensor s (forallb id <$> L).
Proof.
  intros HL Hlen. unfold all_last. simpl. rewrite split_last_snoc.
  by rewrite <- Hlen, chunks_concat.
Qed.

Lemma mask_select_rows (Y : FloatTensor) n m flags :
  shape Y = [n; m] →
  mask_select Y (mkTensor [n] flags)
  = Ok (mkTensor
          [length (select_blocks flags (chunks n m (data Y))); m]
          (concat (select_blocks flags (chunks n m (data Y))))).
Proof.
  intros HY. unfold mask_select. simpl. rewrite HY. simpl.
  rewrite decide_True by done. by rewrite !Nat.mul_1_r.
Qed.

(** X21. For a posterior mean of [n] points with [m] outcomes and at
    least one constraint transform, each giving one value per point, the
    points [construct_inputs_qEHVI] keeps are exactly the rows on which
    every transform is at most zero, in their order; with an empty list
    of transforms the stacking of the flags raises [RuntimeError]. *)
Theorem feasible_points_rows cons_tfs vals (Y : FloatTensor) n m :
  shape Y = [n; m] → cons_tfs ≠ [] →
  Forall2 (fun c v => c Y = Ok (mkTensor [n] v) ∧ length v = n)
    cons_tfs vals →
  (∃ R,
     feasible_points cons_tfs Y = Ok R ∧
     let kept :=
       filter (fun pr => Is_true (feasible_at vals pr.1))
         (zip (seq 0 n) (chunks n m (data Y))) in
     shape R = [length kept; m] ∧ data R = concat (kept.*2)) ∧
  (∀ p, feasible_at vals p = true
        ↔ Forall (fun v => (nth p v 0 <= 0)%Q) vals) ∧
  feasible_points [] Y
  = Raise (RuntimeError "stack expects a non-empty TensorList").
Proof.
  intros HY Hne HF. split; [| split; [apply feasible_at_spec | done]].
  unfold feasible_points.
  rewrite (constraint_flags_ok cons_tfs vals Y n HF).
  rewrite Result_bind_Ok.
  assert (Hlens : Forall (fun v => length v = n) vals).
  { clear -HF. induction HF as [|c v cs vs [_ Hv] _ IH]; constructor; done. }
  destruct vals as [|v0 vals'].
  { inversion HF; subst. done. }
  set (ts := (fun v => le_zero (mkTensor [n] v)) <$> (v0 :: vals')).
  assert (Hts : ts = le_zero (mkTensor [n] v0)
                     :: ((fun v => le_zero (mkTensor [n] v)) <$> vals'))
    by done.
  rewrite Hts, stack_last_cons.
  2:{ apply Forall_forall. intros t Ht.
      apply list_elem_of_fmap in Ht as (v & -> & _). done. }
  rewrite <- Hts, Result_bind_Ok.
  change (shape (le_zero (mkTensor [n] v0))) with [n].
  rewrite all_last_concat.
  - rewrite (mask_select_rows Y n m _ HY).
    eexists. split; [done |].
    cbn [shape data numel foldr].
    rewrite Nat.mul_1_r. rewrite <- list_fmap_compose.
    rewrite (select_blocks_filter _ (feasible_at (v0 :: vals'))).
    + split; [by rewrite length_fmap | done].
    + by rewrite length_seq, chunks_length.
    + apply Forall_forall. intros p Hp. apply elem_of_seq in Hp.
      apply (flags_at (v0 :: vals') n p Hlens). lia.
  - apply Forall_forall. intros l Hl.
    apply list_elem_of_fmap in Hl as (p & -> & _). by rewrite length_fmap.
  - by rewrite length_fmap, length_seq.
Qed.
End feasible_points_facts.

Lemma construct_inputs_qEHVI_with_constraints_witness :
  ∃ bundle,
    construct_inputs_qEHVI examples.default_alpha examples2.transforms
      examples2.model examples.block2 examples.thresholds None
      {[ "outcome_constraints" := VTensor examples.A ]} 17 = Ok bundle ∧
    bundle !! "partitioning"
    = Some (BValue (VPartitioning
              (FastNondominatedPartitioning examples.thresholds
                 (mkTensor [2; 2]%nat [-1; 30; 0; 10]%Q)))) ∧
    bundle !! "sampler"
    = Some (BValue (VSampler (SobolQMCNormalSampler 128 (Some 17%Z)))).
Proof.
  destruct (construct_inputs_qEHVI_with_constraints examples.default_alpha
              examples2.transforms examples2.model examples.block2
              examples.thresholds None
              {[ "outcome_constraints" := VTensor examples.A ]} 17%Z
              (VTensor examples.A) examples2.means [select_last 0]
              (mkTensor [2; 2]%nat [-1; 30; 0; 10]%Q) 2%nat false 0%Q
              examples.thresholds (mkTensor [2; 2]%nat [-1; 30; 0; 10]%Q)
              (VSampler (SobolQMCNormalSampler 128 (Some 17%Z))))
    as (bundle & H1 & H2 & _ & _ & H3 & _).
  - reflexivity.
  - reflexivity.
  - discriminate.
  - reflexivity.
  - reflexivity.
  - reflexivity.
  - reflexivity.
  - reflexivity.
  - reflexivity.
  - reflexivity.
  - reflexivity.
  - exists bundle. split; [exact H1 |]. split; [exact H2 | exact H3].
Defined.

Lemma construct_inputs_qEHVI_Y_pmean_keyword_witness :
  construct_inputs_qEHVI examples.default_alpha examples2.transforms
    examples2.model examples.block2 examples.thresholds None
    {[ "Y_pmean" := VTensor examples.Y2 ]} 17
  = Raise (TypeError multiple_values_msg).
Proof.
  apply (construct_inputs_qEHVI_Y_pmean_keyword examples.default_alpha
           examples2.transforms examples2.model examples.block2
           examples.thresholds None {[ "Y_pmean" := VTensor examples.Y2 ]}
           17%Z (VTensor examples.Y2) examples2.means
           (None, examples2.means)).
  - reflexivity.
  - reflexivity.
  - reflexivity.
Defined.

Lemma sampler_or_default_cases_witness :
  sampler_or_default {[ "qmc" := VBool false; "mc_samples" := VInt 64 ]} 17
  = Ok (VSampler (IIDNormalSampler 64 (Some 17%Z))) ∧
  sampler_or_default
    {[ "sampler" := VSampler (IIDNormalSampler 8 None) ]} 17
  = Ok (VSampler (IIDNormalSampler 8 None)).
Proof.
  split.
  - destruct (sampler_or_default_cases
                {[ "qmc" := VBool false; "mc_samples" := VInt 64 ]} 17%Z)
      as (_ & H & _).
    apply (H eq_refl 64%Z false); reflexivity.
  - destruct (sampler_or_default_cases
                {[ "sampler" := VSampler (IIDNormalSampler 8 None) ]} 17%Z)
      as (H & _ & _).
    apply (H (VSampler (IIDNormalSampler 8 None))).
    + reflexivity.
    + discriminate.
Defined.

Lemma construct_inputs_qNEHVI_bundle_witness :
  ∃ bundle,
    construct_inputs_qNEHVI examples2.transforms
      (mkModel (fun _ => Raise (RuntimeError "no posterior")))
      examples.block2 examples.thresholds None ∅ 17 = Ok bundle ∧
    bundle !! "ref_point" = Some (BValue (VTensor examples.thresholds)) ∧
    bundle !! "X_baseline" = Some (BValue (VTensor examples.X)) ∧
    bundle !! "alpha" = Some (BValue (VFloat 0)).
Proof.
  destruct (construct_inputs_qNEHVI_bundle examples2.transforms
              (mkModel (fun _ => Raise (RuntimeError "no posterior")))
              examples.block2 examples.thresholds None ∅ 17%Z None
              (VSampler (SobolQMCNormalSampler 128 (Some 17%Z)))
              examples.thresholds)
    as (bundle & H1 & H2 & _ & H3 & _ & H4 & _).
  - reflexivity.
  - reflexivity.
  - reflexivity.
  - reflexivity.
  - exists bundle. split; [exact H1 |]. split; [exact H2 |].
    split; [apply H3; reflexivity | apply H4; reflexivity].
Defined.

Lemma feasible_points_rows_witness :
  ∃ R,
    feasible_points [select_last 0] examples2.means = Ok R ∧
    shape R = [2; 2]%nat ∧ data R = [-1; 30; 0; 10]%Q.
Proof.
  destruct (feasible_points_rows [select_last 0] [[-1; 5; 0]%Q]
              examples2.means 3%nat 2%nat)
    as [(R & H1 & H2 & H3) _].
  - reflexivity.
  - discriminate.
  - constructor; [| constructor]. split; reflexivity.
  - exists R. split; [exact H1 |]. split; [exact H2 | exact H3].
Defined.

(** ** Knowledge-gradient constructors *)

Section knowledge_gradient_more.
Context (optimize_acqf :
           OptimizeAcqfArgs → Result (FloatTensor * FloatTensor))
        (expand_trace_observations :
           FloatTensor → list Z → Z → Result FloatTensor)
        (project_to_target_fidelity :
           FloatTensor → gmap Z Q → Result FloatTensor)
        (repr_set : gset Z → string).

Local Abbreviation qKG := (construct_inputs_qKG optimize_acqf).
Local Abbreviation qMFKG :=
  (construct_inputs_qMFKG optimize_acqf expand_trace_observations
     project_to_target_fidelity repr_set).
Local Abbreviation mf_base :=
  (construct_inputs_mf_base expand_trace_observations
     project_to_target_fidelity repr_set).

Lemma chunks_pairs (bounds : list (Q * Q)) :
  chunks (length bounds) 2 (concat ((fun lu => [lu.1; lu.2]) <$> bounds))
  = (fun lu => [lu.1; lu.2]) <$> bounds.
Proof.
  rewrite <- (length_fmap (fun lu : Q * Q => [lu.1; lu.2]) bounds) at 1.
  apply chunks_concat. apply Forall_forall. intros l Hl.
  by apply list_elem_of_fmap in Hl as (lu & -> & _).
Qed.

(** The bounds tensor handed to [optimize_objective]: the lower bounds,
    then the upper bounds. *)
Lemma bounds_transposed (bounds : list (Q * Q)) :
  bounds ≠ [] →
  t_ (tensor_of_bounds bounds)
  = Ok (mkTensor [2%nat; length bounds] (bounds.*1 ++ bounds.*2)).
Proof.
  intros Hne. destruct bounds as [|lu0 rest]; [done |].
  unfold tensor_of_bounds, t_.
  cbn [shape data seq fmap list_fmap concat].
  unfold column. rewrite chunks_pairs.
  rewrite <- !list_fmap_compose. rewrite app_nil_r. done.
Qed.

Lemma bounds_tensor_returns (bounds : list (Q * Q)) :
  ∃ bounds_t, t_ (tensor_of_bounds bounds) = Ok bounds_t.
Proof.
  destruct bounds as [|lu rest]; [by eexists |].
  eexists. by apply bounds_transposed.
Qed.

(** X22. [construct_inputs_qMFKG] validates the fidelity keys before
    anything else: when the keys of [fidelity_weights] differ from the
    keys of [target_fidelities] it raises the [RuntimeError] of
    [construct_inputs_mf_base], and the optimizer is not called. *)
Theorem construct_inputs_qMFKG_checks_fidelities_first
    model td objective bounds tf kwargs w :
  kw_fidelity_weights kwargs = Some w → dom w ≠ dom tf →
  qMFKG model td objective bounds tf kwargs
  = Raise (RuntimeError
      ("Must provide the same indices for target_fidelities "
       +:+ "(" +:+ repr_set (dom tf)
       +:+ ") and fidelity_weights "
       +:+ " (" +:+ repr_set (dom w) +:+ ").")).
Proof.
  intros Hw Hne. unfold construct_inputs_qMFKG. rewrite Hw.
  by rewrite (mf_base_mismatch expand_trace_observations
                project_to_target_fidelity repr_set model td tf w _ _ ∅ Hne).
Qed.

(** X23. On block-design training data [construct_inputs_qKG], called
    without a keyword [q], optimizes the objective once, for a single
    point ([q = 1]) over the [2 x d] tensor of lower and upper bounds,
    and its ["current_value"] is the largest of the values the optimizer
    returns; an exception of the optimization is raised by the
    constructor, and so is the [RuntimeError] of taking the maximum of no
    value.  The bundle has the keys of [construct_inputs_mc_base] and
    ["num_fantasies"], ["current_value"]. *)
Theorem construct_inputs_qKG_current_value
    model td objective bounds tf kwargs :
  TrainingData.is_block_design td = true →
  bounds ≠ [] → kw_q kwargs = None →
  let bounds_t :=
    mkTensor [2%nat; length bounds] (bounds.*1 ++ bounds.*2) in
  let optimized :=
    optimize_objective optimize_acqf model objective bounds_t 1
      (kw_linear_constraints kwargs) (kw_fixed_features kwargs) tf
      (kw_qmc kwargs) (kw_mc_samples kwargs) (kw_seed_inner kwargs)
      (kw_optimizer_options kwargs) (kw_post_processing_func kwargs)
      (kw_batch_initial_conditions kwargs) (kw_sequential kwargs) in
  (∀ X values, optimized = Ok (X, values) → data values ≠ [] →
     ∃ bundle v,
       qKG model td objective bounds tf kwargs = Ok bundle ∧
       bundle !! "current_value" = Some (VTensor (scalar v)) ∧
       is_max v (data values) ∧
       bundle !! "num_fantasies" = Some (VInt (kw_num_fantasies kwargs)) ∧
       dom bundle
       = {[ "model"; "objective"; "X_pending"; "sampler"; "num_fantasies";
            "current_value" ]}) ∧
  (∀ X values, optimized = Ok (X, values) → data values = [] →
     ∃ msg, qKG model td objective bounds tf kwargs
            = Raise (RuntimeError msg)) ∧
  (∀ e, optimized = Raise e →
     qKG model td objective bounds tf kwargs = Raise e).
Proof.
  intros _ Hne Hq bounds_t optimized.
  assert (E : qKG model td objective bounds tf kwargs
    = match optimized with
      | Raise e => Raise e
      | Ok (_, current_value) =>
          match max_all current_value with
          | Raise e => Raise e
          | Ok best =>
              Ok (<["current_value" := VTensor best]>
                 (<["num_fantasies" := VInt (kw_num_fantasies kwargs)]>
                 (<["sampler" := of_option VSampler (kw_sampler kwargs)]>
                 (<["X_pending" := of_option VTensor (kw_X_pending kwargs)]>
                 (<["objective" := VObjective objective]>
                    {["model" := VModel model]})))))
          end
      end).
  { unfold construct_inputs_qKG. cbn [construct_inputs_mc_base].
    by rewrite (bounds_transposed bounds Hne), Hq. }
  rewrite E. split; [| split].
  - intros X values -> Hv. unfold max_all.
    destruct (data values) as [|x r] eqn:Hd; [done |].
    eexists _, (list_max (x :: r)). split; [done |].
    split; [by rewrite lookup_insert_eq |].
    split; [by apply list_max_is_max |].
    split; [by rewrite lookup_insert_ne, lookup_insert_eq by done |].
    rewrite !dom_insert_L, dom_singleton_L. set_solver.
  - intros X values -> Hv. unfold max_all. rewrite Hv. eauto.
  - by intros e ->.
Qed.

Lemma construct_inputs_qKG_keys model td objective bounds tf kwargs kg :
  qKG model td objective bounds tf kwargs = Ok kg →
  dom kg
  = {[ "model"; "objective"; "X_pending"; "sampler"; "num_fantasies";
       "current_value" ]}.
Proof.
  unfold construct_inputs_qKG. cbn [construct_inputs_mc_base].
  destruct (t_ _) as [bt|]; [| done].
  destruct (kw_q kwargs); [done |].
  destruct (optimize_objective _ _ _ _ _ _ _ _ _ _ _ _ _ _ _)
    as [[X values]|]; [| done].
  destruct (max_all values) as [best|]; [| done].
  intros [= <-]. rewrite !dom_insert_L, dom_singleton_L. set_solver.
Qed.

(** X24. On block-design training data, when both parts return, the
    bundle of [construct_inputs_qMFKG] is the bundle of
    [construct_inputs_qKG] (called without target fidelities) together
    with the bundle of [construct_inputs_mf_base]: their key sets are
    disjoint, so no entry of either is overwritten, and the result has
    ten keys. *)
Theorem construct_inputs_qMFKG_bundle
    model td objective bounds tf kwargs mf kg :
  TrainingData.is_block_design td = true →
  mf_base model td tf (kw_fidelity_weights kwargs)
    (kw_cost_intercept kwargs) (kw_num_trace_observations kwargs) ∅
  = Ok mf →
  qKG model td objective bounds None kwargs = Ok kg →
  ∃ bundle,
    qMFKG model td objective bounds tf kwargs = Ok bundle ∧
    (∀ k v, mf !! k = Some v → bundle !! k = Some v) ∧
    (∀ k v, kg !! k = Some v → bundle !! k = Some v) ∧
    dom mf ## dom kg ∧
    dom bundle
    = {[ "target_fidelities"; "cost_aware_utility"; "expand"; "project";
         "model"; "objective"; "X_pending"; "sampler"; "num_fantasies";
         "current_value" ]}.
Proof.
  intros _ Hmf Hkg.
  assert (Dmf : dom mf
    = {[ "target_fidelities"; "cost_aware_utility"; "expand"; "project" ]}).
  { revert Hmf. unfold construct_inputs_mf_base.
    case_decide; [done |]. intros [= <-].
    rewrite !dom_insert_L, dom_singleton_L. set_solver. }
  pose proof (construct_inputs_qKG_keys _ _ _ _ _ _ _ Hkg) as Dkg.
  assert (Hdisj : dom mf ## dom kg).
  { rewrite Dmf, Dkg. apply (bool_decide_unpack _). vm_compute. exact I. }
  unfold construct_inputs_qMFKG. rewrite Hmf, Hkg.
  eexists. split; [done |]. split; [| split; [| split]].
  - intros k v Hk. apply lookup_union_Some_raw. right. split; [| done].
    apply not_elem_of_dom. intros Hin.
    apply (Hdisj k); [by apply elem_of_dom_2 in Hk | done].
  - intros k v Hk. apply lookup_union_Some_raw. by left.
  - done.
  - rewrite dom_union_L, Dmf, Dkg. set_solver.
Qed.

(** X25. A keyword [q] cannot be given to the knowledge-gradient
    constructors.  On block-design training data
    [construct_inputs_qKG] sets [q=1] in its call of
    [optimize_objective] and hands on the caller's keywords as well, so
    the call raises a [TypeError] and the optimizer is not run;
    [construct_inputs_qMFKG], which hands the keyword on to
    [construct_inputs_qKG], returns no bundle either, and raises the
    same [TypeError] when the fidelity keys agree. *)
Theorem knowledge_gradient_rejects_q
    model td objective bounds tf tf' kwargs q :
  TrainingData.is_block_design td = true →
  kw_q kwargs = Some q →
  qKG model td objective bounds tf kwargs = Raise multiple_values_for_q ∧
  (∀ bundle, qMFKG model td objective bounds tf' kwargs ≠ Ok bundle) ∧
  ((∀ w, kw_fidelity_weights kwargs = Some w → dom w = dom tf') →
   qMFKG model td objective bounds tf' kwargs
   = Raise multiple_values_for_q).
Proof.
  intros _ Hq.
  assert (E : ∀ tf0, qKG model td objective bounds tf0 kwargs
                     = Raise multiple_values_for_q).
  { intros tf0. unfold construct_inputs_qKG.
    cbn [construct_inputs_mc_base]. rewrite Hq.
    by destruct (bounds_tensor_returns bounds) as [bounds_t ->]. }
  split; [apply E |]. split.
  - intros bundle. unfold construct_inputs_qMFKG. rewrite E.
    by destruct (construct_inputs_mf_base _ _ _ _ _ _ _ _ _ _).
  - intros Hd. unfold construct_inputs_qMFKG. rewrite E.
    by rewrite (mf_base_match expand_trace_observations
                  project_to_target_fidelity repr_set model td tf'
                  (kw_fidelity_weights kwargs) _ _ ∅ Hd).
Qed.
End knowledge_gradient_more.

Lemma construct_inputs_qMFKG_checks_fidelities_first_witness :
  construct_inputs_qMFKG
    (fun _ => Raise (ValueError "the optimizer was called"))
    examples.expand examples.project examples.repr_set examples.model
    examples.block1 (column_objective 0) [(0, 1); (0, 1)]%Q
    examples.target_fidelities
    (mkKeywords None None None None true 512 None None VNone None false
       (Some {[ 0%Z := 1%Q ]}) 1 0 64 None)
  = Raise (RuntimeError
      ("Must provide the same indices for target_fidelities "
       +:+ "(" +:+ examples.repr_set (dom examples.target_fidelities)
       +:+ ") and fidelity_weights "
       +:+ " (" +:+ examples.repr_set (dom ({[ 0%Z := 1%Q ]} : gmap Z Q))
       +:+ ").")).
Proof.
  apply (construct_inputs_qMFKG_checks_fidelities_first
           (fun _ => Raise (ValueError "the optimizer was called"))
           examples.expand examples.project examples.repr_set examples.model
           examples.block1 (column_objective 0) [(0, 1); (0, 1)]%Q
           examples.target_fidelities _ {[ 0%Z := 1%Q ]}).
  - reflexivity.
  - apply (bool_decide_unpack _). vm_compute. exact I.
Defined.

Lemma construct_inputs_qKG_current_value_witness :
  ∃ bundle v,
    construct_inputs_qKG
      (fun args => Ok (bounds args, mkTensor [3]%nat [2; 7; 5]%Q))
      examples.model examples.block1 (column_objective 0)
      [(0, 1); (0, 2)]%Q None no_keywords = Ok bundle ∧
    bundle !! "current_value" = Some (VTensor (scalar v)) ∧
    is_max v [2; 7; 5]%Q ∧
    bundle !! "num_fantasies" = Some (VInt 64).
Proof.
  destruct (construct_inputs_qKG_current_value
              (fun args => Ok (bounds args, mkTensor [3]%nat [2; 7; 5]%Q))
              examples.model examples.block1 (column_objective 0)
              [(0, 1); (0, 2)]%Q None no_keywords) as [H _].
  - reflexivity.
  - discriminate.
  - reflexivity.
  - edestruct H as (bundle & v & H1 & H2 & H3 & H4 & _).
    + reflexivity.
    + discriminate.
    + exists bundle, v. split; [exact H1 |]. split; [exact H2 |].
      split; [exact H3 | exact H4].
Defined.

Lemma construct_inputs_qMFKG_bundle_witness :
  ∃ bundle,
    construct_inputs_qMFKG examples.optimizer examples.expand
      examples.project examples.repr_set examples.model examples.block1
      (column_objective 0) [(0, 1); (0, 1)]%Q examples.target_fidelities
      no_keywords = Ok bundle ∧
    dom bundle
    = {[ "target_fidelities"; "cost_aware_utility"; "expand"; "project";
         "model"; "objective"; "X_pending"; "sampler"; "num_fantasies";
         "current_value" ]}.
Proof.
  edestruct (construct_inputs_qMFKG_bundle examples.optimizer
               examples.expand examples.project examples.repr_set
               examples.model examples.block1 (column_objective 0)
               [(0, 1); (0, 1)]%Q examples.target_fidelities no_keywords)
    as (bundle & H1 & _ & _ & _ & H2).
  - reflexivity.
  - reflexivity.
  - reflexivity.
  - exists bundle. split; [exact H1 | exact H2].
Defined.

Lemma knowledge_gradient_rejects_q_witness :
  construct_inputs_qMFKG examples.optimizer examples.expand
    examples.project examples.repr_set examples.model examples.block1
    (column_objective 0) [(0, 1); (0, 1)]%Q examples.target_fidelities
    (mkKeywords None None None None true 512 None None VNone None false
       None 1 0 64 (Some 2%Z))
  = Raise multiple_values_for_q.
Proof.
  destruct (knowledge_gradient_rejects_q examples.optimizer examples.expand
              examples.project examples.repr_set examples.model
              examples.block1 (column_objective 0) [(0, 1); (0, 1)]%Q None
              examples.target_fidelities
              (mkKeywords None None None None true 512 None None VNone None
                 false None 1 0 64 (Some 2%Z)) 2%Z)
    as (_ & _ & H).
  - reflexivity.
  - reflexivity.
  - apply H. intros w Hw. discriminate Hw.
Defined.
